(** * The batched parallel-fetch engine of tiktok-downloader

    A shallow embedding of [main.py] (the command-line downloader) and of
    the [TikTokDownloader] class of [tiktok_downloader_gui.py], and the
    properties of the record extractor, the fetch worker and the two batch
    schedulers.

    Conventions.  A Python [str] is a [string] whose characters are code
    points below 256.  A dict used as a record is a Rocq record, a missing
    key an [option].  The filesystem is a finite map from paths to file
    contents.  Everything outside the process (the HTTP server, the order
    in which futures complete, the console, the stop button) is an oracle
    that reads the current world.  The schedulers are stated over any
    type of worlds and any worker, so that what is proved of them holds
    for every interleaving of the pool's threads; the programs [run]
    instantiate them with [download_video] and the filesystem. *)

From stdpp Require Import gmap strings list sorting.
From Stdlib Require Import Ascii.

(** ** Python string operations *)

Module Py.

(** [str.isspace] on one character, for code points below 256. *)
Definition isspace (c : ascii) : bool :=
  let n := nat_of_ascii c in
  ((9 <=? n) && (n <=? 13)) || ((28 <=? n) && (n <=? 32))
  || (n =? 133) || (n =? 160).

(** [str.lower] on one character, for code points below 256. *)
Definition lower_char (c : ascii) : ascii :=
  let n := nat_of_ascii c in
  if ((65 <=? n) && (n <=? 90))
     || ((192 <=? n) && (n <=? 222) && negb (n =? 215))
  then ascii_of_nat (n + 32) else c.

Fixpoint lower (s : string) : string :=
  match s with
  | EmptyString => EmptyString
  | String c s' => String (lower_char c) (lower s')
  end.

Fixpoint lstrip (s : string) : string :=
  match s with
  | EmptyString => EmptyString
  | String c s' => if isspace c then lstrip s' else s
  end.

Fixpoint rstrip (s : string) : string :=
  match s with
  | EmptyString => EmptyString
  | String c s' =>
      let r := rstrip s' in
      if isspace c && String.eqb r EmptyString then EmptyString else String c r
  end.

(** [s.strip()] *)
Definition strip (s : string) : string := rstrip (lstrip s).

(** [s.split(sep)] for a one-character separator: never empty, keeps
    empty fields. *)
Fixpoint split_on (sep : ascii) (s : string) : list string :=
  match s with
  | EmptyString => [EmptyString]
  | String c s' =>
      if Ascii.eqb c sep then EmptyString :: split_on sep s'
      else match split_on sep s' with
           | w :: ws => String c w :: ws
           | [] => [String c EmptyString]
           end
  end.

(** [s.split()]: maximal runs of non-blank characters. *)
Fixpoint split_go (cur : option string) (s : string) : list string :=
  match s with
  | EmptyString =>
      match cur with Some w => [String.rev w] | None => [] end
  | String c s' =>
      if isspace c then
        match cur with
        | Some w => String.rev w :: split_go None s'
        | None => split_go None s'
        end
      else
        split_go (Some (String c (default EmptyString cur))) s'
  end.

Definition split (s : string) : list string := split_go None s.

(** [s.startswith(prefix)] *)
Fixpoint startswith (s prefix : string) {struct prefix} : bool :=
  match prefix, s with
  | EmptyString, _ => true
  | String a prefix', String b s' => Ascii.eqb a b && startswith s' prefix'
  | String _ _, EmptyString => false
  end.

(** [sub in s] *)
Fixpoint contains (sub s : string) : bool :=
  startswith s sub
  || match s with
     | EmptyString => false
     | String _ s' => contains sub s'
     end.

(** [s.endswith(suffix)] *)
Fixpoint endswith (s suffix : string) : bool :=
  String.eqb s suffix
  || match s with
     | EmptyString => false
     | String _ s' => endswith s' suffix
     end.

(** Truth value of a [str]. *)
Definition truthy (s : string) : bool := negb (String.eqb s EmptyString).

(** [os.path.join(a, b)] for a relative [b]. *)
Definition path_join (a b : string) : string :=
  if String.eqb a EmptyString || endswith a "/" then a +:+ b
  else a +:+ "/" +:+ b.

(** [range(0, stop, step)] for [step >= 1]. *)
Fixpoint range_from (fuel start stop step : nat) : list nat :=
  match fuel with
  | 0 => []
  | S fuel' =>
      if start <? stop
      then start :: range_from fuel' (start + step) stop step
      else []
  end.

Definition range (stop step : nat) : list nat :=
  range_from stop 0 stop step.

(** [l[i:j]] for [0 <= i <= j]. *)
Definition slice {A} (l : list A) (i j : nat) : list A :=
  take (j - i) (drop i l).

End Py.

(** ** Data model *)

(** One entry of [VideoList] in the export: [video.get('Link')] and
    [video.get('Date')], both strings when present. *)
Record raw_video := { Link : option string; Date : option string }.

(** The nesting [data['Video']['Videos']['VideoList']], each level a dict
    that may lack the key. *)
Record videos_dict := { VideoList : option (list raw_video) }.
Record video_dict := { Videos : option videos_dict }.
Record schema := { Video : option video_dict }.

(** The dict appended to [videos] by [add_video]. *)
Record video_info := {
  url : string;
  date : string;
  type : string;
  is_personal : bool
}.

Global Instance video_info_eq_dec : EqDecision video_info.
Proof. solve_decision. Defined.

(** ** Record extractor: [get_video_links]

    The function is the same, statement for statement, in [main.py]
    (lines 49 to 91) and in [tiktok_downloader_gui.py] (lines 510 to
    549). *)

Definition newline : ascii := ascii_of_nat 10.

(** One turn of [for url in urls] inside [add_video]; the state is the
    pair of the closure variables [videos] and [processed_urls]. *)
Definition add_url (video : raw_video) (video_type : string)
    (is_personal : bool) (st : list video_info * gset string)
    (url0 : string) : list video_info * gset string :=
  let url := Py.strip url0 in
  if negb (Py.truthy url) || bool_decide (url ∈ st.2) then st
  else (st.1 ++ [{| url := url;
                    date := default EmptyString (Date video);
                    type := video_type;
                    is_personal := is_personal |}],
        {[ url ]} ∪ st.2).

Definition add_video (video_type : string) (is_personal : bool)
    (st : list video_info * gset string) (video : raw_video)
    : list video_info * gset string :=
  match Link video with
  | None => st
  | Some link =>
      if negb (Py.truthy link) then st
      else foldl (add_url video video_type is_personal) st
                 (Py.split_on newline link)
  end.

(** [videos.sort(key=lambda x: x['date'], reverse=True)]: a stable sort,
    largest key first, equal keys in their original order. *)
Fixpoint insert_desc (v : video_info) (l : list video_info)
    : list video_info :=
  match l with
  | [] => [v]
  | w :: l' =>
      if String.ltb (date v) (date w) then w :: insert_desc v l'
      else v :: l
  end.

Definition sort_by_date_desc (l : list video_info) : list video_info :=
  foldr insert_desc [] l.

(** The list walked by the one loop of [get_video_links]. *)
Definition video_list (data : schema) : list raw_video :=
  match Video data with
  | Some v =>
      match Videos v with
      | Some vs => default [] (VideoList vs)
      | None => []
      end
  | None => []
  end.

Definition get_video_links (data : schema) : list video_info :=
  let st := foldl (add_video "posted" true) ([], ∅) (video_list data) in
  sort_by_date_desc st.1.

(** The counts of the summary line logged by [get_video_links]:
    found, personal, other. *)
Definition personal_count (videos : list video_info) : nat :=
  length (filter (fun v => is_personal v = true) videos).

Definition summary_counts (videos : list video_info) : nat * nat * nat :=
  (length videos, personal_count videos,
   length videos - personal_count videos).

(** ** The world outside the process *)

(** What one [requests.get(url, stream=True, timeout=30)] followed by
    [raise_for_status()] and the chunk loop meets. *)
Inductive response :=
  | Refused
      (** [requests.get] or [raise_for_status] raises: transport error,
          timeout, or a status that is not a success *)
  | Streams (chunks : list string) (complete : bool).
      (** the status is a success; [iter_content] yields [chunks] and then
          ends ([complete = true]) or raises ([complete = false]) *)

(** The two files that the handlers of the [logging] module append every
    log record to (main.py lines 13 to 27, GUI lines 75 to 89). *)
Definition log_files : list string := ["errors.log"; "videos.log"].

Definition is_log_file (path : string) : bool :=
  bool_decide (path ∈ log_files).

(** [files] holds the files other than the two log files: the records
    appended to those are not part of the world, and no statement below
    is about their content.  [opens] tells whether [open(path, 'wb')]
    succeeds: whether the directory of the path exists and takes a file
    of that name. *)
Record world := {
  files : gmap string string;  (** path to content, log files left out *)
  requests : list string;      (** URLs given to [requests.get], oldest first *)
  sleeps : list nat;           (** arguments of [time.sleep], oldest first *)
  prompts : nat;               (** number of console lines read by [input] *)
  opens : string → bool        (** paths that [open(path, 'wb')] can open *)
}.

Definition set_files (f : gmap string string → gmap string string)
    (w : world) : world :=
  {| files := f (files w); requests := requests w;
     sleeps := sleeps w; prompts := prompts w; opens := opens w |}.

Definition log_request (u : string) (w : world) : world :=
  {| files := files w; requests := requests w ++ [u];
     sleeps := sleeps w; prompts := prompts w; opens := opens w |}.

(** [time.sleep(n)] *)
Definition sleep (n : nat) (w : world) : world :=
  {| files := files w; requests := requests w;
     sleeps := sleeps w ++ [n]; prompts := prompts w; opens := opens w |}.

(** [os.path.exists(path)] *)
Definition os_path_exists (path : string) (w : world) : bool :=
  bool_decide (is_Some (files w !! path)).

(** [os.path.getsize(path)] of an existing file. *)
Definition os_path_getsize (path : string) (w : world) : nat :=
  String.length (default EmptyString (files w !! path)).

(** [input(prompt)] at a console whose [n]-th line is [console n], [None]
    once it is closed ([EOFError]). *)
Definition console_input (console : nat → option string) (w : world)
    : option string * world :=
  (console (prompts w),
   {| files := files w; requests := requests w;
      sleeps := sleeps w; prompts := prompts w + 1; opens := opens w |}).

(** ** Destination path

    The first statements of [download_video], the same in both files. *)

Section Destination.

(** [hashlib.md5(s.encode()).hexdigest()] *)
Variable md5_hexdigest : string → string.

(** [video_info['date'].split()[0] if video_info['date'] else
    'unknown_date']; [None] is the [IndexError] of a date made of blanks
    only. *)
Definition date_str (video_info : video_info) : option string :=
  if Py.truthy (date video_info)
  then head (Py.split (date video_info))
  else Some "unknown_date".

Definition url_hash (url : string) : string :=
  String.substring 0 8 (md5_hexdigest url).

Definition prefix (is_personal : bool) : string :=
  if is_personal then "personal" else "other".

Definition image_exts : list string := [".jpg"; ".jpeg"; ".png"; ".webp"].

(** [any(ext in url.lower() for ext in ['.jpg', '.jpeg', '.png', '.webp'])] *)
Definition is_image (url : string) : bool :=
  existsb (fun ext => Py.contains ext (Py.lower url)) image_exts.

Definition extension (url : string) : string :=
  if is_image url then ".jpg" else ".mp4".

(** [f"{prefix}_{date_str}_{video_type}_{url_hash}{extension}"] *)
Definition filename (video_info : video_info) : option string :=
  d ← date_str video_info;
  Some (prefix (is_personal video_info) +:+ "_" +:+ d +:+ "_"
        +:+ type video_info +:+ "_" +:+ url_hash (url video_info)
        +:+ extension (url video_info)).

(** [os.path.join(self.download_dir, filename)] *)
Definition filepath (download_dir : string) (video_info : video_info)
    : option string :=
  Py.path_join download_dir <$> filename video_info.

End Destination.

(** ** Fetch worker: the retry loop of [download_video] *)

Section Fetch.

(** The server: what a request for a URL meets in the current world. *)
Variable http_get : world → string → response.

Definition max_retries : nat := 3.

(** The body of [with open(filepath, 'wb') as f], once the file is
    open: the file is created empty, every non-empty chunk is appended. *)
Definition write_chunks (chunks : list string) : string :=
  foldl (fun content chunk =>
           if Py.truthy chunk then content +:+ chunk else content)
        EmptyString chunks.

(** The [try] block of one attempt; [true] when it reaches
    [return filepath], [false] when it raises.  The file is opened after
    the request, inside the [try]: when [open] raises, the attempt fails
    with the request made and no file written.  A [f.write] that raises
    ends the chunk loop as a broken stream does: it is a response with
    [complete = false] whose chunks are those written before. *)
Definition try_fetch (url filepath : string) (w : world) : bool * world :=
  let w1 := log_request url w in
  match http_get w url with
  | Refused => (false, w1)
  | Streams chunks complete =>
      if opens w filepath
      then (complete, set_files <[filepath := write_chunks chunks]> w1)
      else (false, w1)
  end.

(** [for attempt in range(max_retries)], then the [return None] after
    the loop.  The [raise] of the last attempt is caught by the outer
    [except], which returns [None]. *)
Fixpoint retry_loop (attempts : list nat) (url filepath : string)
    (w : world) : option string * world :=
  match attempts with
  | [] => (None, w)
  | attempt :: rest =>
      match try_fetch url filepath w with
      | (true, w') => (Some filepath, w')
      | (false, w') =>
          if attempt <? max_retries - 1
          then retry_loop rest url filepath (sleep 2 w')
          else (None, w')
      end
  end.

End Fetch.

(** ** Control flow of the schedulers *)

Inductive exn := EOFError | ValueError | NameError | KeyError.

(** How a statement ends. *)
Inductive completion (R : Type) :=
  | Normal
  | Continue
  | Break
  | Return (r : R)
  | Raise (e : exn).
Arguments Normal {R}.
Arguments Continue {R}.
Arguments Break {R}.
Arguments Return {R} r.
Arguments Raise {R} e.

(** A statement over the local variables [S] of a function returning [R]. *)
Definition stmt (S R : Type) : Type := S → completion R * S.

Section Control.

Context {S R : Type}.

Definition skip : stmt S R := fun s => (Normal, s).

(** An assignment or a call that cannot fail. *)
Definition exec (f : S → S) : stmt S R := fun s => (Normal, f s).

Definition signal (c : completion R) : stmt S R := fun s => (c, s).

(** [a; b] *)
Definition then_ (a b : stmt S R) : stmt S R := fun s =>
  match a s with
  | (Normal, s') => b s'
  | other => other
  end.

(** [if cond: a else: b] *)
Definition if_ (cond : S → bool) (a b : stmt S R) : stmt S R := fun s =>
  if cond s then a s else b s.

(** What a loop does with the completion of one turn of its body:
    [None] to go on with the next turn, [Some c] to leave with [c]. *)
Definition after_turn (c : completion R) : option (completion R) :=
  match c with
  | Normal | Continue => None
  | Break => Some Normal
  | Return r => Some (Return r)
  | Raise e => Some (Raise e)
  end.

(** [for x in l: body] *)
Fixpoint for_ {A} (l : list A) (body : A → stmt S R) : stmt S R := fun s =>
  match l with
  | [] => (Normal, s)
  | x :: l' =>
      let (c, s') := body x s in
      match after_turn c with
      | None => for_ l' body s'
      | Some c' => (c', s')
      end
  end.

(** [try: body finally: handler].  A [finally] clause that ends with
    [continue], [break], [return] or an exception of its own replaces
    the pending completion of the [try] block. *)
Definition try_finally (body handler : stmt S R) : stmt S R := fun s =>
  let (c1, s1) := body s in
  let (c2, s2) := handler s1 in
  (match c2 with Normal => c1 | _ => c2 end, s2).

End Control.

Notation "a >> b" := (then_ a b) (at level 90, right associativity).

(** ** State of a scheduler run *)

(** What [future.result()] gives: the value returned by the submitted
    call, or an exception.  [download_video] returns a [str] or [None]. *)
Inductive future_result :=
  | Result (r : option string)
  | Exception.

(** [if result:] *)
Definition result_truthy (r : option string) : bool :=
  match r with
  | Some path => Py.truthy path
  | None => false
  end.

(** The observable actions of a run, oldest first in [log]: the log lines
    that carry data, the calls on the executor and the progress callback. *)
Inductive event :=
  | ProcessingBatch (number : nat)      (** "Processing batch n (...)" *)
  | StoppingAtUserRequest               (** "Stopping at user request" *)
  | DownloadStoppedByUser               (** "Download stopped by user" *)
  | Submitted (batch : list video_info) (** [executor.submit] for the batch *)
  | SkippingDuplicate (url : string)    (** "Skipping duplicate URL" *)
  | Verified (path : string)            (** "Verified successful download" *)
  | Invalid (path : string)             (** "... but file is invalid" *)
  | FailedToProcess (url : string)      (** "Failed to process video" *)
  | ExceptionWhile (url : string)       (** "Exception while processing" *)
  | Progress (processed total : nat)    (** [self.gui_callback(...)] *)
  | CancelPending                       (** [f.cancel()] for every future *)
  | Shutdown (wait : bool)              (** [executor.shutdown(wait=...)] *)
  | BatchSummary (number successful failed : nat)
  | OverallSummary (unique successful failed : nat).

Global Instance event_eq_dec : EqDecision event.
Proof. solve_decision. Defined.

(** The local variables of [parallel_download_videos], the log and the
    world.  [future] is the loop variable of the completion loop, tagged
    with the start index of the batch whose [future_to_video] holds it. *)
Record locals (W : Type) := {
  all_successful_downloads : list string;
  all_failed_downloads : list string;
  processed_urls : gset string;
  videos_processed : nat;
  successful_downloads : list string;
  failed_downloads : list string;
  future : option (nat * video_info * future_result);
  log : list event;
  env : W
}.
Arguments all_successful_downloads {W} _.
Arguments all_failed_downloads {W} _.
Arguments processed_urls {W} _.
Arguments videos_processed {W} _.
Arguments successful_downloads {W} _.
Arguments failed_downloads {W} _.
Arguments future {W} _.
Arguments log {W} _.
Arguments env {W} _.

Section Locals.

Context {W : Type}.
Implicit Type s : locals W.

Definition initial (w : W) : locals W :=
  {| all_successful_downloads := []; all_failed_downloads := [];
     processed_urls := ∅; videos_processed := 0;
     successful_downloads := []; failed_downloads := [];
     future := None; log := []; env := w |}.

Definition set_env (w : W) s : locals W :=
  {| all_successful_downloads := all_successful_downloads s;
     all_failed_downloads := all_failed_downloads s;
     processed_urls := processed_urls s;
     videos_processed := videos_processed s;
     successful_downloads := successful_downloads s;
     failed_downloads := failed_downloads s;
     future := future s; log := log s; env := w |}.

Definition set_future (f : nat * video_info * future_result) s
    : locals W :=
  {| all_successful_downloads := all_successful_downloads s;
     all_failed_downloads := all_failed_downloads s;
     processed_urls := processed_urls s;
     videos_processed := videos_processed s;
     successful_downloads := successful_downloads s;
     failed_downloads := failed_downloads s;
     future := Some f; log := log s; env := env s |}.

(** [logger.info(...)], an executor call, or the progress callback: the
    event joins the log of the run.  The handlers of [logging] also
    append each record to a log file; those two files are not among the
    [files] of the world.  The log calls inside [download_video] tell
    nothing that the schedulers read and are no events. *)
Definition emit (e : event) s : locals W :=
  {| all_successful_downloads := all_successful_downloads s;
     all_failed_downloads := all_failed_downloads s;
     processed_urls := processed_urls s;
     videos_processed := videos_processed s;
     successful_downloads := successful_downloads s;
     failed_downloads := failed_downloads s;
     future := future s; log := log s ++ [e]; env := env s |}.

(** [successful_downloads = []; failed_downloads = []] *)
Definition new_batch_lists s : locals W :=
  {| all_successful_downloads := all_successful_downloads s;
     all_failed_downloads := all_failed_downloads s;
     processed_urls := processed_urls s;
     videos_processed := videos_processed s;
     successful_downloads := []; failed_downloads := [];
     future := future s; log := log s; env := env s |}.

(** [processed_urls.add(url)] *)
Definition add_processed (url : string) s : locals W :=
  {| all_successful_downloads := all_successful_downloads s;
     all_failed_downloads := all_failed_downloads s;
     processed_urls := {[ url ]} ∪ processed_urls s;
     videos_processed := videos_processed s;
     successful_downloads := successful_downloads s;
     failed_downloads := failed_downloads s;
     future := future s; log := log s; env := env s |}.

(** [videos_processed += 1] *)
Definition count_processed s : locals W :=
  {| all_successful_downloads := all_successful_downloads s;
     all_failed_downloads := all_failed_downloads s;
     processed_urls := processed_urls s;
     videos_processed := videos_processed s + 1;
     successful_downloads := successful_downloads s;
     failed_downloads := failed_downloads s;
     future := future s; log := log s; env := env s |}.

(** [successful_downloads.append(path)] *)
Definition append_successful (path : string) s : locals W :=
  {| all_successful_downloads := all_successful_downloads s;
     all_failed_downloads := all_failed_downloads s;
     processed_urls := processed_urls s;
     videos_processed := videos_processed s;
     successful_downloads := successful_downloads s ++ [path];
     failed_downloads := failed_downloads s;
     future := future s; log := log s; env := env s |}.

(** [failed_downloads.append(url)] *)
Definition append_failed (url : string) s : locals W :=
  {| all_successful_downloads := all_successful_downloads s;
     all_failed_downloads := all_failed_downloads s;
     processed_urls := processed_urls s;
     videos_processed := videos_processed s;
     successful_downloads := successful_downloads s;
     failed_downloads := failed_downloads s ++ [url];
     future := future s; log := log s; env := env s |}.

(** [all_successful_downloads.extend(successful_downloads)];
    [all_failed_downloads.extend(failed_downloads)] *)
Definition extend_totals s : locals W :=
  {| all_successful_downloads :=
       all_successful_downloads s ++ successful_downloads s;
     all_failed_downloads := all_failed_downloads s ++ failed_downloads s;
     processed_urls := processed_urls s;
     videos_processed := videos_processed s;
     successful_downloads := successful_downloads s;
     failed_downloads := failed_downloads s;
     future := future s; log := log s; env := env s |}.

End Locals.

(** ** The code shared by the two schedulers *)

Section Completions.

Context {W : Type}.

(** A submitted [download_video] call run to completion. *)
Variable submit : video_info → W → future_result * W.

(** [os.path.exists] and [os.path.getsize]. *)
Variable path_exists : string → W → bool.
Variable getsize : string → W → nat.

(** Which of the pending futures completes first in the current world;
    the index is taken modulo the number of pending futures. *)
Variable completes_first : W → list video_info → nat.

Local Abbreviation prog := (stmt (locals W) (list string)).

(** The [try: result = future.result() ... except Exception] block:
    verify a reported path, file the URL under failures otherwise. *)
Definition record_result (url : string) (result : future_result) : prog :=
  match result with
  | Result r =>
      if result_truthy r then
        let path := default EmptyString r in
        if_ (fun s => path_exists path (env s)
                      && (0 <? getsize path (env s)))
          (exec (append_successful path) >> exec (emit (Verified path)))
          (exec (emit (Invalid path)) >> exec (append_failed url))
      else
        exec (append_failed url) >> exec (emit (FailedToProcess url))
  | Exception =>
      exec (append_failed url) >> exec (emit (ExceptionWhile url))
  end.

(** [for future in concurrent.futures.as_completed(future_to_video)]
    over the futures of the batch starting at index [i]: the future that
    completes first is yielded next, its call having run to the end.  The
    effects of a call on the world take place, in one step, when its
    future is yielded; [n] is the number of pending futures.

    [submit] tells what the world is when a future is yielded and what
    its call returned.  The threads of the pool run side by side: what
    is proved for every [submit] holds however they interleave.  Taking
    [download_video] itself for [submit] runs the calls of a batch one
    after the other; statements about such runs are kept to what does
    not depend on the interleaving, or name what they assume of the
    tasks. *)
Fixpoint as_completed (n i : nat) (pending : list video_info)
    (body : video_info → future_result → prog) : prog := fun s =>
  match n with
  | 0 => (Normal, s)
  | S n' =>
      let k := completes_first (env s) pending `mod` length pending in
      match pending !! k with
      | None => (Normal, s)
      | Some video =>
          let (result, w) := submit video (env s) in
          let (c, s') :=
            body video result (set_future (i, video, result) (set_env w s))
          in
          match after_turn c with
          | None => as_completed n' i (delete k pending) body s'
          | Some c' => (c', s')
          end
      end
  end.

End Completions.

(** ** [main.py] *)

Module Main.

(** [TikTokDownloader] of [main.py]. *)
Record TikTokDownloader := {
  download_dir : string;
  max_workers : nat
}.

Section Worker.

Variable md5_hexdigest : string → string.
Variable http_get : world → string → response.

Definition download_video (self : TikTokDownloader)
    (video_info : video_info) (w : world) : option string * world :=
  match filepath md5_hexdigest (download_dir self) video_info with
  | None => (None, w)
  | Some filepath =>
      if os_path_exists filepath w then (Some filepath, w)
      else retry_loop http_get (seq 0 max_retries)
             (url video_info) filepath w
  end.

End Worker.

Section Scheduler.

Context {W : Type}.
Variable submit : video_info → W → future_result * W.
Variable path_exists : string → W → bool.
Variable getsize : string → W → nat.
Variable completes_first : W → list video_info → nat.

(** [input(...)]: a line, or [None] for [EOFError]. *)
Variable input : W → option string * W.

Local Abbreviation prog := (stmt (locals W) (list string)).

(** The body of [for future in as_completed(future_to_video)]. *)
Definition on_completion (video : video_info) (result : future_result)
    : prog :=
  let url := url video in
  if_ (fun s => bool_decide (url ∈ processed_urls s))
    (exec (emit (SkippingDuplicate url)) >> signal Continue)
    (exec (add_processed url) >>
     record_result path_exists getsize url result).

(** [response = input(...).lower(); if response != 'y': ... break] *)
Definition confirm : prog := fun s =>
  match input (env s) with
  | (None, w) => (Raise EOFError, set_env w s)
  | (Some line, w) =>
      if String.eqb (Py.lower line) "y" then (Normal, set_env w s)
      else (Break, emit StoppingAtUserRequest (set_env w s))
  end.

(** The body of [for i in range(0, len(videos), batch_size)]. *)
Definition batch_turn (videos : list video_info) (batch_size i : nat)
    : prog :=
  let batch := Py.slice videos i (i + batch_size) in
  let number := i / batch_size + 1 in
  exec (emit (ProcessingBatch number)) >>
  (if 0 <? i then confirm else skip) >>
  exec new_batch_lists >>
  exec (emit (Submitted batch)) >>
  as_completed submit completes_first (length batch) i batch
    on_completion >>
  exec (emit (Shutdown true)) >>
  exec extend_totals >>
  (fun s => exec (emit (BatchSummary number
                          (length (successful_downloads s))
                          (length (failed_downloads s)))) s).

(** [range(0, n, 0)] raises [ValueError].  The result is how the call
    ends, with the final values of its variables. *)
Definition parallel_download_videos (videos : list video_info)
    (batch_size : nat) (w : W)
    : completion (list string) * locals W :=
  (if batch_size =? 0 then signal (Raise ValueError)
   else
     for_ (Py.range (length videos) batch_size)
          (batch_turn videos batch_size) >>
     (fun s => exec (emit (OverallSummary
                             (size (processed_urls s))
                             (length (all_successful_downloads s))
                             (length (all_failed_downloads s)))) s) >>
     (fun s => (Return (all_successful_downloads s), s)))
    (initial w).

End Scheduler.

(** The scheduler as the program runs it: the pool executes
    [self.download_video], the verification reads the filesystem, the
    confirmation comes from the console. *)
Section Program.

Variable md5_hexdigest : string → string.
Variable http_get : world → string → response.
Variable console : nat → option string.
Variable completes_first : world → list video_info → nat.

Definition worker (self : TikTokDownloader) (video : video_info)
    (w : world) : future_result * world :=
  let (r, w') := download_video md5_hexdigest http_get self video w in
  (Result r, w').

Definition run (self : TikTokDownloader) (videos : list video_info)
    (batch_size : nat) (w : world)
    : completion (list string) * locals world :=
  parallel_download_videos (worker self) os_path_exists os_path_getsize
    completes_first (console_input console) videos batch_size w.

End Program.

End Main.

(** ** [tiktok_downloader_gui.py] *)

Module Gui.

(** [TikTokDownloader] of [tiktok_downloader_gui.py].  [stop_event] is
    [None] or an event whose flag [is_set()] reads from the world;
    [gui_callback] tells whether a progress callback was given. *)
Record TikTokDownloader (W : Type) := {
  download_dir : string;
  max_workers : nat;
  gui_callback : bool;
  stop_event : option (W → bool)
}.
Arguments download_dir {W} _.
Arguments max_workers {W} _.
Arguments gui_callback {W} _.
Arguments stop_event {W} _.

(** [self.stop_event and self.stop_event.is_set()], and
    [stop_event and stop_event()] for the callable argument. *)
Definition is_set {W} (ev : option (W → bool)) (w : W) : bool :=
  match ev with
  | Some flag => flag w
  | None => false
  end.

Section Worker.

Variable md5_hexdigest : string → string.
Variable http_get : world → string → response.

(** After the stop check the body is that of [main.py], the closing
    [return None] being implicit here. *)
Definition download_video (self : TikTokDownloader world)
    (video_info : video_info) (w : world) : option string * world :=
  if is_set (stop_event self) w then (None, w)
  else
    match filepath md5_hexdigest (download_dir self) video_info with
    | None => (None, w)
    | Some filepath =>
        if os_path_exists filepath w then (Some filepath, w)
        else retry_loop http_get (seq 0 max_retries)
               (url video_info) filepath w
    end.

End Worker.

Section Scheduler.

Context {W : Type}.
Variable submit : video_info → W → future_result * W.
Variable path_exists : string → W → bool.
Variable getsize : string → W → nat.
Variable completes_first : W → list video_info → nat.

Local Abbreviation prog := (stmt (locals W) (list string)).

(** [if self.gui_callback: self.gui_callback(videos_processed,
    total_videos)] *)
Definition report_progress (self : TikTokDownloader W)
    (total_videos : nat) : prog :=
  if gui_callback self
  then fun s => exec (emit (Progress (videos_processed s) total_videos)) s
  else skip.

(** Lines 662 to 700, and again lines 705 to 741: from
    [video = future_to_video[future]] to the progress callback. *)
Definition account (self : TikTokDownloader W) (total_videos : nat)
    (video : video_info) (result : future_result) : prog :=
  let url := url video in
  if_ (fun s => bool_decide (url ∈ processed_urls s))
    (exec (emit (SkippingDuplicate url)) >> signal Continue)
    (exec (add_processed url) >>
     exec count_processed >>
     record_result path_exists getsize url result >>
     report_progress self total_videos).

(** The body of [for future in as_completed(future_to_video)]. *)
Definition on_completion (self : TikTokDownloader W)
    (total_videos : nat) (video : video_info) (result : future_result)
    : prog :=
  if_ (fun s => is_set (stop_event self) (env s))
    (exec (emit CancelPending) >>
     exec (emit (Shutdown false)) >>
     (fun s => (Return (all_successful_downloads s), s)))
    (account self total_videos video result).

(** The [finally] clause, lines 701 to 741: the waiting shutdown, then
    the accounting code once more for the variable [future] as the
    completion loop left it.  Its [continue] (line 710) belongs to the
    batch loop; Python accepts [continue] inside [finally] since version
    3.8.  [future_to_video[future]] raises [NameError] when no future was
    ever yielded and [KeyError] for a future of an earlier batch. *)
Definition finally_clause (self : TikTokDownloader W)
    (total_videos i : nat) : prog :=
  exec (emit (Shutdown true)) >>
  (fun s =>
     match future s with
     | None => (Raise NameError, s)
     | Some (j, video, result) =>
         if j =? i then account self total_videos video result s
         else (Raise KeyError, s)
     end).

(** The body of [for i in range(0, len(videos), batch_size)]. *)
Definition batch_turn (self : TikTokDownloader W)
    (stop_event : option (W → bool)) (videos : list video_info)
    (batch_size i : nat) : prog :=
  let total_videos := length videos in
  let batch := Py.slice videos i (i + batch_size) in
  let number := i / batch_size + 1 in
  if_ (fun s => is_set stop_event (env s))
    (exec (emit DownloadStoppedByUser) >> signal Break)
    (exec (emit (ProcessingBatch number)) >>
     exec new_batch_lists >>
     try_finally
       (exec (emit (Submitted batch)) >>
        as_completed submit completes_first (length batch) i batch
          (on_completion self total_videos))
       (finally_clause self total_videos i) >>
     exec extend_totals >>
     (fun s => exec (emit (BatchSummary number
                             (length (successful_downloads s))
                             (length (failed_downloads s)))) s)).

Definition parallel_download_videos (self : TikTokDownloader W)
    (videos : list video_info) (batch_size : nat)
    (stop_event : option (W → bool)) (w : W)
    : completion (list string) * locals W :=
  (if batch_size =? 0 then signal (Raise ValueError)
   else
     for_ (Py.range (length videos) batch_size)
          (batch_turn self stop_event videos batch_size) >>
     (fun s => exec (emit (OverallSummary
                             (size (processed_urls s))
                             (length (all_successful_downloads s))
                             (length (all_failed_downloads s)))) s) >>
     (fun s => (Return (all_successful_downloads s), s)))
    (initial w).

End Scheduler.

(** The scheduler as the program runs it. *)
Section Program.

Variable md5_hexdigest : string → string.
Variable http_get : world → string → response.
Variable completes_first : world → list video_info → nat.

Definition worker (self : TikTokDownloader world) (video : video_info)
    (w : world) : future_result * world :=
  let (r, w') := download_video md5_hexdigest http_get self video w in
  (Result r, w').

Definition run (self : TikTokDownloader world)
    (videos : list video_info) (batch_size : nat)
    (stop_event : option (world → bool)) (w : world)
    : completion (list string) * locals world :=
  parallel_download_videos (worker self) os_path_exists os_path_getsize
    completes_first self videos batch_size stop_event w.

End Program.

End Gui.

(** ** Specification vocabulary for the extractor *)

(** The URLs a link field stands for: blank-stripped, non-empty lines. *)
Definition link_urls (link : string) : list string :=
  filter (fun u => Py.truthy u = true)
         (Py.strip <$> Py.split_on newline link).

(** A raw entry mentions [u] when its link field is present, non-empty
    and has [u] among its URLs. *)
Definition mentions (raw : raw_video) (u : string) : Prop :=
  ∃ link, Link raw = Some link ∧ Py.truthy link = true ∧ u ∈ link_urls link.

(** The task [v] stems from the first entry of [raws] that mentions its
    URL, and carries that entry's date with the given type and flag. *)
Definition first_mention (ty : string) (ip : bool) (raws : list raw_video)
    (v : video_info) : Prop :=
  ∃ pre raw post,
    raws = pre ++ raw :: post
    ∧ mentions raw (url v)
    ∧ (∀ r, r ∈ pre → ¬ mentions r (url v))
    ∧ date v = default EmptyString (Date raw)
    ∧ type v = ty ∧ is_personal v = ip.

(** The extractor state is coherent: [processed_urls] is the set of the
    URLs of [videos], and no URL occurs twice. *)
Definition coherent (st : list video_info * gset string) : Prop :=
  (∀ u, u ∈ st.2 ↔ u ∈ url <$> st.1) ∧ NoDup (url <$> st.1).

(** What [add_video] appends for an entry that starts from [st]. *)
Definition fresh_from (raw : raw_video) (ty : string) (ip : bool)
    (st : list video_info * gset string) (v : video_info) : Prop :=
  (url v ∉ st.2) ∧ date v = default EmptyString (Date raw)
  ∧ type v = ty ∧ is_personal v = ip.

(** The loop invariant of [get_video_links] after the entries [pre]. *)
Definition extracted (ty : string) (ip : bool) (pre : list raw_video)
    (st : list video_info * gset string) : Prop :=
  coherent st
  ∧ (∀ u, u ∈ st.2 ↔ ∃ r, r ∈ pre ∧ mentions r u)
  ∧ Forall (first_mention ty ip pre) st.1.

(** ** Specification vocabulary for the fetch worker *)

(** An attempt that meets this response raises. *)
Definition response_fails (r : response) : bool :=
  match r with
  | Refused => true
  | Streams _ complete => negb complete
  end.

(** ** Sample inputs *)

Module Sample.

Definition url_a : string := "https://v.example/a.mp4".
Definition url_b : string := "https://v.example/b.mp4".
Definition url_c : string := "https://v.example/c.mp4".

(** [hashlib.md5] on the three sample URLs; any other string gets the
    digest of the empty string. *)
Definition md5_hexdigest (s : string) : string :=
  if String.eqb s url_a then "ae8c66f05d0917b955705d8f589d3b03"
  else if String.eqb s url_b then "460c1cb9ac0dffea583474997e885463"
  else if String.eqb s url_c then "311143dd1e3bb9fabd85aa4ce78d807e"
  else "d41d8cd98f00b204e9800998ecf8427e".

Definition task (u d : string) : video_info :=
  {| url := u; date := d; type := "posted"; is_personal := true |}.

Definition A : video_info := task url_a "2024-03-01 10:00:00".
Definition B : video_info := task url_b "2024-02-01 10:00:00".
Definition C : video_info := task url_c "2024-01-01 10:00:00".

(** The URL of [A] once more, under a later date. *)
Definition A' : video_info := task url_a "2024-03-02 09:00:00".

(** An export whose [VideoList] names [url_b], then [url_a] and [url_c]
    in one link field of two lines, then [url_a] again under another
    date, an entry with an empty link and an entry without link. *)
Definition export : schema :=
  {| Video := Some {| Videos := Some {| VideoList := Some [
       {| Link := Some url_b; Date := Some "2024-02-01 10:00:00" |};
       {| Link := Some (url_a +:+ String newline (" " +:+ url_a +:+ "  "));
          Date := Some "2024-03-01 10:00:00" |};
       {| Link := Some url_c; Date := Some "2024-01-01 10:00:00" |};
       {| Link := Some url_a; Date := Some "2024-03-02 09:00:00" |};
       {| Link := Some EmptyString; Date := Some "2024-04-01 10:00:00" |};
       {| Link := None; Date := None |} ] |} |} |}.

Definition path_a : string :=
  "downloads/personal_2024-03-01_posted_ae8c66f0.mp4".
Definition path_b : string :=
  "downloads/personal_2024-02-01_posted_460c1cb9.mp4".
Definition path_c : string :=
  "downloads/personal_2024-01-01_posted_311143dd.mp4".

Definition downloader : Main.TikTokDownloader :=
  {| Main.download_dir := "downloads"; Main.max_workers := 2 |}.

Definition gui_downloader (stop : option (world → bool))
    : Gui.TikTokDownloader world :=
  {| Gui.download_dir := "downloads"; Gui.max_workers := 2;
     Gui.gui_callback := true; Gui.stop_event := stop |}.

Definition fresh_world : world :=
  {| files := ∅; requests := []; sleeps := []; prompts := 0;
     opens := fun _ => true |}.

(** A world whose download directory holds an empty file for [A]. *)
Definition empty_file_world : world :=
  {| files := {[ path_a := EmptyString ]}; requests := []; sleeps := [];
     prompts := 0; opens := fun _ => true |}.

(** Servers: one that delivers five bytes in two chunks, one that
    answers 404, one whose stream breaks after three bytes. *)
Definition serves : world → string → response :=
  fun _ _ => Streams ["abc"; "de"] true.
Definition refuses : world → string → response :=
  fun _ _ => Refused.
Definition breaks : world → string → response :=
  fun _ _ => Streams ["abc"] false.

(** A server that answers 404 for [url_b] and serves the rest. *)
Definition refuses_b : world → string → response :=
  fun _ u =>
    if String.eqb u url_b then Refused else Streams ["abc"; "de"] true.

(** The stop button is pressed once [n] requests have been made. *)
Definition stop_after (n : nat) : option (world → bool) :=
  Some (fun w => n <=? length (requests w)).

(** A user who answers "y" to every prompt. *)
Definition says_yes : nat → option string := fun _ => Some "y".

(** Futures complete in submission order. *)
Definition in_order : world → list video_info → nat := fun _ _ => 0.

End Sample.

(** ** Specification vocabulary for the schedulers *)

(** The contiguous slices of length [n] of a list, the last one possibly
    shorter: the batches as the specification describes them. *)
Fixpoint chunks_from {A} (fuel n : nat) (l : list A) : list (list A) :=
  match fuel, l with
  | S fuel', _ :: _ => take n l :: chunks_from fuel' n (drop n l)
  | _, _ => []
  end.

Definition chunks {A} (n : nat) (l : list A) : list (list A) :=
  chunks_from (length l) n l.

(** The events that tell the life of the worker pools. *)
Definition is_pool_event (e : event) : bool :=
  match e with
  | Submitted _ | Shutdown _ | CancelPending => true
  | _ => false
  end.

Definition pool_events (l : list event) : list event :=
  filter (fun e => is_pool_event e = true) l.

(** A future fails when its call raised or returned nothing. *)
Definition future_fails (r : future_result) : bool :=
  match r with
  | Result r => negb (result_truthy r)
  | Exception => true
  end.

Section Filing.

Context {W : Type}.
Variable path_exists : string → W → bool.
Variable getsize : string → W → nat.

(** The path a completion is counted for as a success, if any. *)
Definition verified_path (result : future_result) (w : W)
    : option string :=
  match result with
  | Result (Some path) =>
      if Py.truthy path && path_exists path w && (0 <? getsize path w)
      then Some path else None
  | _ => None
  end.

(** The log line of a completion that is not a success. *)
Definition failure_event (url : string) (result : future_result)
    : event :=
  match result with
  | Result (Some path) =>
      if Py.truthy path then Invalid path else FailedToProcess url
  | Result None => FailedToProcess url
  | Exception => ExceptionWhile url
  end.

(** The state after [record_result]. *)
Definition filed (url : string) (result : future_result) (s : locals W)
    : locals W :=
  match verified_path result (env s) with
  | Some path => emit (Verified path) (append_successful path s)
  | None => emit (failure_event url result) (append_failed url s)
  end.

End Filing.

(** Number of occurrences of [x] in [l]. *)
Definition occurrences (x : string) (l : list string) : nat :=
  length (filter (fun y => y = x) l).

Section BatchStates.

Context {W : Type}.

(** The state once the batch numbered [number] is closed: the pool shut
    down, the totals extended, the summary logged. *)
Definition closed (number : nat) (s : locals W) : locals W :=
  let s' := extend_totals (emit (Shutdown true) s) in
  emit (BatchSummary number (length (successful_downloads s'))
          (length (failed_downloads s'))) s'.

(** The state when the futures of [batch] have been submitted. *)
Definition opened (batch : list video_info) (s : locals W) : locals W :=
  emit (Submitted batch) (new_batch_lists s).

(** What the pool of one batch writes to the log when it is drained. *)
Definition pool_trace (batch : list video_info) : list event :=
  [Submitted batch; Shutdown true].

End BatchStates.

Section MainStates.

Context {W : Type}.
Variable input : W → option string * W.

(** Every prompt is answered "y", in any letter case. *)
Definition always_yes : Prop :=
  ∀ w, ∃ line, (input w).1 = Some line ∧ Py.lower line = "y".

(** The state in which the completion loop of batch [i] of [main.py]
    starts. *)
Definition main_opened (videos : list video_info) (batch_size i : nat)
    (s : locals W) : locals W :=
  let s0 := emit (ProcessingBatch (i / batch_size + 1)) s in
  opened (Py.slice videos i (i + batch_size))
    (if 0 <? i then set_env (input (env s0)).2 s0 else s0).

End MainStates.

Section FailureInvariant.

Context {W : Type}.
Variable videos : list video_info.
Variable batch_size : nat.

(** The task [u] belongs to a batch that has not started yet. *)
Definition still_to_come (rest : list nat) (u : video_info) : Prop :=
  ∃ i, i ∈ rest ∧ u ∈ Py.slice videos i (i + batch_size).

(** The doomed task [v]: as long as [P] holds of the world its future
    fails.  Either [v] is still waiting and its URL is in none of the
    lists, or its URL has been processed and filed as failed once. *)
Variable v : video_info.
Variable P : W → Prop.

Definition failure_between (rest : list nat) (s : locals W) : Prop :=
  (∀ u, u ∈ videos →
        still_to_come rest u ∨ url u ∈ processed_urls s)
  ∧ ((still_to_come rest v
      ∧ (url v ∉ processed_urls s)
      ∧ occurrences (url v) (all_failed_downloads s) = 0
      ∧ P (env s))
     ∨ ((url v ∈ processed_urls s)
        ∧ occurrences (url v) (all_failed_downloads s) = 1)).

Definition failure_within (rest : list nat) (pending : list video_info)
    (s : locals W) : Prop :=
  (∀ u, u ∈ pending → u ∈ videos)
  ∧ (∀ u, u ∈ videos →
          u ∈ pending ∨ still_to_come rest u ∨ url u ∈ processed_urls s)
  ∧ (((v ∈ pending ∨ still_to_come rest v)
      ∧ (url v ∉ processed_urls s)
      ∧ occurrences (url v)
          (all_failed_downloads s ++ failed_downloads s) = 0
      ∧ P (env s))
     ∨ ((url v ∈ processed_urls s)
        ∧ occurrences (url v)
            (all_failed_downloads s ++ failed_downloads s) = 1)).

End FailureInvariant.

Section GuiStates.

Context {W : Type}.

(** The state after the progress callback, if there is one. *)
Definition progressed (self : Gui.TikTokDownloader W) (total : nat)
    (s : locals W) : locals W :=
  if Gui.gui_callback self
  then emit (Progress (videos_processed s) total) s
  else s.

(** The loop variable [future] holds a future of the batch starting at
    [i] whose URL is among the processed ones. *)
Definition last_future_processed (i : nat) (s : locals W) : Prop :=
  ∃ v r, future s = Some (i, v, r) ∧ url v ∈ processed_urls s.

End GuiStates.

Section GuiOutcomes.

Context {W : Type}.

(** The GUI run has kept [all_successful_downloads] empty, and if it
    returns, it returns the empty list. *)
Definition nothing_kept (out : completion (list string) * locals W)
    : Prop :=
  all_successful_downloads out.2 = []
  ∧ ∀ x, out.1 = Return x → x = [].

End GuiOutcomes.

Section GuiBatchStates.

Context {W : Type}.

(** The state once a batch of the GUI is closed: the totals extended,
    the summary logged. *)
Definition gui_closed (number : nat) (s : locals W) : locals W :=
  let s' := extend_totals s in
  emit (BatchSummary number (length (successful_downloads s'))
          (length (failed_downloads s'))) s'.

End GuiBatchStates.

(** The paths logged as verified successful downloads, oldest first. *)
Definition verified_paths (l : list event) : list string :=
  omap (fun e => match e with Verified p => Some p | _ => None end) l.

(** The pool events of a run that drains the batches at the start
    indices [done] one after the other. *)
Definition pools_of (videos : list video_info) (batch_size : nat)
    (done : list nat) : list event :=
  done ≫= (fun i => pool_trace (Py.slice videos i (i + batch_size))).

Section GuiSignals.

Context {W : Type}.

(** The flag is never seen set. *)
Definition never_set (ev : option (W → bool)) : Prop :=
  ∀ w, Gui.is_set ev w = false.

End GuiSignals.

(** ** Specification vocabulary for the further properties *)

(** The tasks in the order of their discovery, before the sort. *)
Definition discovered (data : schema) : list video_info :=
  (foldl (add_video "posted" true) ([], ∅) (video_list data)).1.

(** [a] may stand before [b] in a list sorted by date, newest first. *)
Definition not_older (a b : video_info) : Prop :=
  String.ltb (date a) (date b) = false.

(** The tasks of [l] dated [d], in the order of [l]. *)
Definition dated (d : string) (l : list video_info) : list video_info :=
  filter (fun v => date v = d) l.

(** The characters of a string. *)
Fixpoint chars (s : string) : list ascii :=
  match s with
  | EmptyString => []
  | String c s' => c :: chars s'
  end.

(** The file at [p] holds what an attempt for [u] wrote: the non-empty
    chunks of a response whose stream ended as [complete] tells. *)
Definition written_by (http_get : world → string → response)
    (u p : string) (complete : bool) (w' : world) : Prop :=
  ∃ w1 chunks,
    http_get w1 u = Streams chunks complete
    ∧ files w' !! p = Some (write_chunks chunks).

(** A date that is not empty and made of blanks only. *)
Definition blank_date (d : string) : Prop :=
  d ≠ EmptyString ∧ ∀ c, c ∈ chars d → Py.isspace c = true.

(** [w'] is [w] but for what the log files hold: the same requests,
    sleeps and prompts, and the same content at every path that is not a
    log file. *)
Definition log_only (w w' : world) : Prop :=
  requests w' = requests w
  ∧ sleeps w' = sleeps w
  ∧ prompts w' = prompts w
  ∧ ∀ q, is_log_file q = false → files w' !! q = files w !! q.

(** What a call of [download_video] that found [dest] as its path has
    made of the world [w]. *)
Definition worker_outcome (http_get : world → string → response)
    (v : video_info) (dest : option string) (w : world)
    (out : option string * world) : Prop :=
  match dest, out.1 with
  | None, None => log_only w out.2
  | None, Some _ => False
  | Some p, Some r =>
      r = p
      ∧ ((is_Some (files w !! p) ∧ log_only w out.2)
         ∨ (files w !! p = None ∧ written_by http_get (url v) p true out.2))
  | Some p, None =>
      files w !! p = None
      ∧ requests out.2 = requests w ++ replicate 3 (url v)
      ∧ (files out.2 !! p = None
         ∨ written_by http_get (url v) p false out.2)
  end.

Section RunStates.

Context {W : Type}.

(** The state after the overall summary is logged. *)
Definition summed (s : locals W) : locals W :=
  emit (OverallSummary (size (processed_urls s))
          (length (all_successful_downloads s))
          (length (all_failed_downloads s))) s.

(** The state in which [main.py] asks whether to go on with the batch
    starting at [i], and the state after an answer other than "y". *)
Definition main_asking (batch_size i : nat) (s : locals W) : locals W :=
  emit (ProcessingBatch (i / batch_size + 1)) s.

Definition main_answered (input : W → option string * W) (s : locals W)
    : locals W :=
  set_env (input (env s)).2 s.

Definition main_stopped (input : W → option string * W) (s : locals W)
    : locals W :=
  emit StoppingAtUserRequest (main_answered input s).

End RunStates.

(** The log lines of the batch loop that carry no result. *)
Definition is_notice (e : event) : bool :=
  match e with
  | ProcessingBatch _ | StoppingAtUserRequest | OverallSummary _ _ _ => true
  | _ => false
  end.

Section Accounts.

Context {W : Type}.

(** The lists [ok] and [ko] account for the processed URLs of [s]: one
    entry per URL, no URL twice among the failures, and no URL that is
    not the URL of a task. *)
Definition accounted (videos : list video_info) (ok ko : list string)
    (s : locals W) : Prop :=
  length ok + length ko = size (processed_urls s)
  ∧ NoDup ko
  ∧ (∀ u, u ∈ ko → u ∈ processed_urls s)
  ∧ (∀ u, u ∈ processed_urls s → u ∈ url <$> videos).

End Accounts.

(** A file of size above zero is at [p]. *)
Definition nonempty_file (p : string) (w : world) : Prop :=
  os_path_exists p w = true ∧ 0 < os_path_getsize p w.

(** The log lines and executor calls of the GUI scheduler that tell
    neither a result nor the end of the run. *)
Definition is_quiet (e : event) : bool :=
  match e with
  | ProcessingBatch _ | Submitted _ | SkippingDuplicate _
  | CancelPending | Shutdown _ => true
  | _ => false
  end.

(** The calls of the progress callback, oldest first. *)
Definition is_progress (e : event) : bool :=
  match e with
  | Progress _ _ => true
  | _ => false
  end.

Definition progress_events (l : list event) : list event :=
  filter (fun e => is_progress e = true) l.

(** The calls [callback(1, total)], ..., [callback(k, total)]. *)
Definition counting_up (k total : nat) : list event :=
  (fun j => Progress j total) <$> seq 1 k.

Definition is_batch_summary (e : event) : bool :=
  match e with
  | BatchSummary _ _ _ => true
  | _ => false
  end.

Section GuiCounters.

Context {W : Type}.

(** The counter is the number of processed URLs, which are URLs of
    tasks, and the callback has been called for every value of the
    counter once, in order. *)
Definition progress_in_step (self : Gui.TikTokDownloader W)
    (videos : list video_info) (s : locals W) : Prop :=
  videos_processed s = size (processed_urls s)
  ∧ (∀ u, u ∈ processed_urls s → u ∈ url <$> videos)
  ∧ progress_events (log s)
    = if Gui.gui_callback self
      then counting_up (videos_processed s) (length videos)
      else [].

End GuiCounters.

(** What the log of a GUI run shows of summaries: no batch summary, and
    an overall summary only with the given number of URLs and with no
    success and no failure. *)
Definition no_result_summary (unique : nat) (e : event) : Prop :=
  match e with
  | BatchSummary _ _ _ => False
  | OverallSummary u a b => u = unique ∧ a = 0 ∧ b = 0
  | _ => True
  end.

Definition no_summary (e : event) : Prop :=
  match e with
  | BatchSummary _ _ _ | OverallSummary _ _ _ => False
  | _ => True
  end.

(** The files that were there in [w] are there, and every path logged
    as verified is a file of size above zero. *)
Definition files_kept (w : world) (s : locals world) : Prop :=
  files w ⊆ files (env s)
  ∧ Forall (fun p => nonempty_file p (env s)) (verified_paths (log s)).

(** Line [j] of the console is "y", in any letter case; and so are the
    [k] lines from line [start] on. *)
Definition answers_yes (console : nat → option string) (j : nat) : Prop :=
  ∃ line, console j = Some line ∧ Py.lower line = "y".

Definition yes_until (console : nat → option string) (start k : nat)
    : Prop :=
  ∀ j, j < k → answers_yes console (start + j).

(** What a run of [main.py] that went through [m] of the batches of
    [videos] has asked, submitted and returned. *)
Definition went_through (console : nat → option string)
    (videos : list video_info) (batch_size : nat) (w : world) (m : nat)
    (out : completion (list string) * locals world) : Prop :=
  let batches := chunks batch_size videos in
  pool_events (log out.2) = take m batches ≫= pool_trace
  ∧ yes_until console (prompts w) (m - 1)
  ∧ if m <? length batches then
      1 ≤ m
      ∧ prompts (env out.2) = prompts w + m
      ∧ match console (prompts w + (m - 1)) with
        | Some line =>
            Py.lower line ≠ "y"
            ∧ out.1 = Return (verified_paths (log out.2))
            ∧ StoppingAtUserRequest ∈ log out.2
        | None => out.1 = Raise EOFError
        end
    else
      m = length batches
      ∧ prompts (env out.2) = prompts w + (m - 1)
      ∧ out.1 = Return (verified_paths (log out.2))
      ∧ StoppingAtUserRequest ∉ log out.2.

(** Between [w] and [w'] no request was made, no sleep taken, and no
    file other than the log files was written, changed or removed. *)
Definition untouched (w w' : world) : Prop :=
  requests w' = requests w
  ∧ sleeps w' = sleeps w
  ∧ ∀ q, is_log_file q = false → files w' !! q = files w !! q.

(** ** The programs around the schedulers

    [load_schema], [create_zip], [cleanup], [main] of [main.py] and
    [run_download] of the GUI.  The JSON parser and the programs started
    with [subprocess.run] are outside the code: what they do is given by
    the world.  Directories are not files of the world; a directory that
    exists is given by the world as well. *)

(** What a function that catches or raises any [Exception] does. *)
Inductive outcome := Returns | Raises.

(** The journal of a program run, oldest first: the log lines of the
    functions around the scheduler and their calls on the system. *)
Inductive app_event :=
  | ErrorLoadingSchema          (** "Error loading schema" *)
  | NoVideosFound               (** "No videos found in schema" *)
  | Downloaded (log : list event)
      (** [parallel_download_videos] was called and has logged [log] *)
  | NoSuccessfulDownloads       (** "No videos were successfully downloaded" *)
  | Removed (path : string)     (** [os.remove(path)] *)
  | Ran (argv : list string) (w : world)
      (** [subprocess.run(argv, check=True)], started in the world [w] *)
  | CreatedZip                  (** "Created zip archive" *)
  | ErrorCreatingZip            (** "Error creating zip" *)
  | CleanedUp                   (** "Cleaned up temporary directories" *)
  | ErrorDuringCleanup          (** "Error during cleanup" and
                                    "Error cleaning directories" *)
  | ProcessCompleted (n : nat)  (** "Process completed successfully!" *)
  | ProcessFailed.              (** "Process failed" *)

Record host := {
  os : world;
  journal : list app_event
}.

Definition note (e : app_event) (h : host) : host :=
  {| os := os h; journal := journal h ++ [e] |}.

Definition set_os (w : world) (h : host) : host :=
  {| os := w; journal := journal h |}.

Definition zip_name : string := "videos.zip".

Definition zip_command (download_dir : string) : list string :=
  ["zip"; "-r"; zip_name; download_dir].

Definition rm_command (download_dir : string) : list string :=
  ["rm"; "-rf"; download_dir].

Section Programs.

(** [json.load] on the file at a path: the parsed export, or [None] when
    [open] or the parser raises. *)
Variable json_load : world → string → option schema.

(** [subprocess.run(argv, check=True)]: the world the process leaves,
    and whether it exits with status 0; otherwise the call raises. *)
Variable subprocess_run : list string → world → bool * world.

(** [load_schema], the same in both files: the error is logged and
    raised again. *)
Definition load_schema (schema_path : string) (h : host)
    : option schema * host :=
  match json_load (os h) schema_path with
  | Some data => (Some data, h)
  | None => (None, note ErrorLoadingSchema h)
  end.

(** [subprocess.run(argv, check=True)] *)
Definition run_process (argv : list string) (h : host) : bool * host :=
  let (ok, w) := subprocess_run argv (os h) in
  (ok, set_os w (note (Ran argv (os h)) h)).

(** [create_zip], the same in both files: an archive left by an earlier
    run is removed, the error of the archive command is logged and
    raised again. *)
Definition create_zip (download_dir : string) (h : host)
    : outcome * host :=
  let h1 :=
    if os_path_exists zip_name (os h)
    then note (Removed zip_name)
           (set_os (set_files (delete zip_name) (os h)) h)
    else h in
  match run_process (zip_command download_dir) h1 with
  | (true, h2) => (Returns, note CreatedZip h2)
  | (false, h2) => (Raises, note ErrorCreatingZip h2)
  end.

End Programs.

Module MainProgram.

Section Program.

Variable md5_hexdigest : string → string.
Variable http_get : world → string → response.
Variable console : nat → option string.
Variable completes_first : world → list video_info → nat.
Variable json_load : world → string → option schema.
Variable subprocess_run : list string → world → bool * world.

(** [cleanup] of [main.py]: the error of the command is logged, not
    raised. *)
Definition cleanup (self : Main.TikTokDownloader) (h : host) : host :=
  match run_process subprocess_run (rm_command (Main.download_dir self)) h
  with
  | (true, h1) => note CleanedUp h1
  | (false, h1) => note ErrorDuringCleanup h1
  end.

(** The [try] block of [main] with its [except Exception] clause. *)
Definition attempt (self : Main.TikTokDownloader) (batch_size : nat)
    (h : host) : host :=
  match load_schema json_load "schema.json" h with
  | (None, h1) => note ProcessFailed h1
  | (Some schema_data, h1) =>
      let videos := get_video_links schema_data in
      if bool_decide (videos = []) then note NoVideosFound h1
      else
        let out := Main.run md5_hexdigest http_get console completes_first
                     self videos batch_size (os h1) in
        let h2 := note (Downloaded (log out.2)) (set_os (env out.2) h1) in
        match out.1 with
        | Return successful_downloads =>
            if bool_decide (successful_downloads = [])
            then note NoSuccessfulDownloads h2
            else
              match create_zip subprocess_run (Main.download_dir self) h2
              with
              | (Raises, h3) => note ProcessFailed h3
              | (Returns, h3) =>
                  note (ProcessCompleted (length successful_downloads))
                    (cleanup self h3)
              end
        | Raise _ => note ProcessFailed h2
        | _ => h2   (** the call ends in no other way *)
        end
  end.

(** [main] with the parsed arguments.  The constructor runs before the
    [try] block: [os.makedirs(..., exist_ok=True)] raises when a file is
    at the path of the download directory.  The [finally] clause runs
    [cleanup] whatever happened. *)
Definition main (workers batch_size : nat) (w : world) : outcome * host :=
  let downloader :=
    {| Main.download_dir := "downloads"; Main.max_workers := workers |} in
  if os_path_exists (Main.download_dir downloader) w
  then (Raises, {| os := w; journal := [] |})
  else
    (Returns,
     cleanup downloader
       (attempt downloader batch_size {| os := w; journal := [] |})).

End Program.

End MainProgram.

Module GuiProgram.

Section Program.

Variable md5_hexdigest : string → string.
Variable http_get : world → string → response.
Variable completes_first : world → list video_info → nat.
Variable json_load : world → string → option schema.
Variable subprocess_run : list string → world → bool * world.

(** [os.path.exists] on the download directory. *)
Variable directory_exists : string → world → bool.

(** [cleanup] of the GUI: the command is run when the directory exists,
    and no error is raised. *)
Definition cleanup (self : Gui.TikTokDownloader world) (h : host) : host :=
  if directory_exists (Gui.download_dir self) (os h) then
    match run_process subprocess_run (rm_command (Gui.download_dir self)) h
    with
    | (true, h1) => note CleanedUp h1
    | (false, h1) => note ErrorDuringCleanup h1
    end
  else h.

(** [run_download] of [TikTokGUI] for the downloader [self], created
    with [schema_path]; [is_downloading] reads the flag that
    [stop_download] clears. *)
Definition run_download (self : Gui.TikTokDownloader world)
    (schema_path : string) (is_downloading : world → bool)
    (batch_size : nat) (h : host) : host :=
  let tried :=
    match load_schema json_load schema_path h with
    | (None, h1) => note ProcessFailed h1
    | (Some schema_data, h1) =>
        let videos := get_video_links schema_data in
        if bool_decide (videos = []) then note NoVideosFound h1
        else
          let out := Gui.run md5_hexdigest http_get completes_first self
                       videos batch_size
                       (Some (fun w => negb (is_downloading w))) (os h1) in
          let h2 := note (Downloaded (log out.2)) (set_os (env out.2) h1) in
          match out.1 with
          | Return successful_downloads =>
              if bool_decide (successful_downloads = [])
              then note NoSuccessfulDownloads h2
              else
                match create_zip subprocess_run (Gui.download_dir self) h2
                with
                | (Raises, h3) => note ProcessFailed h3
                | (Returns, h3) =>
                    note (ProcessCompleted (length successful_downloads)) h3
                end
          | Raise _ => note ProcessFailed h2
          | _ => h2   (** the call ends in no other way *)
          end
    end in
  cleanup self tried.

End Program.

End GuiProgram.

(** ** Specification vocabulary for the programs *)

(** The archive command was started. *)
Definition is_zip_run (e : app_event) : bool :=
  match e with
  | Ran ("zip" :: _) _ => true
  | _ => false
  end.

Definition zip_runs (j : list app_event) : list app_event :=
  filter (fun e => is_zip_run e = true) j.

(** The path lies in the directory [dir]. *)
Definition inside (dir p : string) : Prop :=
  Py.startswith p (dir +:+ "/") = true.

(** What is true of a start [e] of the archive command in a run of
    [main.py] with the journal [j]: it archives the download directory,
    no archive is there when it starts, and the scheduler has returned
    paths, at least one, which all lie in the download directory. *)
Definition archives_downloads (j : list app_event) (e : app_event) : Prop :=
  match e with
  | Ran argv wz =>
      argv = zip_command "downloads"
      ∧ files wz !! zip_name = None
      ∧ ∃ l, Downloaded l ∈ j
             ∧ verified_paths l ≠ []
             ∧ Forall (inside "downloads") (verified_paths l)
  | _ => True
  end.

(** The journal entries of the GUI that tell of an archive. *)
Definition tells_of_archive (e : app_event) : bool :=
  match e with
  | Ran ("zip" :: _) _ | Removed _ | CreatedZip | ErrorCreatingZip
  | ProcessCompleted _ => true
  | _ => false
  end.

(** ** Sample system *)

Module SampleHost.

(** The parser finds the sample export at every path. *)
Definition json_load : world → string → option schema :=
  fun _ _ => Some Sample.export.

(** [rm -rf downloads] removes the files inside the directory, any other
    command is taken for the archive command and writes the archive;
    both exit with status 0. *)
Definition subprocess_run : list string → world → bool * world :=
  fun argv w =>
    match argv with
    | "rm" :: _ =>
        (true,
         set_files
           (filter (fun kv => Py.startswith kv.1 "downloads/" = false)) w)
    | _ => (true, set_files <[zip_name := "PK"]> w)
    end.

(** A world with one file outside the download directory. *)
Definition home : world :=
  {| files := {[ "notes.txt" := "keep" ]}; requests := []; sleeps := [];
     prompts := 0; opens := fun _ => true |}.

(** A console that is closed. *)
Definition closed_console : nat → option string := fun _ => None.

End SampleHost.

(** The log line of a completion that is skipped as a duplicate. *)
Definition is_skip (e : event) : bool :=
  match e with
  | SkippingDuplicate _ => true
  | _ => false
  end.

(** The tasks of the batches starting at the indices [rest]. *)
Definition tasks_of (videos : list video_info) (batch_size : nat)
    (rest : list nat) : list video_info :=
  rest ≫= (fun i => Py.slice videos i (i + batch_size)).

(** Reading the console changes nothing that the pooled calls, the file
    checks and the order of completions see. *)
Definition silent_console {W} (input : W → option string * W) : Prop :=
  ∀ w, (input w).2 = w.

(** Two scheduler states that agree on the world, on the processed URLs
    and on the verified paths. *)
Definition in_step {W} (s s' : locals W) : Prop :=
  env s = env s'
  ∧ processed_urls s = processed_urls s'
  ∧ verified_paths (log s) = verified_paths (log s').

(** * Properties *)

(** ** Record extractor *)

Section Extractor.

Implicit Types (st : list video_info * gset string) (raw : raw_video).

Lemma add_url_spec raw ty ip st seg :
  let st' := add_url raw ty ip st seg in
  let u := Py.strip seg in
  (Py.truthy u = true ∧ (u ∉ st.2) ∧
   (st'.1 = st.1 ++ [{| url := u; date := default EmptyString (Date raw);
                        type := ty; is_personal := ip |}]) ∧
   (st'.2 = {[ u ]} ∪ st.2))
  ∨ ((Py.truthy u = false ∨ u ∈ st.2) ∧ st' = st).
Proof.
  cbv zeta. unfold add_url.
  destruct (Py.truthy (Py.strip seg)) eqn:Ht; simpl.
  - case_bool_decide; [right | left]; auto.
  - right; auto.
Qed.

Lemma add_urls_spec raw ty ip segs : ∀ st,
  let st' := foldl (add_url raw ty ip) st segs in
  (∀ u, u ∈ st'.2 ↔
        (u ∈ st.2 ∨ (u ∈ Py.strip <$> segs ∧ Py.truthy u = true)))
  ∧ (∃ new, st'.1 = st.1 ++ new
      ∧ Forall (fun v => fresh_from raw ty ip st v
                         ∧ url v ∈ Py.strip <$> segs
                         ∧ Py.truthy (url v) = true) new)
  ∧ (coherent st → coherent st').
Proof.
  induction segs as [|seg segs IH]; intros st; cbv zeta.
  - simpl. split; [set_solver|]. split; [|auto].
    exists []. rewrite app_nil_r. auto.
  - simpl foldl.
    destruct (IH (add_url raw ty ip st seg))
      as (Hset & (new & Hnew & Hall) & Hco).
    destruct (add_url_spec raw ty ip st seg)
      as [(Ht & Hnotin & H1 & H2) | (Hskip & Heq)].
    + split; [|split].
      * intros u. rewrite Hset, H2, fmap_cons. set_solver.
      * eexists (_ :: new). split.
        { rewrite Hnew, H1, <- app_assoc. reflexivity. }
        constructor.
        -- unfold fresh_from. simpl.
           split; [auto|]. split; [set_solver|exact Ht].
        -- eapply Forall_impl; [exact Hall|].
           intros v ((Hv1 & Hv2) & Hv3 & Hv4).
           rewrite fmap_cons. unfold fresh_from.
           split; [split; [|exact Hv2]|split; [|exact Hv4]].
           ++ rewrite H2 in Hv1. set_solver.
           ++ set_solver.
      * intros [Hc1 Hc2]. apply Hco. split.
        -- intros u. rewrite H2, H1, fmap_app. simpl.
           rewrite elem_of_app, <- Hc1. set_solver.
        -- rewrite H1, fmap_app. simpl.
           apply NoDup_app. split; [exact Hc2|].
           split; [|apply NoDup_singleton].
           intros u Hu ->%list_elem_of_singleton.
           apply Hnotin, Hc1, Hu.
    + rewrite Heq in *. split; [|split].
      * intros u. rewrite Hset, fmap_cons.
        destruct Hskip as [Hf | Hin]; [|set_solver].
        split; [set_solver|].
        intros [?|[Hu Htu]]; [auto|].
        apply elem_of_cons in Hu as [->|Hu]; [congruence|auto].
      * exists new. split; [exact Hnew|].
        eapply Forall_impl; [exact Hall|].
        intros v (Hv1 & Hv3 & Hv4). rewrite fmap_cons. set_solver.
      * exact Hco.
Qed.

Lemma add_video_spec ty ip st raw :
  let st' := add_video ty ip st raw in
  (∀ u, u ∈ st'.2 ↔ (u ∈ st.2 ∨ mentions raw u))
  ∧ (∃ new, st'.1 = st.1 ++ new
      ∧ Forall (fun v => fresh_from raw ty ip st v
                         ∧ mentions raw (url v)) new)
  ∧ (coherent st → coherent st').
Proof.
  cbv zeta. unfold add_video, mentions.
  destruct (Link raw) as [link|] eqn:Hlink.
  2:{ split; [|split; [|auto]].
      - intros u. split; [auto|]. intros [?|(l & ? & _)]; [auto|discriminate].
      - exists []. rewrite app_nil_r. auto. }
  destruct (Py.truthy link) eqn:Ht; simpl.
  2:{ split; [|split; [|auto]].
      - intros u. split; [auto|].
        intros [?|(l & [= <-] & ? & _)]; [auto|congruence].
      - exists []. rewrite app_nil_r. auto. }
  destruct (add_urls_spec raw ty ip (Py.split_on newline link) st)
    as (Hset & (new & Hnew & Hall) & Hco).
  split; [|split; [|exact Hco]].
  - intros u. rewrite Hset. unfold link_urls. split.
    + intros [?|[Hu Htu]]; [auto|]. right. exists link.
      split; [auto|]. split; [auto|].
      apply list_elem_of_filter. auto.
    + intros [?|(l & [= <-] & _ & Hu)]; [auto|].
      apply list_elem_of_filter in Hu. tauto.
  - exists new. split; [exact Hnew|].
    eapply Forall_impl; [exact Hall|].
    intros v (Hv1 & Hv2 & Hv3). split; [exact Hv1|].
    exists link. split; [auto|]. split; [auto|].
    apply list_elem_of_filter. auto.
Qed.

Lemma first_mention_snoc ty ip pre raw v :
  first_mention ty ip pre v → first_mention ty ip (pre ++ [raw]) v.
Proof.
  intros (p & r & q & -> & H). exists p, r, (q ++ [raw]).
  split; [|exact H]. by rewrite <- app_assoc.
Qed.

Lemma extracted_step ty ip pre st raw :
  extracted ty ip pre st →
  extracted ty ip (pre ++ [raw]) (add_video ty ip st raw).
Proof.
  intros (Hco & Hset & Hall).
  destruct (add_video_spec ty ip st raw)
    as (Hset' & (new & Hnew & Hfresh) & Hco').
  split; [auto|]. split.
  - intros u. rewrite Hset', Hset. split.
    + intros [(r & Hr & Hm)|Hm].
      * exists r. split; [apply elem_of_app; auto|auto].
      * exists raw. split; [apply elem_of_app; right; by left|auto].
    + intros (r & Hr & Hm). apply elem_of_app in Hr as [Hr|Hr].
      * left. eauto.
      * apply list_elem_of_singleton in Hr as ->. auto.
  - rewrite Hnew. apply Forall_app. split.
    + eapply Forall_impl; [exact Hall|].
      intros v. apply first_mention_snoc.
    + eapply Forall_impl; [exact Hfresh|].
      intros v ((Hnot & Hd & Hty & Hip) & Hm).
      exists pre, raw, []. split; [reflexivity|].
      split; [exact Hm|]. split; [|auto].
      intros r Hr Hmr. apply Hnot, Hset. eauto.
Qed.

Lemma extracted_fold ty ip raws : ∀ pre st,
  extracted ty ip pre st →
  extracted ty ip (pre ++ raws) (foldl (add_video ty ip) st raws).
Proof.
  induction raws as [|raw raws IH]; intros pre st H; simpl.
  - by rewrite app_nil_r.
  - replace (pre ++ raw :: raws) with ((pre ++ [raw]) ++ raws)
      by (by rewrite <- app_assoc).
    apply IH, extracted_step, H.
Qed.

Lemma extracted_initial ty ip : extracted ty ip [] ([], ∅).
Proof.
  split; [|split].
  - split; [set_solver|constructor].
  - intros u. split; [set_solver|]. intros (r & Hr & _). set_solver.
  - constructor.
Qed.

Lemma insert_desc_perm v l : insert_desc v l ≡ₚ v :: l.
Proof.
  induction l as [|w l IH]; simpl; [done|].
  destruct (String.ltb (date v) (date w)); [|done].
  rewrite IH. apply perm_swap.
Qed.

Lemma sort_by_date_desc_perm l : sort_by_date_desc l ≡ₚ l.
Proof.
  induction l as [|v l IH]; simpl; [done|].
  rewrite insert_desc_perm. by constructor.
Qed.

Lemma get_video_links_extracted data :
  ∃ st, extracted "posted" true (video_list data) st
        ∧ get_video_links data ≡ₚ st.1.
Proof.
  eexists. split; [|apply sort_by_date_desc_perm].
  apply (extracted_fold _ _ _ [] _), extracted_initial.
Qed.

End Extractor.

(** C1.  For every parsed input the task list returned by
    [get_video_links] holds no two entries with the same URL, and every
    entry belongs to the first raw record that mentions its URL: it has
    that record's date, the type "posted" and the personal flag.  The
    uniqueness is the extractor's own, whatever the scheduler does later. *)
Theorem get_video_links_unique_urls (data : schema) :
  NoDup (url <$> get_video_links data)
  ∧ ∀ v, v ∈ get_video_links data →
         first_mention "posted" true (video_list data) v.
Proof.
  destruct (get_video_links_extracted data) as (st & (Hco & _ & Hall) & Hp).
  split.
  - rewrite Hp. apply Hco.
  - intros v Hv. rewrite Hp in Hv.
    eapply Forall_forall in Hall; eauto.
Qed.

(** C10.  Every task emitted by [get_video_links] is personal and of type
    "posted"; the summary line therefore counts every task as personal and
    none as other, and every destination file name starts with
    "personal_". *)
Theorem extracted_tasks_are_personal_posted (data : schema) :
  Forall (fun v => is_personal v = true ∧ type v = "posted")
         (get_video_links data)
  ∧ summary_counts (get_video_links data)
    = (length (get_video_links data), length (get_video_links data), 0)
  ∧ ∀ md5_hexdigest v name,
      v ∈ get_video_links data →
      filename md5_hexdigest v = Some name →
      Py.startswith name "personal_" = true.
Proof.
  assert (Hall : Forall (fun v => is_personal v = true ∧ type v = "posted")
                        (get_video_links data)).
  { destruct (get_video_links_extracted data) as (st & (_ & _ & Hall) & Hp).
    rewrite Hp. eapply Forall_impl; [exact Hall|].
    intros v (p & r & q & _ & _ & _ & _ & Hty & Hip). auto. }
  split; [exact Hall|]. split.
  - unfold summary_counts, personal_count.
    assert (Hf : filter (fun v => is_personal v = true) (get_video_links data)
                 = get_video_links data).
    { induction Hall as [|v l [Hv _] _ IH]; [done|].
      rewrite filter_cons_True by done. by rewrite IH. }
    rewrite Hf. by rewrite Nat.sub_diag.
  - intros md5 v name Hv Hname.
    eapply Forall_forall in Hall as [Hip _]; [|exact Hv].
    unfold filename in Hname. rewrite Hip in Hname.
    destruct (date_str v); simpl in Hname; [|discriminate].
    injection Hname as <-. reflexivity.
Qed.

(** ** Destination path *)

Section StringFacts.

Lemma eqb_refl_true s : String.eqb s s = true.
Proof. by apply String.eqb_eq. Qed.

Lemma startswith_refl s : Py.startswith s s = true.
Proof.
  induction s as [|c s IH]; simpl; [done|].
  by rewrite Ascii.eqb_refl, IH.
Qed.

Lemma endswith_nil suffix :
  Py.endswith EmptyString suffix = String.eqb EmptyString suffix.
Proof. simpl. apply orb_false_r. Qed.

Lemma endswith_cons c s suffix :
  Py.endswith (String c s) suffix
  = String.eqb (String c s) suffix || Py.endswith s suffix.
Proof. reflexivity. Qed.

Lemma endswith_refl s : Py.endswith s s = true.
Proof.
  destruct s; [done|]. by rewrite endswith_cons, eqb_refl_true.
Qed.

Lemma endswith_app a b : Py.endswith (a +:+ b) b = true.
Proof.
  induction a as [|c a IH].
  - apply endswith_refl.
  - change (String c a +:+ b) with (String c (a +:+ b)).
    rewrite endswith_cons, IH. apply orb_true_r.
Qed.

Lemma endswith_contains s suffix :
  Py.endswith s suffix = true → Py.contains suffix s = true.
Proof.
  induction s as [|c s IH].
  - rewrite endswith_nil. intros <-%String.eqb_eq. done.
  - rewrite endswith_cons.
    intros [<-%String.eqb_eq | H]%orb_true_iff.
    + cbn [Py.contains]. by rewrite startswith_refl.
    + cbn [Py.contains]. rewrite (IH H). apply orb_true_r.
Qed.

Lemma endswith_lower s suffix :
  Py.endswith s suffix = true →
  Py.endswith (Py.lower s) (Py.lower suffix) = true.
Proof.
  induction s as [|c s IH].
  - rewrite endswith_nil. intros <-%String.eqb_eq. done.
  - rewrite endswith_cons.
    intros [<-%String.eqb_eq | H]%orb_true_iff.
    + apply endswith_refl.
    + cbn [Py.lower]. rewrite endswith_cons, (IH H). apply orb_true_r.
Qed.

Lemma append_cons x a b : String x a +:+ b = String x (a +:+ b).
Proof. reflexivity. Qed.

Lemma app_assoc_str a b c : (a +:+ b) +:+ c = a +:+ b +:+ c.
Proof.
  induction a as [|x a IH]; [done|]. by rewrite !append_cons, IH.
Qed.

End StringFacts.

Section DestinationFacts.

Variable md5_hexdigest : string → string.

Lemma is_image_iff u :
  is_image u = true ↔
  ∃ ext, ext ∈ image_exts ∧ Py.contains ext (Py.lower u) = true.
Proof.
  unfold is_image. rewrite existsb_exists.
  split; intros (ext & H1 & H2); exists ext; split; auto;
    by apply list_elem_of_In.
Qed.

Lemma image_suffix_is_image u ext :
  ext ∈ image_exts → Py.endswith u ext = true → is_image u = true.
Proof.
  intros Hext Hend. apply is_image_iff. exists ext. split; [done|].
  apply endswith_contains.
  apply endswith_lower in Hend.
  replace (Py.lower ext) with ext in Hend; [done|].
  unfold image_exts in Hext.
  repeat (apply elem_of_cons in Hext as [->|Hext]; [reflexivity|]).
  by apply elem_of_nil in Hext.
Qed.

Lemma filepath_extension dir v p :
  filepath md5_hexdigest dir v = Some p →
  Py.endswith p (extension (url v)) = true.
Proof.
  unfold filepath, filename.
  destruct (date_str v) as [d|]; simpl; [|discriminate].
  intros [= <-]. unfold Py.path_join.
  set (ext := extension (url v)).
  destruct (_ || _);
    repeat rewrite <- app_assoc_str; apply endswith_app.
Qed.

Lemma main_download_video_path http_get self v w r w' :
  Main.download_video md5_hexdigest http_get self v w = (Some r, w') →
  filepath md5_hexdigest (Main.download_dir self) v = Some r.
Proof.
  unfold Main.download_video.
  destruct (filepath _ _ v) as [p|]; [|discriminate].
  destruct (os_path_exists p w); [by intros [= <- _]|].
  simpl. unfold max_retries.
  repeat (destruct (try_fetch _ _ _ _) as [[] ?]; simpl;
          [by intros [= <- _]|]).
  discriminate.
Qed.

Lemma gui_download_video_path http_get self v w r w' :
  Gui.download_video md5_hexdigest http_get self v w = (Some r, w') →
  filepath md5_hexdigest (Gui.download_dir self) v = Some r.
Proof.
  unfold Gui.download_video.
  destruct (Gui.is_set _ _); [discriminate|].
  destruct (filepath _ _ v) as [p|]; [|discriminate].
  destruct (os_path_exists p w); [by intros [= <- _]|].
  simpl. unfold max_retries.
  repeat (destruct (try_fetch _ _ _ _) as [[] ?]; simpl;
          [by intros [= <- _]|]).
  discriminate.
Qed.

End DestinationFacts.

(** C7, as the code has it.  The extension is chosen by searching the
    lower-cased URL for ".jpg", ".jpeg", ".png" and ".webp" anywhere in it:
    a URL that contains one of them, in particular one that ends in it,
    gives a path ending in ".jpg", a URL that contains none a path ending
    in ".mp4".  The derivation is pure: whatever the world and the server,
    a path returned by either [download_video] is the derived one. *)
Theorem extension_by_substring (md5_hexdigest : string → string)
    (dir : string) (v : video_info) (p : string) :
  filepath md5_hexdigest dir v = Some p →
  ((∃ ext, ext ∈ image_exts ∧ Py.contains ext (Py.lower (url v)) = true) →
   Py.endswith p ".jpg" = true)
  ∧ ((∃ ext, ext ∈ image_exts ∧ Py.endswith (url v) ext = true) →
     Py.endswith p ".jpg" = true)
  ∧ ((∀ ext, ext ∈ image_exts → Py.contains ext (Py.lower (url v)) = false) →
     Py.endswith p ".mp4" = true)
  ∧ (∀ http_get self w r w',
       Main.download_dir self = dir →
       Main.download_video md5_hexdigest http_get self v w = (Some r, w') →
       r = p)
  ∧ (∀ http_get self w r w',
       Gui.download_dir self = dir →
       Gui.download_video md5_hexdigest http_get self v w = (Some r, w') →
       r = p).
Proof.
  intros Hp. pose proof (filepath_extension _ _ _ _ Hp) as Hext.
  unfold extension in Hext.
  split; [|split; [|split; [|split]]].
  - intros H%is_image_iff. by rewrite H in Hext.
  - intros (ext & H1 & H2).
    by rewrite (image_suffix_is_image _ _ H1 H2) in Hext.
  - intros H. destruct (is_image (url v)) eqn:Hi; [|done].
    apply is_image_iff in Hi as (ext & H1 & H2).
    rewrite (H ext H1) in H2. discriminate.
  - intros http self w r w' <- Hr.
    apply main_download_video_path in Hr. congruence.
  - intros http self w r w' <- Hr.
    apply gui_download_video_path in Hr. congruence.
Qed.

(** The theorem at a sample task whose URL holds ".PNG" before a query
    string. *)
Lemma extension_by_substring_witness :
  Py.endswith "downloads/personal_2024-01-02_posted_abcdef01.jpg" ".jpg"
  = true.
Proof.
  refine (proj1 (extension_by_substring
    (fun _ => "abcdef0123456789abcdef0123456789") "downloads"
    {| url := "https://cdn.example/clip/photo.PNG?sig=1";
       date := "2024-01-02 10:00:00"; type := "posted";
       is_personal := true |}
    "downloads/personal_2024-01-02_posted_abcdef01.jpg" _) _).
  - reflexivity.
  - exists ".png". split; [|reflexivity].
    unfold image_exts. set_solver.
Defined.

(** C7 as stated fails: a URL that ends in none of the image extensions
    still gets the image extension when one of them occurs inside it. *)
Lemma extension_ignores_suffix :
  ¬ (∀ u, Forall (fun ext => Py.endswith u ext = false) image_exts →
          extension u = ".mp4").
Proof.
  intros H.
  specialize (H "https://cdn.example/photo.jpeg?sig=abc").
  assert (Hno : Forall
            (fun ext => Py.endswith "https://cdn.example/photo.jpeg?sig=abc" ext
                        = false) image_exts)
    by (repeat constructor).
  specialize (H Hno). vm_compute in H. discriminate.
Qed.

(** ** Fetch worker *)

Section FetchFacts.

Variable md5_hexdigest : string → string.
Variable http_get : world → string → response.

Lemma os_path_exists_true p w :
  os_path_exists p w = true ↔ is_Some (files w !! p).
Proof. unfold os_path_exists. apply bool_decide_eq_true. Qed.

Lemma os_path_exists_false p w :
  os_path_exists p w = false ↔ files w !! p = None.
Proof.
  unfold os_path_exists. rewrite bool_decide_eq_false.
  by rewrite eq_None_not_Some.
Qed.

(** One attempt: one more request, no sleep, only [p] written, and
    written only when it can be opened. *)
Lemma try_fetch_effect u p w :
  let '(ok, w') := try_fetch http_get u p w in
  requests w' = requests w ++ [u]
  ∧ sleeps w' = sleeps w
  ∧ prompts w' = prompts w
  ∧ (∀ q, q ≠ p → files w' !! q = files w !! q)
  ∧ ok = negb (response_fails (http_get w u)) && opens w p
  ∧ (∀ chunks complete, http_get w u = Streams chunks complete →
       opens w p = true →
       files w' !! p = Some (write_chunks chunks))
  ∧ (http_get w u = Refused → files w' = files w).
Proof.
  unfold try_fetch.
  destruct (http_get w u) as [|chunks complete]; simpl.
  - repeat split; auto; discriminate.
  - destruct (opens w p) eqn:Ho; simpl.
    + repeat split; auto.
      * intros q Hq. by rewrite lookup_insert_ne.
      * by destruct complete.
      * intros ? ? [= <- <-] _. by rewrite lookup_insert_eq.
      * discriminate.
    + repeat split; auto; try discriminate.
      by rewrite andb_false_r.
Qed.

(** No attempt changes what can be opened, and an attempt at a path that
    cannot be opened fails and leaves the files as they are. *)
Lemma try_fetch_opens u p w :
  opens (try_fetch http_get u p w).2 = opens w
  ∧ (opens w p = false →
     (try_fetch http_get u p w).1 = false
     ∧ files (try_fetch http_get u p w).2 = files w).
Proof.
  unfold try_fetch.
  destruct (http_get w u) as [|chunks complete]; simpl.
  - done.
  - destruct (opens w p) eqn:Ho; simpl; [|done].
    split; [done|discriminate].
Qed.

(** The retry loop: [k] requests, [k - 1] sleeps of 2, failure only
    after the third request. *)
Lemma retry_loop_effect u p w :
  let '(r, w') := retry_loop http_get (seq 0 max_retries) u p w in
  ∃ k, 1 ≤ k ≤ 3
       ∧ requests w' = requests w ++ replicate k u
       ∧ sleeps w' = sleeps w ++ replicate (k - 1) 2
       ∧ prompts w' = prompts w
       ∧ (∀ q, q ≠ p → files w' !! q = files w !! q)
       ∧ (r = Some p ∨ (r = None ∧ k = 3)).
Proof.
  unfold max_retries. simpl.
  pose proof (try_fetch_effect u p w) as H1.
  destruct (try_fetch http_get u p w) as [[] w1];
    destruct H1 as (R1 & S1 & P1 & F1 & _).
  { exists 1. simpl. rewrite app_nil_r. repeat split; auto; lia. }
  pose proof (try_fetch_effect u p (sleep 2 w1)) as H2.
  destruct (try_fetch http_get u p (sleep 2 w1)) as [[] w2];
    destruct H2 as (R2 & S2 & P2 & F2 & _); simpl in *.
  { exists 2. simpl. rewrite R2, R1, S2, S1, P2, P1, <- app_assoc.
    repeat split; auto; try lia.
    intros q Hq. by rewrite F2, F1. }
  pose proof (try_fetch_effect u p (sleep 2 w2)) as H3.
  destruct (try_fetch http_get u p (sleep 2 w2)) as [[] w3];
    destruct H3 as (R3 & S3 & P3 & F3 & _); simpl in *.
  all: exists 3; simpl;
    rewrite R3, R2, R1, S3, S2, S1, P3, P2, P1, <- !app_assoc;
    repeat split; auto; try lia;
    intros q Hq; by rewrite F3, F2, F1.
Qed.

(** A server that fails every request for [u] makes the loop give up
    after three requests and two sleeps. *)
Lemma retry_loop_gives_up u p w :
  (∀ w1, response_fails (http_get w1 u) = true) →
  let '(r, w') := retry_loop http_get (seq 0 max_retries) u p w in
  r = None
  ∧ requests w' = requests w ++ [u; u; u]
  ∧ sleeps w' = sleeps w ++ [2; 2].
Proof.
  intros Hfail. unfold max_retries. simpl.
  pose proof (try_fetch_effect u p w) as H1.
  destruct (try_fetch http_get u p w) as [o1 w1];
    destruct H1 as (R1 & S1 & _ & _ & O1 & _).
  rewrite Hfail in O1. subst o1. simpl.
  pose proof (try_fetch_effect u p (sleep 2 w1)) as H2.
  destruct (try_fetch http_get u p (sleep 2 w1)) as [o2 w2];
    destruct H2 as (R2 & S2 & _ & _ & O2 & _).
  rewrite Hfail in O2. subst o2. simpl.
  pose proof (try_fetch_effect u p (sleep 2 w2)) as H3.
  destruct (try_fetch http_get u p (sleep 2 w2)) as [o3 w3];
    destruct H3 as (R3 & S3 & _ & _ & O3 & _).
  rewrite Hfail in O3. subst o3. simpl in *.
  rewrite R3, R2, R1, S3, S2, S1, <- !app_assoc. auto.
Qed.

(** An existing file, of any size, is returned untouched. *)
Lemma main_download_video_existing self v w p :
  filepath md5_hexdigest (Main.download_dir self) v = Some p →
  is_Some (files w !! p) →
  Main.download_video md5_hexdigest http_get self v w = (Some p, w).
Proof.
  intros Hp Hex. unfold Main.download_video. rewrite Hp.
  apply os_path_exists_true in Hex. by rewrite Hex.
Qed.

Lemma gui_download_video_existing self v w p :
  Gui.is_set (Gui.stop_event self) w = false →
  filepath md5_hexdigest (Gui.download_dir self) v = Some p →
  is_Some (files w !! p) →
  Gui.download_video md5_hexdigest http_get self v w = (Some p, w).
Proof.
  intros Hs Hp Hex. unfold Gui.download_video. rewrite Hs, Hp.
  apply os_path_exists_true in Hex. by rewrite Hex.
Qed.

(** Without a file at the path the loop runs. *)
Lemma main_download_video_absent self v w p :
  filepath md5_hexdigest (Main.download_dir self) v = Some p →
  files w !! p = None →
  Main.download_video md5_hexdigest http_get self v w
  = retry_loop http_get (seq 0 max_retries) (url v) p w.
Proof.
  intros Hp Hex. unfold Main.download_video. rewrite Hp.
  apply os_path_exists_false in Hex. by rewrite Hex.
Qed.

(** [download_video] writes no file but the task's own. *)
Lemma main_download_video_frame self v w q :
  filepath md5_hexdigest (Main.download_dir self) v ≠ Some q →
  files (Main.download_video md5_hexdigest http_get self v w).2 !! q
  = files w !! q.
Proof.
  intros Hq. unfold Main.download_video.
  destruct (filepath _ _ v) as [p|]; [|done].
  destruct (os_path_exists p w); [done|].
  pose proof (retry_loop_effect (url v) p w) as H.
  destruct (retry_loop _ _ _ _ _) as [r w'].
  destruct H as (k & _ & _ & _ & _ & Hf & _). simpl.
  apply Hf. congruence.
Qed.

End FetchFacts.

(** C3.  [download_video] skips the fetch for any existing file, an empty
    one included: with a zero-byte file at the destination, so that no
    file of size above zero is there, both workers return the path and
    leave the world as it is, without a request. *)
Theorem download_video_skips_empty_file
    (md5_hexdigest : string → string) (http_get : world → string → response)
    (self : Main.TikTokDownloader) (gself : Gui.TikTokDownloader world)
    (v : video_info) (w : world) (p : string) :
  filepath md5_hexdigest (Main.download_dir self) v = Some p →
  Gui.download_dir gself = Main.download_dir self →
  Gui.is_set (Gui.stop_event gself) w = false →
  files w !! p = Some EmptyString →
  os_path_getsize p w = 0
  ∧ Main.download_video md5_hexdigest http_get self v w = (Some p, w)
  ∧ Gui.download_video md5_hexdigest http_get gself v w = (Some p, w).
Proof.
  intros Hp Hdir Hstop Hfile. split; [|split].
  - unfold os_path_getsize. by rewrite Hfile.
  - apply main_download_video_existing; [done|]. by rewrite Hfile.
  - apply gui_download_video_existing; [done| |].
    + by rewrite Hdir.
    + by rewrite Hfile.
Qed.

(** The theorem at the sample task [A], with an empty file at its path. *)
Lemma download_video_skips_empty_file_witness :
  os_path_getsize Sample.path_a Sample.empty_file_world = 0
  ∧ Main.download_video Sample.md5_hexdigest Sample.serves
      Sample.downloader Sample.A Sample.empty_file_world
    = (Some Sample.path_a, Sample.empty_file_world)
  ∧ Gui.download_video Sample.md5_hexdigest Sample.serves
      (Sample.gui_downloader None) Sample.A Sample.empty_file_world
    = (Some Sample.path_a, Sample.empty_file_world).
Proof.
  apply (download_video_skips_empty_file Sample.md5_hexdigest Sample.serves
           Sample.downloader (Sample.gui_downloader None) Sample.A
           Sample.empty_file_world Sample.path_a);
    reflexivity.
Defined.

Section PartialFiles.

Variable md5_hexdigest : string → string.
Variable http_get : world → string → response.

Lemma retry_loop_opens u p w :
  opens (retry_loop http_get (seq 0 max_retries) u p w).2 = opens w.
Proof.
  unfold max_retries. simpl.
  pose proof (try_fetch_opens http_get u p w) as [H1 _].
  destruct (try_fetch http_get u p w) as [[] w1]; simpl in *; [done|].
  pose proof (try_fetch_opens http_get u p (sleep 2 w1)) as [H2 _].
  destruct (try_fetch http_get u p (sleep 2 w1)) as [[] w2]; simpl in *;
    [congruence|].
  pose proof (try_fetch_opens http_get u p (sleep 2 w2)) as [H3 _].
  destruct (try_fetch http_get u p (sleep 2 w2)) as [[] w3]; simpl in *;
    congruence.
Qed.

(** When every response for [u] is a stream that breaks, the loop gives
    up, and a path that can be opened is left with the chunks of the
    third response. *)
Lemma retry_loop_partial u p w :
  (∀ w1, ∃ chunks, http_get w1 u = Streams chunks false) →
  opens w p = true →
  let '(r, w') := retry_loop http_get (seq 0 max_retries) u p w in
  r = None
  ∧ ∃ w3 chunks,
      requests w3 = requests w ++ [u; u]
      ∧ http_get w3 u = Streams chunks false
      ∧ files w' !! p = Some (write_chunks chunks).
Proof.
  intros Hresp Hopen. unfold max_retries. simpl.
  pose proof (try_fetch_effect http_get u p w) as H1.
  pose proof (try_fetch_opens http_get u p w) as [E1 _].
  destruct (try_fetch http_get u p w) as [o1 w1];
    destruct H1 as (R1 & _ & _ & _ & O1 & _).
  destruct (Hresp w) as [c1 Hc1]. rewrite Hc1 in O1. subst o1.
  simpl in *.
  pose proof (try_fetch_effect http_get u p (sleep 2 w1)) as H2.
  pose proof (try_fetch_opens http_get u p (sleep 2 w1)) as [E2 _].
  destruct (try_fetch http_get u p (sleep 2 w1)) as [o2 w2];
    destruct H2 as (R2 & _ & _ & _ & O2 & _).
  destruct (Hresp (sleep 2 w1)) as [c2 Hc2]. rewrite Hc2 in O2. subst o2.
  simpl in *.
  pose proof (try_fetch_effect http_get u p (sleep 2 w2)) as H3.
  destruct (try_fetch http_get u p (sleep 2 w2)) as [o3 w3];
    destruct H3 as (_ & _ & _ & _ & O3 & F3 & _).
  destruct (Hresp (sleep 2 w2)) as [c3 Hc3]. rewrite Hc3 in O3. subst o3.
  simpl in *.
  split; [done|]. exists (sleep 2 w2), c3. split; [|split; [done|]].
  - simpl. rewrite R2, R1, <- app_assoc. done.
  - apply (F3 _ _ Hc3). congruence.
Qed.

End PartialFiles.

(** C8, as the code has it.  No attempt writes to a temporary name and
    nothing removes what a failed attempt wrote: an attempt writes
    straight to the final destination path.  Where the path can be
    opened, an attempt whose stream breaks after some chunks fails and
    leaves the bytes of those chunks at the path.  When every attempt of
    a task breaks that way, whatever each one received, [download_video]
    of either program returns [None] and the path, absent before, holds
    the bytes that the third attempt received before its stream broke: a
    truncated file, of size above zero as soon as one byte came. *)
Theorem failed_attempt_leaves_partial_file
    (md5_hexdigest : string → string) (http_get : world → string → response)
    (self : Main.TikTokDownloader) (gself : Gui.TikTokDownloader world)
    (v : video_info) (w : world) (p gp : string) :
  filepath md5_hexdigest (Main.download_dir self) v = Some p →
  filepath md5_hexdigest (Gui.download_dir gself) v = Some gp →
  Gui.is_set (Gui.stop_event gself) w = false →
  files w !! p = None →
  files w !! gp = None →
  opens w p = true →
  opens w gp = true →
  (∀ w1, ∃ chunks, http_get w1 (url v) = Streams chunks false) →
  (∀ chunks, http_get w (url v) = Streams chunks false →
     let '(ok, w1) := try_fetch http_get (url v) p w in
     ok = false
     ∧ files w1 !! p = Some (write_chunks chunks)
     ∧ os_path_getsize p w1 = String.length (write_chunks chunks))
  ∧ (let '(r, w') := Main.download_video md5_hexdigest http_get self v w in
     r = None
     ∧ ∃ w3 chunks,
         requests w3 = requests w ++ [url v; url v]
         ∧ http_get w3 (url v) = Streams chunks false
         ∧ files w' !! p = Some (write_chunks chunks)
         ∧ os_path_getsize p w' = String.length (write_chunks chunks))
  ∧ (let '(r, w') := Gui.download_video md5_hexdigest http_get gself v w in
     r = None
     ∧ ∃ w3 chunks,
         requests w3 = requests w ++ [url v; url v]
         ∧ http_get w3 (url v) = Streams chunks false
         ∧ files w' !! gp = Some (write_chunks chunks)
         ∧ os_path_getsize gp w' = String.length (write_chunks chunks)).
Proof.
  intros Hp Hgp Hstop Hfile Hgfile Hopen Hgopen Hresp. split; [|split].
  - intros chunks Hc.
    pose proof (try_fetch_effect http_get (url v) p w) as H.
    destruct (try_fetch http_get (url v) p w) as [ok w1].
    destruct H as (_ & _ & _ & _ & Hok & Hf & _).
    rewrite Hc in Hok. split; [done|].
    specialize (Hf _ _ Hc Hopen). split; [done|].
    unfold os_path_getsize. by rewrite Hf.
  - rewrite (main_download_video_absent _ _ _ _ _ _ Hp Hfile).
    pose proof (retry_loop_partial http_get (url v) p w Hresp Hopen) as H.
    destruct (retry_loop _ _ _ _ _) as [r w'].
    destruct H as (-> & w3 & chunks & Hr & Hc & Hf). split; [done|].
    exists w3, chunks. repeat split; try done.
    unfold os_path_getsize. by rewrite Hf.
  - unfold Gui.download_video. rewrite Hstop, Hgp.
    apply os_path_exists_false in Hgfile. rewrite Hgfile.
    pose proof (retry_loop_partial http_get (url v) gp w Hresp Hgopen) as H.
    destruct (retry_loop _ _ _ _ _) as [r w'].
    destruct H as (-> & w3 & chunks & Hr & Hc & Hf). split; [done|].
    exists w3, chunks. repeat split; try done.
    unfold os_path_getsize. by rewrite Hf.
Qed.

(** The theorem at the sample task [A], with the server whose stream
    breaks after three bytes. *)
Lemma failed_attempt_leaves_partial_file_witness :
  (∀ chunks, Sample.breaks Sample.fresh_world Sample.url_a
             = Streams chunks false →
     let '(ok, w1) :=
       try_fetch Sample.breaks Sample.url_a Sample.path_a
         Sample.fresh_world in
     ok = false
     ∧ files w1 !! Sample.path_a = Some (write_chunks chunks)
     ∧ os_path_getsize Sample.path_a w1
       = String.length (write_chunks chunks))
  ∧ (let '(r, w') :=
       Main.download_video Sample.md5_hexdigest Sample.breaks
         Sample.downloader Sample.A Sample.fresh_world in
     r = None
     ∧ ∃ w3 chunks,
         requests w3 = requests Sample.fresh_world
                       ++ [Sample.url_a; Sample.url_a]
         ∧ Sample.breaks w3 Sample.url_a = Streams chunks false
         ∧ files w' !! Sample.path_a = Some (write_chunks chunks)
         ∧ os_path_getsize Sample.path_a w'
           = String.length (write_chunks chunks))
  ∧ (let '(r, w') :=
       Gui.download_video Sample.md5_hexdigest Sample.breaks
         (Sample.gui_downloader None) Sample.A Sample.fresh_world in
     r = None
     ∧ ∃ w3 chunks,
         requests w3 = requests Sample.fresh_world
                       ++ [Sample.url_a; Sample.url_a]
         ∧ Sample.breaks w3 Sample.url_a = Streams chunks false
         ∧ files w' !! Sample.path_a = Some (write_chunks chunks)
         ∧ os_path_getsize Sample.path_a w'
           = String.length (write_chunks chunks)).
Proof.
  apply (failed_attempt_leaves_partial_file Sample.md5_hexdigest
           Sample.breaks Sample.downloader (Sample.gui_downloader None)
           Sample.A Sample.fresh_world Sample.path_a Sample.path_a);
    try reflexivity.
  intros w1. by exists ["abc"].
Defined.

(** C8 as stated fails: after three attempts whose stream breaks, the
    worker reports failure and a truncated file of three bytes sits at the
    final path, where the existence check of a later call finds it. *)
Lemma failed_fetch_leaves_truncated_file :
  let '(r, w') :=
    Main.download_video Sample.md5_hexdigest Sample.breaks
      Sample.downloader Sample.A Sample.fresh_world in
  r = None
  ∧ os_path_exists Sample.path_a Sample.fresh_world = false
  ∧ os_path_exists Sample.path_a w' = true
  ∧ os_path_getsize Sample.path_a w' = 3
  ∧ length (requests w') = 3
  ∧ Main.download_video Sample.md5_hexdigest Sample.serves
      Sample.downloader Sample.A w'
    = (Some Sample.path_a, w').
Proof. vm_compute. repeat split. Qed.

(** ** Loops *)

Section LoopRules.

Context {S R : Type}.

(** Invariant rule for [for]: [I] holds of the items still to come,
    [Q] of the way the loop ends. *)
Lemma for_rule {A} (I : list A → S → Prop)
    (Q : completion R * S → Prop) (body : A → stmt S R) :
  (∀ x rest s, I (x :: rest) s →
     match after_turn (body x s).1 with
     | None => I rest (body x s).2
     | Some c => Q (c, (body x s).2)
     end) →
  (∀ s, I [] s → Q (Normal, s)) →
  ∀ l s, I l s → Q (for_ l body s).
Proof.
  intros Hstep Hend l. induction l as [|x l IH]; intros s HI; simpl.
  - by apply Hend.
  - specialize (Hstep x l s HI).
    destruct (body x s) as [c s']. simpl in Hstep.
    destruct (after_turn c); [done|]. by apply IH.
Qed.

Lemma then_run (a b : stmt S R) s c s' :
  a s = (c, s') →
  (a >> b) s = match c with Normal => b s' | _ => (c, s') end.
Proof. unfold then_. intros ->. by destruct c. Qed.

End LoopRules.

Section CompletionRules.

Context {W : Type}.
Variable submit : video_info → W → future_result * W.
Variable path_exists : string → W → bool.
Variable getsize : string → W → nat.
Variable completes_first : W → list video_info → nat.

Local Abbreviation prog := (stmt (locals W) (list string)).

(** Invariant rule for the completion loop: [I] holds of the futures
    still pending. *)
Lemma as_completed_rule (I : list video_info → locals W → Prop)
    (Q : completion (list string) * locals W → Prop)
    (i : nat) (body : video_info → future_result → prog) :
  (∀ pending k video s,
     pending !! k = Some video → I pending s →
     let s1 := set_future (i, video, (submit video (env s)).1)
                 (set_env (submit video (env s)).2 s) in
     let out := body video (submit video (env s)).1 s1 in
     match after_turn out.1 with
     | None => I (delete k pending) out.2
     | Some c => Q (c, out.2)
     end) →
  (∀ s, I [] s → Q (Normal, s)) →
  ∀ n pending s, length pending = n → I pending s →
    Q (as_completed submit completes_first n i pending body s).
Proof.
  intros Hstep Hend n. induction n as [|n IH]; intros pending s Hlen HI.
  - destruct pending; [|done]. simpl. by apply Hend.
  - simpl.
    destruct (pending !! _) as [video|] eqn:Hk.
    2:{ apply lookup_ge_None in Hk.
        pose proof (Nat.mod_upper_bound
                      (completes_first (env s) pending) (length pending)).
        lia. }
    specialize (Hstep pending _ video s Hk HI). cbv zeta in Hstep.
    destruct (submit video (env s)) as [result w]. simpl in Hstep.
    destruct (body video result _) as [c s']. simpl in Hstep.
    destruct (after_turn c); [done|].
    apply IH; [|done].
    rewrite length_delete by eauto. lia.
Qed.

(** [record_result] always ends normally, in the state [filed]. *)
Lemma record_result_filed url result s :
  record_result path_exists getsize url result s
  = (Normal, filed path_exists getsize url result s).
Proof.
  unfold record_result, filed, verified_path, failure_event.
  destruct result as [[path|]|]; simpl; try reflexivity.
  unfold result_truthy. simpl.
  destruct (Py.truthy path) eqn:Ht; simpl; [|reflexivity].
  unfold if_. simpl.
  destruct (path_exists path (env s)); simpl; [|reflexivity].
  destruct (0 <? getsize path (env s)); reflexivity.
Qed.

End CompletionRules.

(** ** Batches *)

Section Batches.

Context {A : Type}.
Implicit Types (l : list A) (n i : nat).

Lemma slice_take_drop l i n : Py.slice l i (i + n) = take n (drop i l).
Proof. unfold Py.slice. f_equal. lia. Qed.

(** The slices cut by the loop header are the chunks of the list. *)
Lemma range_slices_from l n : ∀ fuel i,
  (fun j => Py.slice l j (j + n)) <$> Py.range_from fuel i (length l) n
  = chunks_from fuel n (drop i l).
Proof.
  induction fuel as [|fuel IH]; intros i; simpl; [done|].
  destruct (drop i l) as [|x rest] eqn:Hd.
  - assert (length l ≤ i).
    { apply (f_equal length) in Hd. rewrite length_drop in Hd.
      simpl in Hd. lia. }
    by rewrite (proj2 (Nat.ltb_ge _ _)).
  - assert (i < length l).
    { apply (f_equal length) in Hd. rewrite length_drop in Hd.
      simpl in Hd. lia. }
    rewrite (proj2 (Nat.ltb_lt _ _)) by done.
    rewrite fmap_cons, IH, slice_take_drop, <- Hd, drop_drop.
    reflexivity.
Qed.

Lemma range_slices l n :
  (fun j => Py.slice l j (j + n)) <$> Py.range (length l) n = chunks n l.
Proof. unfold Py.range, chunks. by rewrite range_slices_from. Qed.

Lemma range_from_bound stop step : ∀ fuel start i,
  i ∈ Py.range_from fuel start stop step → i < stop.
Proof.
  induction fuel as [|fuel IH]; intros start i; simpl.
  - by intros ?%elem_of_nil.
  - destruct (start <? stop) eqn:Hlt; [|by intros ?%elem_of_nil].
    intros [->|Hi]%elem_of_cons; [by apply Nat.ltb_lt|eauto].
Qed.

Lemma range_bound stop step i : i ∈ Py.range stop step → i < stop.
Proof. apply range_from_bound. Qed.

Lemma chunks_from_concat n : 1 ≤ n → ∀ fuel l,
  length l ≤ fuel → concat (chunks_from fuel n l) = l.
Proof.
  intros Hn. induction fuel as [|fuel IH]; intros l Hl.
  - destruct l; [done|simpl in Hl; lia].
  - destruct l as [|x l]; [done|].
    cbn [chunks_from concat]. rewrite IH.
    + apply take_drop.
    + rewrite length_drop. simpl in *. lia.
Qed.

Lemma chunks_concat n l : 1 ≤ n → concat (chunks n l) = l.
Proof. intros Hn. by apply chunks_from_concat. Qed.

(** Every chunk but the last has exactly [n] items; the last has
    between 1 and [n]. *)
Lemma chunks_from_lengths n : 1 ≤ n → ∀ fuel l k c,
  chunks_from fuel n l !! k = Some c →
  1 ≤ length c ≤ n
  ∧ (S k < length (chunks_from fuel n l) → length c = n)
  ∧ c = take n (drop (k * n) l).
Proof.
  intros Hn. induction fuel as [|fuel IH]; intros l k c; [done|].
  destruct l as [|x l]; [done|]. cbn [chunks_from].
  destruct k as [|k].
  - intros [= <-]. rewrite length_take. simpl length.
    split; [lia|]. split; [|done].
    destruct fuel as [|fuel]; [simpl; lia|].
    destruct (drop n (x :: l)) as [|y rest] eqn:Hd; [simpl; lia|].
    intros _. apply (f_equal length) in Hd.
    rewrite length_drop in Hd. simpl in Hd. lia.
  - simpl lookup. intros Hk.
    destruct (IH _ _ _ Hk) as (H1 & H2 & H3).
    split; [done|]. split.
    + simpl length. intros ?. apply H2. lia.
    + rewrite H3, drop_drop. reflexivity.
Qed.

End Batches.

(** ** The scheduler of [main.py] *)

Section MainFacts.

Context {W : Type}.
Variable submit : video_info → W → future_result * W.
Variable path_exists : string → W → bool.
Variable getsize : string → W → nat.
Variable completes_first : W → list video_info → nat.
Variable input : W → option string * W.

Local Abbreviation on_completion :=
  (Main.on_completion path_exists getsize).
Local Abbreviation completions :=
  (as_completed submit completes_first).

Lemma main_on_completion_eq v r s :
  on_completion v r s
  = if bool_decide (url v ∈ processed_urls s)
    then (Continue, emit (SkippingDuplicate (url v)) s)
    else (Normal,
          filed path_exists getsize (url v) r (add_processed (url v) s)).
Proof.
  unfold Main.on_completion, if_. case_bool_decide; [reflexivity|].
  unfold then_, exec. by rewrite record_result_filed.
Qed.

(** The completion loop of [main.py] always drains the whole batch. *)
Lemma main_completions_rule (I : list video_info → locals W → Prop)
    (i : nat) :
  (∀ pending k v s,
     pending !! k = Some v → I pending s →
     I (delete k pending)
       (on_completion v (submit v (env s)).1
          (set_future (i, v, (submit v (env s)).1)
             (set_env (submit v (env s)).2 s))).2) →
  ∀ pending s, I pending s →
    (completions (length pending) i pending on_completion s).1 = Normal
    ∧ I [] (completions (length pending) i pending on_completion s).2.
Proof.
  intros Hstep pending s HI.
  apply (as_completed_rule submit completes_first I
           (fun out => out.1 = Normal ∧ I [] out.2) i on_completion);
    [|auto|done|done].
  clear pending s HI. intros pending k v s Hk HI. cbv zeta.
  specialize (Hstep pending k v s Hk HI).
  destruct (on_completion _ _ _) as [c s'] eqn:Hc.
  rewrite main_on_completion_eq in Hc. simpl in *.
  case_bool_decide; injection Hc as <- <-; exact Hstep.
Qed.

Lemma main_confirm_yes s :
  always_yes input →
  Main.confirm input s = (Normal, set_env (input (env s)).2 s).
Proof.
  intros Hyes. unfold Main.confirm.
  destruct (Hyes (env s)) as (line & Hl & Hy).
  destruct (input (env s)) as [o w']. simpl in *. subst o.
  by rewrite Hy.
Qed.

Lemma main_batch_turn_eq videos batch_size i s :
  always_yes input →
  let batch := Py.slice videos i (i + batch_size) in
  let out := completions (length batch) i batch on_completion
               (main_opened input videos batch_size i s) in
  Main.batch_turn submit path_exists getsize completes_first input
    videos batch_size i s
  = match out.1 with
    | Normal => (Normal, closed (i / batch_size + 1) out.2)
    | _ => out
    end.
Proof.
  intros Hyes. cbv zeta. unfold Main.batch_turn, main_opened, opened.
  unfold then_ at 1. unfold exec at 1.
  unfold then_ at 1.
  destruct (0 <? i).
  - rewrite main_confirm_yes by done.
    unfold then_ at 1. unfold exec at 1.
    unfold then_ at 1. unfold exec at 1.
    unfold then_ at 1.
    destruct (completions _ _ _ _ _) as [[] s']; reflexivity.
  - unfold skip.
    unfold then_ at 1. unfold exec at 1.
    unfold then_ at 1. unfold exec at 1.
    unfold then_ at 1.
    destruct (completions _ _ _ _ _) as [[] s']; reflexivity.
Qed.

(** Invariant rule for a whole run of [main.py] in which every prompt is
    answered "y": [O] holds between batches, of the start indices still
    to come; [I] holds inside a batch, of its pending futures. *)
Lemma main_run_rule (videos : list video_info) (batch_size : nat)
    (O : list nat → locals W → Prop)
    (I : nat → list nat → list video_info → locals W → Prop) (w : W) :
  always_yes input →
  1 ≤ batch_size →
  O (Py.range (length videos) batch_size) (initial w) →
  (∀ done i rest s,
     done ++ i :: rest = Py.range (length videos) batch_size →
     O (i :: rest) s →
     I i rest (Py.slice videos i (i + batch_size))
       (main_opened input videos batch_size i s)) →
  (∀ i rest pending k v s,
     pending !! k = Some v → I i rest pending s →
     I i rest (delete k pending)
       (on_completion v (submit v (env s)).1
          (set_future (i, v, (submit v (env s)).1)
             (set_env (submit v (env s)).2 s))).2) →
  (∀ i rest s, I i rest [] s → O rest (closed (i / batch_size + 1) s)) →
  let out := Main.parallel_download_videos submit path_exists getsize
               completes_first input videos batch_size w in
  out.1 = Return (all_successful_downloads out.2)
  ∧ ∃ s, O [] s
         ∧ out.2 = emit (OverallSummary (size (processed_urls s))
                           (length (all_successful_downloads s))
                           (length (all_failed_downloads s))) s.
Proof.
  intros Hyes Hbs Hinit Hopen Hstep Hclose. cbv zeta.
  unfold Main.parallel_download_videos.
  destruct (batch_size =? 0) eqn:H0; [apply Nat.eqb_eq in H0; lia|].
  set (range := Py.range (length videos) batch_size) in *.
  assert (Hloop :
    ∀ l s, (∃ done, done ++ l = range) → O l s →
      ∃ s', for_ l (Main.batch_turn submit path_exists getsize
                      completes_first input videos batch_size) s
            = (Normal, s') ∧ O [] s').
  { induction l as [|i rest IH]; intros s [done Hdone] HO.
    - exists s. done.
    - simpl. rewrite main_batch_turn_eq by done. cbv zeta.
      pose proof (main_completions_rule (I i rest) i
                    (Hstep i rest) _ _ (Hopen done i rest s Hdone HO))
        as [Hn HI].
      destruct (completions _ _ _ _ _) as [c s1]. simpl in Hn, HI.
      subst c. simpl.
      apply IH; [|by apply Hclose].
      exists (done ++ [i]). by rewrite <- app_assoc. }
  destruct (Hloop range (initial w)) as (s' & Hfor & HO);
    [by exists []|done|].
  match goal with |- context [?prog (initial w)] =>
    assert (Heq : prog (initial w)
                  = (Return (all_successful_downloads s'),
                     emit (OverallSummary (size (processed_urls s'))
                             (length (all_successful_downloads s'))
                             (length (all_failed_downloads s'))) s'))
      by (unfold then_ at 1; rewrite Hfor; reflexivity);
    rewrite Heq
  end.
  simpl. split; [reflexivity|]. exists s'. done.
Qed.

End MainFacts.

(** ** A failing task in a run of [main.py] *)

Section Counting.

Lemma occurrences_app x l l' :
  occurrences x (l ++ l') = occurrences x l + occurrences x l'.
Proof. unfold occurrences. by rewrite filter_app, length_app. Qed.

Lemma occurrences_one_eq x : occurrences x [x] = 1.
Proof. unfold occurrences. by rewrite filter_cons_True. Qed.

Lemma occurrences_one_ne x y : y ≠ x → occurrences x [y] = 0.
Proof. intros H. unfold occurrences. by rewrite filter_cons_False. Qed.

Lemma unique_url_inj (videos : list video_info) u v :
  NoDup (url <$> videos) → u ∈ videos → v ∈ videos →
  url u = url v → u = v.
Proof.
  induction videos as [|x l IH]; [by intros _ ?%elem_of_nil|].
  rewrite fmap_cons. intros [Hx Hl]%NoDup_cons.
  intros [->|Hu]%elem_of_cons [->|Hv]%elem_of_cons Heq; auto.
  - exfalso. apply Hx. rewrite Heq. by apply list_elem_of_fmap_2.
  - exfalso. apply Hx. rewrite <- Heq. by apply list_elem_of_fmap_2.
Qed.

Lemma elem_of_delete_or {A} (l : list A) k x y :
  l !! k = Some x → y ∈ l → y ∈ delete k l ∨ y = x.
Proof.
  revert k. induction l as [|a l IH]; intros k; [done|].
  destruct k as [|k]; simpl.
  - intros [= ->] [->|Hy]%elem_of_cons; auto.
  - intros Hk [->|Hy]%elem_of_cons.
    + left. by left.
    + destruct (IH k Hk Hy); auto. left. by right.
Qed.

Lemma elem_of_delete_in {A} (l : list A) k y :
  y ∈ delete k l → y ∈ l.
Proof.
  revert k. induction l as [|a l IH]; intros k; [done|].
  destruct k as [|k]; simpl.
  - by right.
  - intros [->|Hy]%elem_of_cons; [by left|right; eauto].
Qed.

Lemma elem_of_slice {A} (l : list A) i j x : x ∈ Py.slice l i j → x ∈ l.
Proof.
  unfold Py.slice. intros H.
  eapply subseteq_drop, subseteq_take, H.
Qed.

Lemma elem_of_concat {A} (ls : list (list A)) x :
  x ∈ concat ls → ∃ l, x ∈ l ∧ l ∈ ls.
Proof.
  induction ls as [|l ls IH]; simpl; [by intros ?%elem_of_nil|].
  intros [H|H]%elem_of_app.
  - exists l. split; [done|by left].
  - destruct (IH H) as (l' & ? & ?). exists l'. split; [done|by right].
Qed.

(** Every item of the list lies in one of the slices cut by the loop
    header. *)
Lemma elem_of_some_slice {A} (l : list A) n x :
  1 ≤ n → x ∈ l →
  ∃ i, i ∈ Py.range (length l) n ∧ x ∈ Py.slice l i (i + n).
Proof.
  intros Hn Hx. rewrite <- (chunks_concat n l Hn) in Hx.
  apply elem_of_concat in Hx as (c & Hxc & Hc).
  rewrite <- range_slices in Hc.
  apply list_elem_of_fmap in Hc as (i & -> & Hi). eauto.
Qed.

End Counting.

Section FiledFacts.

Context {W : Type}.
Variable path_exists : string → W → bool.
Variable getsize : string → W → nat.

Lemma future_fails_not_verified r w :
  future_fails r = true → verified_path path_exists getsize r w = None.
Proof.
  destruct r as [[p|]|]; simpl; try done.
  unfold result_truthy. by intros ->%negb_true_iff.
Qed.

Lemma filed_unchanged u r (s : locals W) :
  let s' := filed path_exists getsize u r s in
  processed_urls s' = processed_urls s
  ∧ env s' = env s
  ∧ all_successful_downloads s' = all_successful_downloads s
  ∧ all_failed_downloads s' = all_failed_downloads s
  ∧ videos_processed s' = videos_processed s
  ∧ future s' = future s.
Proof. cbv zeta. unfold filed. by destruct (verified_path _ _ _ _). Qed.

Lemma filed_lists u r (s : locals W) :
  let s' := filed path_exists getsize u r s in
  match verified_path path_exists getsize r (env s) with
  | Some p =>
      successful_downloads s' = successful_downloads s ++ [p]
      ∧ failed_downloads s' = failed_downloads s
      ∧ log s' = log s ++ [Verified p]
  | None =>
      successful_downloads s' = successful_downloads s
      ∧ failed_downloads s' = failed_downloads s ++ [u]
      ∧ log s' = log s ++ [failure_event u r]
  end.
Proof. cbv zeta. unfold filed. by destruct (verified_path _ _ _ _). Qed.

End FiledFacts.

Section MainFailure.

Context {W : Type}.
Variable submit : video_info → W → future_result * W.
Variable path_exists : string → W → bool.
Variable getsize : string → W → nat.
Variable completes_first : W → list video_info → nat.
Variable input : W → option string * W.

Variable videos : list video_info.
Variable batch_size : nat.
Variable v : video_info.
Variable P : W → Prop.

Hypothesis Hyes : always_yes input.
Hypothesis Hbs : 1 ≤ batch_size.
Hypothesis Hnodup : NoDup (url <$> videos).
Hypothesis Hv : v ∈ videos.
Hypothesis Hothers :
  ∀ u w, u ∈ videos → url u ≠ url v → P w → P (submit u w).2.
Hypothesis Hinput : ∀ w, P w → P (input w).2.
Hypothesis Hdoomed : ∀ w, P w → future_fails (submit v w).1 = true.

Local Abbreviation between := (failure_between videos batch_size v P).
Local Abbreviation within := (failure_within videos batch_size v P).

Lemma failure_open i rest s :
  between (i :: rest) s →
  within rest (Py.slice videos i (i + batch_size))
    (main_opened input videos batch_size i s).
Proof.
  intros [Hcov Hv'].
  assert (Hfields :
    processed_urls (main_opened input videos batch_size i s)
      = processed_urls s
    ∧ all_failed_downloads (main_opened input videos batch_size i s)
      = all_failed_downloads s
    ∧ failed_downloads (main_opened input videos batch_size i s) = []
    ∧ (P (env s) → P (env (main_opened input videos batch_size i s)))).
  { unfold main_opened. destruct (0 <? i); simpl; repeat split; auto. }
  destruct Hfields as (Hp & Haf & Hf & HP).
  assert (Hsplit : ∀ u, still_to_come videos batch_size (i :: rest) u →
    u ∈ Py.slice videos i (i + batch_size)
    ∨ still_to_come videos batch_size rest u).
  { intros u (j & [->|Hj]%elem_of_cons & Hu); [by left|].
    right. by exists j. }
  split; [|split].
  - intros u. apply elem_of_slice.
  - intros u Hu. rewrite Hp.
    destruct (Hcov u Hu) as [H|H]; [|auto].
    destruct (Hsplit u H); auto.
  - rewrite Hp, Haf, Hf, app_nil_r.
    destruct Hv' as [(H1 & H2 & H3 & H4)|H]; [left|by right].
    split; [by apply Hsplit|]. auto.
Qed.

Lemma failure_step i rest pending k u s :
  pending !! k = Some u → within rest pending s →
  within rest (delete k pending)
    (Main.on_completion path_exists getsize u (submit u (env s)).1
       (set_future (i, u, (submit u (env s)).1)
          (set_env (submit u (env s)).2 s))).2.
Proof.
  intros Hk (Hsub & Hcov & Hv').
  assert (Hu : u ∈ videos) by (apply Hsub; eapply list_elem_of_lookup_2, Hk).
  assert (Hsub' : ∀ x, x ∈ delete k pending → x ∈ videos).
  { intros x Hx. apply Hsub. eapply elem_of_delete_in, Hx. }
  rewrite main_on_completion_eq.
  set (r := (submit u (env s)).1). set (w := (submit u (env s)).2).
  set (s1 := set_future (i, u, r) (set_env w s)).
  change (processed_urls s1) with (processed_urls s).
  case_bool_decide as Hdup; cbn [snd].
  - (* the URL was processed before: the completion is skipped *)
    assert (Hurl : url v ∉ processed_urls s → url u ≠ url v)
      by (intros Hnp Heq; apply Hnp; by rewrite <- Heq).
    split; [exact Hsub'|]. split.
    + intros x Hx. simpl.
      destruct (Hcov x Hx) as [H|[H|H]]; [|by auto|by auto].
      destruct (elem_of_delete_or _ _ _ _ Hk H) as [?| ->]; auto.
    + simpl.
      destruct Hv' as [(Hwait & Hnp & Hocc & HP)|?]; [left|by right].
      split; [|split; [done|split; [done|]]].
      * destruct Hwait as [Hpend|?]; [|by right].
        destruct (elem_of_delete_or _ _ _ _ Hk Hpend) as [?| ->];
          [by left|].
        by destruct (Hurl Hnp).
      * apply Hothers; auto.
  - (* the completion is filed *)
    pose proof (filed_unchanged path_exists getsize (url u) r
                  (add_processed (url u) s1)) as Hsame.
    pose proof (filed_lists path_exists getsize (url u) r
                  (add_processed (url u) s1)) as Hlists.
    cbv zeta in Hsame, Hlists.
    destruct Hsame as (Hp & He & _ & Haf & _).
    simpl in Hp, He, Haf.
    split; [exact Hsub'|]. split.
    + intros x Hx. rewrite Hp.
      destruct (Hcov x Hx) as [H|[H|H]]; [|by auto|right; right; set_solver].
      destruct (elem_of_delete_or _ _ _ _ Hk H) as [?| ->]; [by auto|].
      right; right. set_solver.
    + rewrite Hp, Haf, He.
      destruct Hv' as [(Hwait & Hnp & Hocc & HP)|(Hin & Hocc)].
      * destruct (decide (u = v)) as [->|Hne].
        -- right.
           rewrite (future_fails_not_verified path_exists getsize r)
             in Hlists by (by apply Hdoomed).
           destruct Hlists as (_ & -> & _). simpl.
           split; [set_solver|].
           rewrite app_assoc, occurrences_app, Hocc, occurrences_one_eq.
           done.
        -- assert (Hurl : url u ≠ url v).
           { intros Heq. apply Hne. by eapply unique_url_inj. }
           left. split.
           { destruct Hwait as [Hpend|?]; [|by right].
             destruct (elem_of_delete_or _ _ _ _ Hk Hpend) as [?|?];
               [by left|congruence]. }
           split; [set_solver|]. split; [|by apply Hothers].
           destruct (verified_path _ _ _ _);
             destruct Hlists as (_ & -> & _); simpl; [done|].
           rewrite app_assoc, occurrences_app, Hocc, occurrences_one_ne;
             done.
      * right. split; [set_solver|].
        assert (Hurl : url u ≠ url v)
          by (intros Heq; apply Hdup; by rewrite Heq).
        destruct (verified_path _ _ _ _);
          destruct Hlists as (_ & -> & _); simpl; [done|].
        rewrite app_assoc, occurrences_app, Hocc, occurrences_one_ne;
          done.
Qed.

Lemma failure_close i rest s :
  within rest [] s → between rest (closed (i / batch_size + 1) s).
Proof.
  intros (_ & Hcov & Hv'). split.
  - intros u Hu. destruct (Hcov u Hu) as [H|[H|H]]; auto.
    by apply elem_of_nil in H.
  - destruct Hv' as [([H|H] & ? & ? & ?)|?]; [|left|right]; auto.
    by apply elem_of_nil in H.
Qed.

(** A task whose future fails as long as [P] holds, where no other task
    and no prompt disturbs [P]: the run ends with its return statement,
    every URL is processed, and the URL of the task is in the list of
    failures exactly once. *)
Lemma main_failure_filed_once w :
  P w →
  let out := Main.parallel_download_videos submit path_exists getsize
               completes_first input videos batch_size w in
  out.1 = Return (all_successful_downloads out.2)
  ∧ occurrences (url v) (all_failed_downloads out.2) = 1
  ∧ ∀ u, u ∈ videos → url u ∈ processed_urls out.2.
Proof.
  intros HP.
  pose proof (main_run_rule submit path_exists getsize completes_first
                input videos batch_size between (fun _ => within) w
                Hyes Hbs) as Hrun.
  cbv zeta in Hrun |- *.
  destruct Hrun as (Hret & s & [Hcov Hv'] & Hout).
  - split.
    + intros u Hu. left. by apply elem_of_some_slice.
    + left. split; [by apply elem_of_some_slice|].
      simpl. split; [set_solver|]. done.
  - intros done i rest s _. apply failure_open.
  - intros i rest pending k u s. apply failure_step.
  - apply failure_close.
  - split; [exact Hret|]. rewrite Hout. simpl. split.
    + destruct Hv' as [((j & Hj & _) & _)|[_ H]]; [|done].
      by apply elem_of_nil in Hj.
    + intros u Hu. destruct (Hcov u Hu) as [(j & Hj & _)|H]; [|done].
      by apply elem_of_nil in Hj.
Qed.

End MainFailure.

Section MainProgramFacts.

Variable md5_hexdigest : string → string.
Variable http_get : world → string → response.
Variable console : nat → option string.
Variable self : Main.TikTokDownloader.

Lemma main_worker_frame u w q :
  filepath md5_hexdigest (Main.download_dir self) u ≠ Some q →
  files (Main.worker md5_hexdigest http_get self u w).2 !! q
  = files w !! q.
Proof.
  intros Hq. unfold Main.worker.
  pose proof (main_download_video_frame md5_hexdigest http_get
                self u w q Hq) as H.
  by destruct (Main.download_video _ _ _ _ _).
Qed.

(** A task whose every request fails and whose file does not exist
    comes back with [None]. *)
Lemma main_worker_doomed v w :
  (∀ w1, response_fails (http_get w1 (url v)) = true) →
  (∀ p, filepath md5_hexdigest (Main.download_dir self) v = Some p →
        files w !! p = None) →
  (Main.worker md5_hexdigest http_get self v w).1 = Result None.
Proof.
  intros Hfail Habsent. unfold Main.worker, Main.download_video.
  destruct (filepath _ _ v) as [p|]; [|done].
  rewrite (proj2 (os_path_exists_false p w)) by auto.
  pose proof (retry_loop_gives_up http_get (url v) p w Hfail) as H.
  destruct (retry_loop _ _ _ _ _) as [r w'].
  by destruct H as [-> _].
Qed.

End MainProgramFacts.

(** C4.  In [main.py], a task whose destination file is absent costs at
    most three requests, with a sleep of exactly 2 between consecutive
    requests, and [download_video] gives up only after the third.  When
    every request for the URL of a task [v] fails, the worker returns
    [None] after three requests and two sleeps of 2; and in a run over a
    task list with distinct URLs whose prompts are all answered "y",
    where the file of [v] does not exist and no other task is stored at
    its path, the run ends with its return statement, every URL of the
    list is processed, and the URL of [v] is in the failure list exactly
    once. *)
Theorem three_attempts_then_filed_once
    (md5_hexdigest : string → string) (http_get : world → string → response)
    (console : nat → option string)
    (completes_first : world → list video_info → nat)
    (self : Main.TikTokDownloader) (videos : list video_info)
    (batch_size : nat) (v : video_info) (w0 : world) :
  1 ≤ batch_size →
  NoDup (url <$> videos) →
  v ∈ videos →
  always_yes (console_input console) →
  (∀ w, response_fails (http_get w (url v)) = true) →
  (∀ p, filepath md5_hexdigest (Main.download_dir self) v = Some p →
        files w0 !! p = None
        ∧ ∀ u, u ∈ videos → url u ≠ url v →
               filepath md5_hexdigest (Main.download_dir self) u ≠ Some p) →
  (∀ http_get' v' w p,
     filepath md5_hexdigest (Main.download_dir self) v' = Some p →
     files w !! p = None →
     let '(r, w') :=
       Main.download_video md5_hexdigest http_get' self v' w in
     ∃ k, 1 ≤ k ≤ 3
          ∧ requests w' = requests w ++ replicate k (url v')
          ∧ sleeps w' = sleeps w ++ replicate (k - 1) 2
          ∧ (r = Some p ∨ (r = None ∧ k = 3)))
  ∧ (∀ w p,
       filepath md5_hexdigest (Main.download_dir self) v = Some p →
       files w !! p = None →
       let '(r, w') := Main.download_video md5_hexdigest http_get self v w in
       r = None
       ∧ requests w' = requests w ++ [url v; url v; url v]
       ∧ sleeps w' = sleeps w ++ [2; 2])
  ∧ (let out := Main.run md5_hexdigest http_get console completes_first
                  self videos batch_size w0 in
     out.1 = Return (all_successful_downloads out.2)
     ∧ occurrences (url v) (all_failed_downloads out.2) = 1
     ∧ ∀ u, u ∈ videos → url u ∈ processed_urls out.2).
Proof.
  intros Hbs Hnodup Hv Hyes Hfail Hpath. split; [|split].
  - intros http' v' w p Hp Habsent.
    rewrite (main_download_video_absent _ _ _ _ _ _ Hp Habsent).
    pose proof (retry_loop_effect http' (url v') p w) as H.
    destruct (retry_loop _ _ _ _ _) as [r w'].
    destruct H as (k & Hk & Hr & Hs & _ & _ & Hres). eauto 10.
  - intros w p Hp Habsent.
    rewrite (main_download_video_absent _ _ _ _ _ _ Hp Habsent).
    apply retry_loop_gives_up, Hfail.
  - unfold Main.run.
    apply (main_failure_filed_once
             (Main.worker md5_hexdigest http_get self)
             os_path_exists os_path_getsize completes_first
             (console_input console) videos batch_size v
             (fun w => ∀ p,
                filepath md5_hexdigest (Main.download_dir self) v = Some p →
                files w !! p = None));
      try done.
    + intros u w Hu Hne HP p Hp. rewrite main_worker_frame; [by apply HP|].
      by apply (Hpath p Hp).
    + intros w HP. rewrite main_worker_doomed; done.
    + intros p Hp. by apply Hpath.
Qed.

(** The theorem at the three sample tasks in batches of two, the server
    refusing every request for the URL of [B]. *)
Lemma three_attempts_then_filed_once_witness :
  let out := Main.run Sample.md5_hexdigest Sample.refuses_b Sample.says_yes
               Sample.in_order Sample.downloader
               [Sample.A; Sample.B; Sample.C] 2 Sample.fresh_world in
  out.1 = Return (all_successful_downloads out.2)
  ∧ occurrences Sample.url_b (all_failed_downloads out.2) = 1
  ∧ ∀ u, u ∈ [Sample.A; Sample.B; Sample.C] → url u ∈ processed_urls out.2.
Proof.
  refine (proj2 (proj2 (three_attempts_then_filed_once
    Sample.md5_hexdigest Sample.refuses_b Sample.says_yes Sample.in_order
    Sample.downloader [Sample.A; Sample.B; Sample.C] 2 Sample.B
    Sample.fresh_world _ _ _ _ _ _))).
  - lia.
  - vm_compute. repeat constructor; set_solver.
  - set_solver.
  - intros w. exists "y". done.
  - reflexivity.
  - intros p [= <-]. split; [reflexivity|].
    intros u Hu Hne.
    repeat (apply elem_of_cons in Hu as [->|Hu]; [done|]).
    by apply elem_of_nil in Hu.
Defined.

(** ** The scheduler of [tiktok_downloader_gui.py] *)

Section GuiFacts.

Context {W : Type}.
Variable path_exists : string → W → bool.
Variable getsize : string → W → nat.
Variable self : Gui.TikTokDownloader W.

Local Abbreviation account := (Gui.account path_exists getsize self).
Local Abbreviation on_completion :=
  (Gui.on_completion path_exists getsize self).

Lemma gui_account_eq total v r s :
  account total v r s
  = if bool_decide (url v ∈ processed_urls s)
    then (Continue, emit (SkippingDuplicate (url v)) s)
    else (Normal,
          progressed self total
            (filed path_exists getsize (url v) r
               (count_processed (add_processed (url v) s)))).
Proof.
  unfold Gui.account, if_. case_bool_decide; [reflexivity|].
  unfold then_, exec. rewrite record_result_filed.
  unfold Gui.report_progress, progressed.
  by destruct (Gui.gui_callback self).
Qed.

Lemma gui_on_completion_eq total v r s :
  on_completion total v r s
  = if Gui.is_set (Gui.stop_event self) (env s)
    then (Return (all_successful_downloads s),
          emit (Shutdown false) (emit CancelPending s))
    else account total v r s.
Proof.
  unfold Gui.on_completion, if_.
  by destruct (Gui.is_set _ _).
Qed.

Lemma gui_finally_eq total i s :
  Gui.finally_clause path_exists getsize self total i s
  = match future s with
    | None => (Raise NameError, emit (Shutdown true) s)
    | Some (j, v, r) =>
        if j =? i then account total v r (emit (Shutdown true) s)
        else (Raise KeyError, emit (Shutdown true) s)
    end.
Proof.
  unfold Gui.finally_clause, then_, exec. simpl.
  by destruct (future s) as [[[j v] r]|].
Qed.

(** What [account] leaves alone, and what it makes of the URL. *)
Lemma gui_account_effect total v r s :
  let out := account total v r s in
  (out.1 = Normal ∨ out.1 = Continue)
  ∧ all_successful_downloads out.2 = all_successful_downloads s
  ∧ future out.2 = future s
  ∧ (url v ∈ processed_urls out.2)
  ∧ pool_events (log out.2) = pool_events (log s).
Proof.
  cbv zeta. rewrite gui_account_eq.
  case_bool_decide as Hdup; cbn [fst snd].
  - split; [by right|]. simpl. split; [done|]. split; [done|].
    split; [done|]. unfold pool_events. rewrite filter_app. simpl.
    by rewrite filter_cons_False, filter_nil, app_nil_r.
  - split; [by left|].
    set (s1 := count_processed (add_processed (url v) s)).
    pose proof (filed_unchanged path_exists getsize (url v) r s1)
      as (Hp & _ & Has & _ & _ & Hf).
    pose proof (filed_lists path_exists getsize (url v) r s1) as Hl.
    cbv zeta in Hl.
    assert (Hlog : pool_events
                     (log (filed path_exists getsize (url v) r s1))
                   = pool_events (log s)).
    { unfold pool_events.
      destruct (verified_path _ _ _ _);
        destruct Hl as (_ & _ & ->); rewrite filter_app; simpl.
      - by rewrite filter_cons_False, filter_nil, app_nil_r.
      - rewrite filter_cons_False, filter_nil, app_nil_r; [done|].
        unfold failure_event.
        destruct r as [[p|]|]; simpl; try done.
        by destruct (Py.truthy p). }
    unfold progressed.
    destruct (Gui.gui_callback self); simpl.
    + rewrite Has, Hf, Hp. simpl.
      split; [done|]. split; [done|]. split; [set_solver|].
      unfold pool_events in *. rewrite filter_app, Hlog. simpl.
      by rewrite filter_cons_False, filter_nil, app_nil_r.
    + rewrite Has, Hf, Hp, Hlog. simpl.
      split; [done|]. split; [done|]. split; [set_solver|done].
Qed.

End GuiFacts.

Section GuiDropsSuccesses.

Context {W : Type}.
Variable submit : video_info → W → future_result * W.
Variable path_exists : string → W → bool.
Variable getsize : string → W → nat.
Variable completes_first : W → list video_info → nat.
Variable self : Gui.TikTokDownloader W.
Variable stop_event : option (W → bool).
Variable videos : list video_info.
Variable batch_size : nat.

Local Abbreviation account := (Gui.account path_exists getsize self).
Local Abbreviation on_completion :=
  (Gui.on_completion path_exists getsize self).
Local Abbreviation completions :=
  (as_completed submit completes_first).

Lemma slice_nonempty {A} (l : list A) i n :
  1 ≤ n → i < length l → 1 ≤ length (Py.slice l i (i + n)).
Proof.
  intros Hn Hi. rewrite slice_take_drop, length_take, length_drop. lia.
Qed.

(** The completion loop of the GUI: nothing is added to the totals, a
    [return] returns the empty totals, and when the loop is drained the
    variable [future] is left on a processed URL. *)
Lemma gui_completions_keep_nothing total i batch s :
  1 ≤ length batch →
  all_successful_downloads s = [] →
  let out := completions (length batch) i batch (on_completion total) s in
  nothing_kept out ∧ (out.1 = Normal → last_future_processed i out.2).
Proof.
  intros Hne Hs.
  apply (as_completed_rule submit completes_first
           (fun pending s' =>
              all_successful_downloads s' = []
              ∧ (length pending < length batch →
                 last_future_processed i s'))
           (fun out => nothing_kept out
                       ∧ (out.1 = Normal → last_future_processed i out.2))
           i (on_completion total)); [| |done|].
  - intros pending k v s' Hk [Hs' _]. cbv zeta.
    rewrite gui_on_completion_eq.
    set (r := (submit v (env s')).1). set (w := (submit v (env s')).2).
    set (s1 := set_future (i, v, r) (set_env w s')).
    destruct (Gui.is_set _ _); cbn [fst snd after_turn].
    + split; [|done]. split; [done|]. by intros x [= <-].
    + pose proof (gui_account_effect path_exists getsize self
                    total v r s1) as (Hc & Has & Hf & Hp & _).
      destruct (account total v r s1) as [c s2]. simpl in *.
      destruct Hc as [-> | ->]; simpl.
      * split; [congruence|]. intros _. by exists v, r.
      * split; [congruence|]. intros _. by exists v, r.
  - intros s' [Hs' Hf]. split; [|intros _; apply Hf; simpl; lia].
    split; [done|]. discriminate.
  - split; [done|]. lia.
Qed.

(** The [finally] clause adds nothing to the totals, and after a
    drained loop it ends with [continue]. *)
Lemma gui_finally_effect total i s :
  let out := Gui.finally_clause path_exists getsize self total i s in
  all_successful_downloads out.2 = all_successful_downloads s
  ∧ (∀ x, out.1 ≠ Return x)
  ∧ (last_future_processed i s → out.1 = Continue).
Proof.
  cbv zeta. rewrite gui_finally_eq.
  destruct (future s) as [[[j v] r]|] eqn:Hfut.
  - destruct (j =? i) eqn:Hj.
    + pose proof (gui_account_effect path_exists getsize self total v r
                    (emit (Shutdown true) s)) as (Hc & Has & _).
      split; [exact Has|]. split.
      * intros x Hx. destruct Hc; congruence.
      * intros (v' & r' & Hf' & Hp). rewrite Hfut in Hf'.
        injection Hf' as _ <- _.
        rewrite gui_account_eq.
        by rewrite bool_decide_eq_true_2.
    + split; [done|]. split; [done|].
      intros (v' & r' & Hf' & _). rewrite Hfut in Hf'.
      injection Hf' as -> _ _. by rewrite Nat.eqb_refl in Hj.
  - split; [done|]. split; [done|].
    intros (v' & r' & Hf' & _). congruence.
Qed.

Lemma gui_batch_turn_eq i s :
  let batch := Py.slice videos i (i + batch_size) in
  let number := i / batch_size + 1 in
  let out1 := completions (length batch) i batch
                (on_completion (length videos))
                (opened batch (emit (ProcessingBatch number) s)) in
  let out2 := Gui.finally_clause path_exists getsize self
                (length videos) i out1.2 in
  Gui.batch_turn submit path_exists getsize completes_first
    self stop_event videos batch_size i s
  = if Gui.is_set stop_event (env s)
    then (Break, emit DownloadStoppedByUser s)
    else match out2.1 with
         | Normal =>
             match out1.1 with
             | Normal => (Normal, gui_closed number out2.2)
             | c => (c, out2.2)
             end
         | c => (c, out2.2)
         end.
Proof.
  cbv zeta. unfold Gui.batch_turn, if_.
  destruct (Gui.is_set stop_event (env s)); [reflexivity|].
  unfold then_ at 1. unfold exec at 1.
  unfold then_ at 1. unfold exec at 1.
  unfold then_ at 1. unfold try_finally.
  unfold then_ at 1. unfold exec at 1. unfold opened.
  destruct (completions _ _ _ _ _) as [c1 s1]. cbn [fst snd].
  destruct (Gui.finally_clause _ _ _ _ _ _) as [c2 s2]. cbn [fst snd].
  destruct c2, c1; reflexivity.
Qed.

(** One turn of the batch loop never reaches the statements that extend
    the totals. *)
Lemma gui_batch_turn_keeps_nothing i s :
  1 ≤ batch_size → i < length videos →
  all_successful_downloads s = [] →
  let out := Gui.batch_turn submit path_exists getsize completes_first
               self stop_event videos batch_size i s in
  nothing_kept out ∧ out.1 ≠ Normal.
Proof.
  intros Hbs Hi Hs. cbv zeta. rewrite gui_batch_turn_eq. cbv zeta.
  destruct (Gui.is_set stop_event (env s)).
  { by repeat split. }
  set (batch := Py.slice videos i (i + batch_size)).
  match goal with |- context [completions _ _ _ _ ?s0] =>
    pose proof (gui_completions_keep_nothing (length videos) i batch s0
                  (slice_nonempty videos i batch_size Hbs Hi) Hs)
      as [[Hs1 Hret1] Hfut1]
  end.
  destruct (completions _ _ _ _ _) as [c1 s1].
  cbn [fst snd] in *.
  pose proof (gui_finally_effect (length videos) i s1)
    as (Hs2 & Hret2 & Hcont).
  destruct (Gui.finally_clause _ _ _ _ _ _) as [c2 s2].
  cbn [fst snd] in *.
  assert (Hs2' : all_successful_downloads s2 = []) by congruence.
  destruct c2.
  - (* the [finally] clause fell through: the loop had not been drained *)
    destruct c1; try (by repeat split).
    all: try (specialize (Hcont (Hfut1 eq_refl)); discriminate).
    all: split; [|done]; split; [done|]; intros x [= <-]; by apply Hret1.
  - by repeat split.
  - by repeat split.
  - by destruct (Hret2 r).
  - by repeat split.
Qed.

(** Whatever the tasks, the workers, the order of completions and the
    stop flags: the GUI scheduler ends with an empty
    [all_successful_downloads], and what it returns is the empty list. *)
Lemma gui_run_keeps_nothing w :
  let out := Gui.parallel_download_videos submit path_exists getsize
               completes_first self videos batch_size stop_event w in
  all_successful_downloads out.2 = []
  ∧ (out.1 = Return [] ∨ ∃ e, out.1 = Raise e).
Proof.
  cbv zeta. unfold Gui.parallel_download_videos.
  destruct (batch_size =? 0) eqn:H0.
  { unfold signal. simpl. split; [done|]. right. by eexists. }
  apply Nat.eqb_neq in H0.
  pose proof (for_rule
    (fun rest s => all_successful_downloads s = []
                   ∧ ∀ i, i ∈ rest → i < length videos)
    (fun out => all_successful_downloads out.2 = []
                ∧ (out.1 = Normal ∨ out.1 = Return [] ∨ ∃ e, out.1 = Raise e))
    (Gui.batch_turn submit path_exists getsize completes_first
       self stop_event videos batch_size)) as Hfor.
  specialize (Hfor
    ltac:(intros i rest s [Hs Hr];
          pose proof (gui_batch_turn_keeps_nothing i s ltac:(lia)
                        (Hr i ltac:(by left)) Hs) as [[Hs' Hret] Hn];
          destruct (Gui.batch_turn _ _ _ _ _ _ _ _ _ _) as [c s'];
          simpl in *; destruct c; simpl; try done;
          [ split; [done|]; intros j Hj; apply Hr; by right
          | split; [done|]; by left
          | split; [done|]; right; left; f_equal; by apply Hret
          | split; [done|]; right; right; by eexists ])
    ltac:(intros s [Hs _]; split; [done|by left])
    (Py.range (length videos) batch_size) (initial w)
    ltac:(split; [done|]; intros i; apply range_bound)).
  destruct (for_ _ _ _) as [c s] eqn:Heq. simpl in Hfor.
  destruct Hfor as [Hs Hc].
  rewrite (then_run _ _ _ _ _ Heq).
  destruct Hc as [-> | [-> | [e ->]]]; simpl.
  - unfold then_, exec. simpl. split; [done|]. left. by rewrite Hs.
  - split; [done|]. by left.
  - split; [done|]. right. by eexists.
Qed.

End GuiDropsSuccesses.

(** ** The pools of a run *)

Section PoolEvents.

Context {W : Type}.
Variable path_exists : string → W → bool.
Variable getsize : string → W → nat.

Lemma pool_events_app l l' :
  pool_events (l ++ l') = pool_events l ++ pool_events l'.
Proof. apply filter_app. Qed.

Lemma pool_events_snoc_other l e :
  is_pool_event e = false → pool_events (l ++ [e]) = pool_events l.
Proof.
  intros He. rewrite pool_events_app. unfold pool_events at 2.
  rewrite filter_cons_False, filter_nil, app_nil_r; [done|].
  by rewrite He.
Qed.

Lemma pool_events_snoc_pool l e :
  is_pool_event e = true → pool_events (l ++ [e]) = pool_events l ++ [e].
Proof.
  intros He. rewrite pool_events_app. unfold pool_events at 2.
  by rewrite filter_cons_True, filter_nil.
Qed.

Lemma failure_event_not_pool u r : is_pool_event (failure_event u r) = false.
Proof. destruct r as [[p|]|]; simpl; try done. by destruct (Py.truthy p). Qed.

Lemma filed_pool_events u r (s : locals W) :
  pool_events (log (filed path_exists getsize u r s)) = pool_events (log s).
Proof.
  pose proof (filed_lists path_exists getsize u r s) as H. cbv zeta in H.
  destruct (verified_path _ _ _ _); destruct H as (_ & _ & ->).
  - by apply pool_events_snoc_other.
  - apply pool_events_snoc_other, failure_event_not_pool.
Qed.

Lemma verified_paths_snoc l e :
  verified_paths (l ++ [e])
  = verified_paths l ++ match e with Verified p => [p] | _ => [] end.
Proof.
  unfold verified_paths. rewrite omap_app. f_equal. by destruct e.
Qed.

Lemma verified_paths_snoc_other l e :
  (∀ p, e ≠ Verified p) → verified_paths (l ++ [e]) = verified_paths l.
Proof.
  intros He. rewrite verified_paths_snoc.
  destruct e; try apply app_nil_r. by destruct (He path).
Qed.

Lemma failure_event_not_verified u r p : failure_event u r ≠ Verified p.
Proof. destruct r as [[q|]|]; simpl; try done. by destruct (Py.truthy q). Qed.

Lemma filed_verified_paths u r (s : locals W) :
  let s' := filed path_exists getsize u r s in
  all_successful_downloads s ++ successful_downloads s
    = verified_paths (log s) →
  all_successful_downloads s' ++ successful_downloads s'
    = verified_paths (log s').
Proof.
  cbv zeta. intros Hs.
  pose proof (filed_unchanged path_exists getsize u r s)
    as (_ & _ & Has & _).
  pose proof (filed_lists path_exists getsize u r s) as Hl.
  cbv zeta in Hl. rewrite Has.
  destruct (verified_path _ _ _ _); destruct Hl as (-> & _ & ->).
  - by rewrite verified_paths_snoc, app_assoc, Hs.
  - rewrite verified_paths_snoc_other; [done|].
    apply failure_event_not_verified.
Qed.

Lemma pools_of_snoc videos batch_size done i :
  pools_of videos batch_size (done ++ [i])
  = pools_of videos batch_size done
    ++ pool_trace (Py.slice videos i (i + batch_size)).
Proof.
  unfold pools_of. rewrite bind_app. reflexivity.
Qed.

Lemma pools_of_range videos batch_size :
  pools_of videos batch_size (Py.range (length videos) batch_size)
  = chunks batch_size videos ≫= pool_trace.
Proof.
  rewrite <- range_slices. unfold pools_of.
  induction (Py.range _ _) as [|i l IH]; [done|].
  by rewrite fmap_cons, !bind_cons, IH.
Qed.

End PoolEvents.

Section MainPools.

Context {W : Type}.
Variable submit : video_info → W → future_result * W.
Variable path_exists : string → W → bool.
Variable getsize : string → W → nat.
Variable completes_first : W → list video_info → nat.
Variable input : W → option string * W.
Variable videos : list video_info.
Variable batch_size : nat.

(** With every prompt answered "y", [main.py] submits the chunks of the
    task list in order, and shuts each pool down, waiting, before it
    submits the next chunk; it returns the paths it logged as verified,
    in the order of the log. *)
Lemma main_run_pools w :
  always_yes input → 1 ≤ batch_size →
  let out := Main.parallel_download_videos submit path_exists getsize
               completes_first input videos batch_size w in
  out.1 = Return (verified_paths (log out.2))
  ∧ pool_events (log out.2) = chunks batch_size videos ≫= pool_trace.
Proof.
  intros Hyes Hbs.
  pose proof (main_run_rule submit path_exists getsize completes_first
    input videos batch_size
    (fun rest s =>
       all_successful_downloads s = verified_paths (log s)
       ∧ ∃ done,
           done ++ rest = Py.range (length videos) batch_size
           ∧ pool_events (log s) = pools_of videos batch_size done)
    (fun i rest pending s =>
       all_successful_downloads s ++ successful_downloads s
         = verified_paths (log s)
       ∧ ∃ done,
           done ++ i :: rest = Py.range (length videos) batch_size
           ∧ pool_events (log s)
             = pools_of videos batch_size done
               ++ [Submitted (Py.slice videos i (i + batch_size))])
    w Hyes Hbs) as Hrun.
  cbv zeta in Hrun |- *.
  destruct Hrun as (Hret & s & [Hs (done & Hdone & Hpool)] & Hout).
  - split; [done|]. by exists [].
  - intros done i rest s Hdone [Hs (done' & Hdone' & Hpool)].
    assert (Hlog : ∃ w',
      main_opened input videos batch_size i s
      = opened (Py.slice videos i (i + batch_size))
          (set_env w' (emit (ProcessingBatch (i / batch_size + 1)) s))).
    { unfold main_opened. destruct (0 <? i); [by eexists|].
      exists (env s). by destruct s. }
    destruct Hlog as [w' ->]. unfold opened. simpl.
    rewrite app_nil_r, !verified_paths_snoc_other by done.
    split; [done|]. exists done'. split; [done|].
    rewrite pool_events_snoc_pool, pool_events_snoc_other by done.
    by rewrite Hpool.
  - intros i rest pending k v s Hk [Hs (done' & Hdone' & Hpool)].
    rewrite main_on_completion_eq.
    case_bool_decide; cbn [snd].
    + simpl. rewrite verified_paths_snoc_other by done.
      split; [done|]. exists done'. split; [done|].
      by rewrite pool_events_snoc_other.
    + split.
      * by apply filed_verified_paths.
      * rewrite filed_pool_events. by exists done'.
  - intros i rest s [Hs (done' & Hdone' & Hpool)].
    unfold closed. simpl.
    rewrite !verified_paths_snoc_other by done. split; [done|].
    exists (done' ++ [i]). split; [by rewrite <- app_assoc|].
    rewrite pool_events_snoc_other, pool_events_snoc_pool by done.
    by rewrite Hpool, pools_of_snoc, <- app_assoc.
  - rewrite Hret, Hout. simpl.
    rewrite app_nil_r in Hdone. subst done.
    rewrite verified_paths_snoc_other, pool_events_snoc_other by done.
    split; [by rewrite Hs|].
    by rewrite Hpool, pools_of_range.
Qed.

End MainPools.

Section GuiPools.

Context {W : Type}.
Variable submit : video_info → W → future_result * W.
Variable path_exists : string → W → bool.
Variable getsize : string → W → nat.
Variable completes_first : W → list video_info → nat.
Variable self : Gui.TikTokDownloader W.
Variable stop_event : option (W → bool).
Variable videos : list video_info.
Variable batch_size : nat.

Hypothesis Hself : never_set (Gui.stop_event self).
Hypothesis Hstop : never_set stop_event.
Hypothesis Hbs : 1 ≤ batch_size.

Local Abbreviation account := (Gui.account path_exists getsize self).
Local Abbreviation on_completion :=
  (Gui.on_completion path_exists getsize self).
Local Abbreviation completions :=
  (as_completed submit completes_first).

(** Without a stop signal the completion loop is drained, and logs no
    pool event. *)
Lemma gui_completions_drained total i batch s :
  1 ≤ length batch →
  let out := completions (length batch) i batch (on_completion total) s in
  out.1 = Normal
  ∧ last_future_processed i out.2
  ∧ pool_events (log out.2) = pool_events (log s).
Proof.
  intros Hne.
  apply (as_completed_rule submit completes_first
           (fun pending s' =>
              pool_events (log s') = pool_events (log s)
              ∧ (length pending < length batch →
                 last_future_processed i s'))
           (fun out => out.1 = Normal
                       ∧ last_future_processed i out.2
                       ∧ pool_events (log out.2) = pool_events (log s))
           i (on_completion total)); [| |done|].
  - intros pending k v s' Hk [Hlog _]. cbv zeta.
    rewrite gui_on_completion_eq. simpl env. rewrite Hself.
    set (r := (submit v (env s')).1). set (w := (submit v (env s')).2).
    set (s1 := set_future (i, v, r) (set_env w s')).
    pose proof (gui_account_effect path_exists getsize self
                  total v r s1) as (Hc & _ & Hf & Hp & Hl).
    destruct (account total v r s1) as [c s2]. simpl in *.
    destruct Hc as [-> | ->]; simpl;
      (split; [congruence|]; intros _; by exists v, r).
  - intros s' [Hlog Hf]. split; [done|]. split; [|done].
    apply Hf. simpl. lia.
  - split; [done|]. lia.
Qed.

(** The [finally] clause logs the waiting shutdown and no other pool
    event. *)
Lemma gui_finally_pool total i s :
  pool_events
    (log (Gui.finally_clause path_exists getsize self total i s).2)
  = pool_events (log s) ++ [Shutdown true].
Proof.
  rewrite gui_finally_eq.
  destruct (future s) as [[[j v] r]|]; simpl.
  - destruct (j =? i); simpl.
    + pose proof (gui_account_effect path_exists getsize self total v r
                    (emit (Shutdown true) s)) as (_ & _ & _ & _ & ->).
      by apply pool_events_snoc_pool.
    + by apply pool_events_snoc_pool.
  - by apply pool_events_snoc_pool.
Qed.

(** Without a stop signal a turn of the batch loop ends with the
    [continue] of its [finally] clause, having logged the pool events
    of its batch. *)
Lemma gui_batch_turn_pool i s :
  i < length videos →
  let out := Gui.batch_turn submit path_exists getsize completes_first
               self stop_event videos batch_size i s in
  out.1 = Continue
  ∧ pool_events (log out.2)
    = pool_events (log s)
      ++ pool_trace (Py.slice videos i (i + batch_size)).
Proof.
  intros Hi. cbv zeta. rewrite gui_batch_turn_eq. cbv zeta.
  rewrite Hstop.
  set (batch := Py.slice videos i (i + batch_size)).
  match goal with |- context [completions _ _ _ _ ?s0] =>
    pose proof (gui_completions_drained (length videos) i batch s0
                  (slice_nonempty videos i batch_size Hbs Hi))
      as (Hn & Hfut & Hlog)
  end.
  destruct (completions _ _ _ _ _) as [c1 s1]. cbn [fst snd] in *.
  subst c1.
  pose proof (gui_finally_effect path_exists getsize self
                (length videos) i s1) as (_ & _ & Hcont).
  pose proof (gui_finally_pool (length videos) i s1) as Hpool.
  destruct (Gui.finally_clause _ _ _ _ _ _) as [c2 s2].
  cbn [fst snd] in *. rewrite (Hcont Hfut). cbn [fst snd].
  split; [done|]. rewrite Hpool, Hlog. unfold opened. simpl.
  rewrite pool_events_snoc_pool, pool_events_snoc_other by done.
  by rewrite <- app_assoc.
Qed.

(** Without a stop signal the GUI submits the chunks of the task list
    in order, and shuts each pool down, waiting, before it submits the
    next chunk. *)
Lemma gui_run_pools w :
  pool_events
    (log (Gui.parallel_download_videos submit path_exists getsize
            completes_first self videos batch_size stop_event w).2)
  = chunks batch_size videos ≫= pool_trace.
Proof.
  unfold Gui.parallel_download_videos.
  destruct (batch_size =? 0) eqn:H0; [apply Nat.eqb_eq in H0; lia|].
  pose proof (for_rule
    (fun rest s =>
       ∃ done, done ++ rest = Py.range (length videos) batch_size
               ∧ pool_events (log s) = pools_of videos batch_size done)
    (fun out =>
       out.1 = Normal
       ∧ pool_events (log out.2)
         = pools_of videos batch_size
             (Py.range (length videos) batch_size))
    (Gui.batch_turn submit path_exists getsize completes_first
       self stop_event videos batch_size)) as Hfor.
  specialize (Hfor
    ltac:(intros i rest s (dn & Hdn & Hlog);
          assert (Hi : i < length videos)
            by (eapply range_bound; rewrite <- Hdn;
                apply elem_of_app; right; by left);
          pose proof (gui_batch_turn_pool i s Hi) as [Hc Hp];
          destruct (Gui.batch_turn _ _ _ _ _ _ _ _ _ _) as [c s'];
          simpl in *; subst c; simpl;
          exists (dn ++ [i]); split;
            [by rewrite <- app_assoc
            |by rewrite Hp, Hlog, pools_of_snoc])
    ltac:(intros s (dn & Hdn & Hlog); split; [done|];
          rewrite app_nil_r in Hdn; by subst dn)
    (Py.range (length videos) batch_size) (initial w)
    ltac:(by exists [])).
  destruct (for_ _ _ _) as [c s] eqn:Heq. simpl in Hfor.
  destruct Hfor as [-> Hlog].
  rewrite (then_run _ _ _ _ _ Heq). unfold then_, exec. simpl.
  rewrite pool_events_snoc_other by done.
  by rewrite Hlog, pools_of_range.
Qed.

End GuiPools.

(** ** The claims about the schedulers *)



(** C2.  The GUI scheduler never appends a batch's results to the run
    totals: whatever the tasks, the workers, the order of completions and
    the stop flags, [all_successful_downloads] is empty at the end and
    the call returns the empty list, unless it raises.  On three tasks
    whose fetches all succeed, with a batch size of 2 and no stop signal,
    the three paths are logged as verified and are on disk with five
    bytes each, and the call returns the empty list. *)
Theorem gui_scheduler_drops_successes :
  (∀ (W : Type) (submit : video_info → W → future_result * W)
     (path_exists : string → W → bool) (getsize : string → W → nat)
     (completes_first : W → list video_info → nat)
     (self : Gui.TikTokDownloader W) (videos : list video_info)
     (batch_size : nat) (stop_event : option (W → bool)) (w : W),
     let out := Gui.parallel_download_videos submit path_exists getsize
                  completes_first self videos batch_size stop_event w in
     all_successful_downloads out.2 = []
     ∧ (out.1 = Return [] ∨ ∃ e, out.1 = Raise e))
  ∧ (let out := Gui.run Sample.md5_hexdigest Sample.serves Sample.in_order
                  (Sample.gui_downloader None)
                  [Sample.A; Sample.B; Sample.C] 2 None Sample.fresh_world in
     out.1 = Return []
     ∧ verified_paths (log out.2)
       = [Sample.path_a; Sample.path_b; Sample.path_c]
     ∧ Forall (fun p => os_path_exists p (env out.2) = true
                        ∧ os_path_getsize p (env out.2) = 5)
              [Sample.path_a; Sample.path_b; Sample.path_c]
     ∧ all_failed_downloads out.2 = []).
Proof.
  split.
  - intros. apply gui_run_keeps_nothing.
  - vm_compute. repeat split; repeat constructor.
Qed.

(** C6.  The two schedulers disagree: on the same three tasks, batch size,
    server and order of completions, with no stop signal and every prompt
    answered "y", [main.py] returns the three downloaded paths and the
    GUI returns the empty list. *)
Theorem schedulers_disagree :
  (Main.run Sample.md5_hexdigest Sample.serves Sample.says_yes
     Sample.in_order Sample.downloader
     [Sample.A; Sample.B; Sample.C] 2 Sample.fresh_world).1
  = Return [Sample.path_a; Sample.path_b; Sample.path_c]
  ∧ (Gui.run Sample.md5_hexdigest Sample.serves Sample.in_order
       (Sample.gui_downloader None)
       [Sample.A; Sample.B; Sample.C] 2 None Sample.fresh_world).1
    = Return [].
Proof. vm_compute. split; reflexivity. Qed.

(** C5.  A cancellation seen inside a batch does not always end the GUI
    run.  With the tasks [A], [A'] (the URL of [A] again) and [B] in
    batches of one, no batch-level stop callable, and the stop event set
    during the second fetch: the cancellation is seen at the completion
    of [A'], the pending futures are cancelled and the pool is shut down
    without waiting, and then the [finally] clause shuts it down again,
    waiting, and its [continue] discards the [return], so that the batch
    of [B] is submitted.  With [A] and [B] in one batch and the event set
    during the first fetch, the completion at which the cancellation is
    seen is still accounted after the waiting shutdown: its URL is
    recorded, the counter is incremented and the progress callback is
    called. *)
Theorem cancelled_gui_run_goes_on :
  (let out := Gui.run Sample.md5_hexdigest Sample.serves Sample.in_order
                (Sample.gui_downloader (Sample.stop_after 2))
                [Sample.A; Sample.A'; Sample.B] 1 None Sample.fresh_world in
   out.1 = Return []
   ∧ pool_events (log out.2)
     = [Submitted [Sample.A]; Shutdown true;
        Submitted [Sample.A']; CancelPending; Shutdown false; Shutdown true;
        Submitted [Sample.B]; CancelPending; Shutdown false; Shutdown true])
  ∧ (let out := Gui.run Sample.md5_hexdigest Sample.serves Sample.in_order
                  (Sample.gui_downloader (Sample.stop_after 1))
                  [Sample.A; Sample.B] 2 None Sample.fresh_world in
     out.1 = Return []
     ∧ log out.2
       = [ProcessingBatch 1; Submitted [Sample.A; Sample.B];
          CancelPending; Shutdown false; Shutdown true;
          Verified Sample.path_a; Progress 1 2]
     ∧ videos_processed out.2 = 1
     ∧ elements (processed_urls out.2) = [Sample.url_a]).
Proof.
  split.
  - vm_compute. split; reflexivity.
  - split; [vm_compute; reflexivity|].
    split; [vm_compute; reflexivity|].
    split; vm_compute; reflexivity.
Qed.

(** ** Running [main.py] again *)

Section MainRerun.

Variable md5_hexdigest : string → string.
Variable http_get : world → string → response.
Variable console : nat → option string.
Variable completes_first : world → list video_info → nat.
Variable self : Main.TikTokDownloader.

(** When the file of every task is on disk, whatever its size, a run of
    [main.py] makes no request and leaves the files as they are. *)
Lemma main_rerun_makes_no_request videos batch_size w :
  always_yes (console_input console) →
  1 ≤ batch_size →
  (∀ u, u ∈ videos →
        ∃ p, filepath md5_hexdigest (Main.download_dir self) u = Some p
             ∧ is_Some (files w !! p)) →
  let out := Main.run md5_hexdigest http_get console completes_first
               self videos batch_size w in
  requests (env out.2) = requests w ∧ files (env out.2) = files w.
Proof.
  intros Hyes Hbs Hfiles. unfold Main.run.
  pose proof (main_run_rule
    (Main.worker md5_hexdigest http_get self)
    os_path_exists os_path_getsize completes_first (console_input console)
    videos batch_size
    (fun _ s => requests (env s) = requests w ∧ files (env s) = files w)
    (fun _ _ pending s =>
       (requests (env s) = requests w ∧ files (env s) = files w)
       ∧ ∀ u, u ∈ pending → u ∈ videos)
    w Hyes Hbs) as Hrun.
  cbv zeta in Hrun |- *.
  destruct Hrun as (_ & s & Hs & ->); [done| | | |done].
  - intros dn i rest s _ Hs. split; [|intros u; apply elem_of_slice].
    unfold main_opened. by destruct (0 <? i).
  - intros i rest pending k u s Hk [[Hr Hf] Hsub].
    split; [|intros x Hx; eapply Hsub, elem_of_delete_in, Hx].
    destruct (Hfiles u) as (p & Hp & Hex);
      [eapply Hsub, list_elem_of_lookup_2, Hk|].
    rewrite <- Hf in Hex.
    unfold Main.worker.
    rewrite (main_download_video_existing md5_hexdigest http_get
               self u (env s) p Hp Hex).
    rewrite main_on_completion_eq. cbn [fst snd].
    case_bool_decide; cbn [snd]; [done|].
    by destruct (filed_unchanged os_path_exists os_path_getsize (url u)
                   (Result (Some p))
                   (add_processed (url u)
                      (set_future (i, u, Result (Some p))
                         (set_env (env s) s)))) as (_ & -> & _).
  - by intros i rest s [Hs _].
Qed.

End MainRerun.

(** ** The model on the sample inputs *)

(** The sample export gives one task per URL, each from the first entry
    that mentions the URL, newest first. *)
Example get_video_links_sample :
  get_video_links Sample.export = [Sample.A; Sample.B; Sample.C].
Proof. vm_compute. reflexivity. Qed.

Example filepath_sample :
  filepath Sample.md5_hexdigest "downloads" Sample.A = Some Sample.path_a
  ∧ filepath Sample.md5_hexdigest "downloads" Sample.B = Some Sample.path_b
  ∧ filepath Sample.md5_hexdigest "downloads" Sample.C = Some Sample.path_c.
Proof. vm_compute. repeat split. Qed.

(** An empty date gives the token "unknown_date"; a date of blanks makes
    [split()[0]] raise, so that no path is derived. *)
Example filepath_without_date :
  filepath Sample.md5_hexdigest "downloads"
    (Sample.task Sample.url_a EmptyString)
  = Some "downloads/personal_unknown_date_posted_ae8c66f0.mp4"
  ∧ filepath Sample.md5_hexdigest "downloads" (Sample.task Sample.url_a "  ")
    = None.
Proof. vm_compute. split; reflexivity. Qed.

(** One successful attempt: one request, no sleep, the five bytes on
    disk. *)
Example download_video_served :
  let '(r, w) := Main.download_video Sample.md5_hexdigest Sample.serves
                   Sample.downloader Sample.A Sample.fresh_world in
  r = Some Sample.path_a
  ∧ files w !! Sample.path_a = Some "abcde"
  ∧ requests w = [Sample.url_a]
  ∧ sleeps w = [].
Proof. vm_compute. repeat split. Qed.

(** Three refused attempts: three requests, two sleeps of 2, no file. *)
Example download_video_refused :
  let '(r, w) := Main.download_video Sample.md5_hexdigest Sample.refuses
                   Sample.downloader Sample.A Sample.fresh_world in
  r = None
  ∧ files w !! Sample.path_a = None
  ∧ requests w = [Sample.url_a; Sample.url_a; Sample.url_a]
  ∧ sleeps w = [2; 2].
Proof. vm_compute. repeat split. Qed.

(** A stop event that is set makes the GUI worker return at once. *)
Example gui_download_video_stopped :
  Gui.download_video Sample.md5_hexdigest Sample.serves
    (Sample.gui_downloader (Sample.stop_after 0)) Sample.A Sample.fresh_world
  = (None, Sample.fresh_world).
Proof. reflexivity. Qed.

(** The log of [main.py] on the three sample tasks in batches of two,
    the second task being refused by the server. *)
Example main_run_sample :
  let out := Main.run Sample.md5_hexdigest Sample.refuses_b Sample.says_yes
               Sample.in_order Sample.downloader
               [Sample.A; Sample.B; Sample.C] 2 Sample.fresh_world in
  out.1 = Return [Sample.path_a; Sample.path_c]
  ∧ log out.2
    = [ProcessingBatch 1; Submitted [Sample.A; Sample.B];
       Verified Sample.path_a; FailedToProcess Sample.url_b;
       Shutdown true; BatchSummary 1 1 1;
       ProcessingBatch 2; Submitted [Sample.C];
       Verified Sample.path_c; Shutdown true; BatchSummary 2 1 0;
       OverallSummary 3 2 1]
  ∧ all_failed_downloads out.2 = [Sample.url_b]
  ∧ prompts (env out.2) = 1.
Proof. vm_compute. repeat split. Qed.

(** A user who declines the second batch ends the run of [main.py] with
    the results of the first. *)
Example main_run_declined :
  let out := Main.run Sample.md5_hexdigest Sample.serves
               (fun _ => Some "n") Sample.in_order Sample.downloader
               [Sample.A; Sample.B; Sample.C] 2 Sample.fresh_world in
  out.1 = Return [Sample.path_a; Sample.path_b]
  ∧ pool_events (log out.2)
    = [Submitted [Sample.A; Sample.B]; Shutdown true].
Proof. vm_compute. split; reflexivity. Qed.

(** The log of the GUI on the same tasks and server, without a stop
    signal: after each batch the [finally] clause skips the last URL as a
    duplicate, and no batch summary is ever logged. *)
Example gui_run_sample :
  let out := Gui.run Sample.md5_hexdigest Sample.refuses_b Sample.in_order
               (Sample.gui_downloader None)
               [Sample.A; Sample.B; Sample.C] 2 None Sample.fresh_world in
  out.1 = Return []
  ∧ log out.2
    = [ProcessingBatch 1; Submitted [Sample.A; Sample.B];
       Verified Sample.path_a; Progress 1 3;
       FailedToProcess Sample.url_b; Progress 2 3;
       Shutdown true; SkippingDuplicate Sample.url_b;
       ProcessingBatch 2; Submitted [Sample.C];
       Verified Sample.path_c; Progress 3 3;
       Shutdown true; SkippingDuplicate Sample.url_c;
       OverallSummary 3 0 0].
Proof. vm_compute. split; reflexivity. Qed.

(** * Further properties *)

(** ** The order of the extracted tasks *)

Section ExtractorOrder.

Lemma ltb_irrefl s : String.ltb s s = false.
Proof.
  unfold String.ltb. pose proof (String.compare_antisym s s) as H.
  by destruct (String.compare s s).
Qed.

Lemma ltb_false_leb a b : String.ltb a b = false ↔ String.leb b a = true.
Proof.
  unfold String.ltb, String.leb. rewrite (String.compare_antisym a b).
  by destruct (String.compare b a).
Qed.

Lemma not_older_trans a b c :
  not_older a b → not_older b c → not_older a c.
Proof.
  unfold not_older. rewrite !ltb_false_leb. intros Hab Hbc.
  pose proof (@transitivity _ String.le _ (date c) (date b) (date a)) as H.
  unfold String.le in H. apply Is_true_true, H; by apply Is_true_true.
Qed.

Lemma ltb_true_not_older a b :
  String.ltb (date a) (date b) = true → not_older b a.
Proof.
  unfold not_older, String.ltb. rewrite (String.compare_antisym (date a)).
  by destruct (String.compare (date b) (date a)).
Qed.

Lemma insert_desc_elem v l x : x ∈ insert_desc v l → x = v ∨ x ∈ l.
Proof.
  rewrite insert_desc_perm. by intros [->|?]%elem_of_cons; auto.
Qed.

Lemma insert_desc_sorted v l :
  StronglySorted not_older l → StronglySorted not_older (insert_desc v l).
Proof.
  induction 1 as [|w l Hl IH Hw]; simpl.
  - repeat constructor.
  - destruct (String.ltb (date v) (date w)) eqn:Hlt.
    + constructor; [exact IH|].
      apply Forall_forall. intros x [->|Hx]%insert_desc_elem.
      * by apply ltb_true_not_older.
      * eapply Forall_forall in Hw; eauto.
    + constructor; [by constructor|].
      constructor; [exact Hlt|].
      eapply Forall_impl; [exact Hw|].
      intros x Hx. by eapply not_older_trans.
Qed.

Lemma sort_by_date_desc_sorted l :
  StronglySorted not_older (sort_by_date_desc l).
Proof.
  induction l as [|v l IH]; simpl; [constructor|].
  by apply insert_desc_sorted.
Qed.

Lemma dated_insert_desc d v l :
  dated d (insert_desc v l) = dated d (v :: l).
Proof.
  unfold dated. induction l as [|w l IH]; simpl; [done|].
  destruct (String.ltb (date v) (date w)) eqn:Hlt; [|done].
  rewrite filter_cons, IH, !filter_cons.
  destruct (decide (date w = d)) as [Hw|Hw];
    destruct (decide (date v = d)) as [Hv|Hv]; try done.
  rewrite Hv, <- Hw, ltb_irrefl in Hlt. discriminate.
Qed.

Lemma dated_sort_by_date_desc d l :
  dated d (sort_by_date_desc l) = dated d l.
Proof.
  induction l as [|v l IH]; simpl; [done|].
  rewrite dated_insert_desc. unfold dated in *.
  by rewrite !filter_cons, IH.
Qed.

End ExtractorOrder.

(** X1.  The tasks come back newest first: no task stands before one
    with a later date (dates compared as strings).  The sort is stable
    and loses nothing: the result is a permutation of the tasks in their
    order of discovery, and the tasks of any one date stand in that
    order. *)
Theorem get_video_links_newest_first (data : schema) :
  StronglySorted not_older (get_video_links data)
  ∧ get_video_links data ≡ₚ discovered data
  ∧ ∀ d, dated d (get_video_links data) = dated d (discovered data).
Proof.
  split; [apply sort_by_date_desc_sorted|].
  split; [apply sort_by_date_desc_perm|].
  intros d. apply dated_sort_by_date_desc.
Qed.

(** X2.  The extractor loses no URL and invents none: a URL is the URL of
    an extracted task exactly when some entry of the list mentions it;
    so the result is empty exactly when no entry mentions a URL, in
    particular when a level of the nesting is missing. *)
Theorem get_video_links_complete (data : schema) :
  (∀ u, u ∈ url <$> get_video_links data
        ↔ ∃ r, r ∈ video_list data ∧ mentions r u)
  ∧ (get_video_links data = []
     ↔ ∀ r u, r ∈ video_list data → ¬ mentions r u)
  ∧ (Video data = None → get_video_links data = []).
Proof.
  destruct (get_video_links_extracted data)
    as (st & ((Hco & _) & Hset & _) & Hp).
  assert (Hiff : ∀ u, u ∈ url <$> get_video_links data
                      ↔ ∃ r, r ∈ video_list data ∧ mentions r u).
  { intros u. by rewrite Hp, <- Hco, Hset. }
  split; [exact Hiff|]. split; [split|].
  - intros Hnil r u Hr Hm.
    assert (Hu : u ∈ url <$> get_video_links data) by (apply Hiff; eauto).
    rewrite Hnil in Hu. by apply elem_of_nil in Hu.
  - intros Hno. destruct (get_video_links data) as [|v l] eqn:Hl; [done|].
    destruct (proj1 (Hiff (url v))) as (r & Hr & Hm).
    + rewrite fmap_cons. by left.
    + by destruct (Hno r (url v)).
  - intros Hv. unfold get_video_links, video_list. by rewrite Hv.
Qed.

(** The theorem at the sample export: the URL of [A] is mentioned by its
    fourth entry. *)
Lemma get_video_links_complete_witness :
  Sample.url_a ∈ url <$> get_video_links Sample.export.
Proof.
  apply (proj1 (get_video_links_complete Sample.export)).
  exists {| Link := Some Sample.url_a; Date := Some "2024-03-02 09:00:00" |}.
  split.
  - vm_compute. do 3 right. left.
  - exists Sample.url_a. split; [reflexivity|]. split; [reflexivity|].
    vm_compute. left.
Defined.

(** ** The URLs of the extracted tasks *)

Section CleanUrls.

Lemma split_on_no_sep sep s seg :
  seg ∈ Py.split_on sep s → sep ∉ chars seg.
Proof.
  revert seg. induction s as [|c s IH]; intros seg; simpl.
  - intros ->%list_elem_of_singleton. simpl. apply not_elem_of_nil.
  - destruct (Ascii.eqb c sep) eqn:Hc.
    + intros [->|H]%elem_of_cons; [apply not_elem_of_nil|by apply IH].
    + destruct (Py.split_on sep s) as [|w ws] eqn:Hs.
      * intros ->%list_elem_of_singleton. simpl.
        intros [->|H]%elem_of_cons; [|by apply elem_of_nil in H].
        by rewrite Ascii.eqb_refl in Hc.
      * intros [->|H]%elem_of_cons.
        -- simpl. intros [->|H]%elem_of_cons.
           ++ by rewrite Ascii.eqb_refl in Hc.
           ++ revert H. apply IH. by left.
        -- apply IH. by right.
Qed.

Lemma lstrip_chars s c : c ∈ chars (Py.lstrip s) → c ∈ chars s.
Proof.
  induction s as [|a s IH]; simpl; [done|].
  destruct (Py.isspace a); [|done]. intros H. right. by apply IH.
Qed.

Lemma rstrip_chars s c : c ∈ chars (Py.rstrip s) → c ∈ chars s.
Proof.
  induction s as [|a s IH]; simpl; [done|].
  destruct (Py.isspace a && String.eqb (Py.rstrip s) EmptyString); simpl.
  - by intros ?%elem_of_nil.
  - intros [->|H]%elem_of_cons; [by left|right; by apply IH].
Qed.

Lemma strip_chars s c : c ∈ chars (Py.strip s) → c ∈ chars s.
Proof. intros H. by apply lstrip_chars, rstrip_chars. Qed.

Lemma lstrip_head s c :
  head (chars (Py.lstrip s)) = Some c → Py.isspace c = false.
Proof.
  induction s as [|a s IH]; simpl; [done|].
  destruct (Py.isspace a) eqn:Ha; [done|]. simpl. by intros [= <-].
Qed.

Lemma rstrip_head s c :
  head (chars (Py.rstrip s)) = Some c → head (chars s) = Some c.
Proof.
  destruct s as [|a s]; simpl; [done|].
  by destruct (Py.isspace a && String.eqb (Py.rstrip s) EmptyString).
Qed.

Lemma rstrip_last s c :
  last (chars (Py.rstrip s)) = Some c → Py.isspace c = false.
Proof.
  induction s as [|a s IH]; simpl; [done|].
  destruct (Py.rstrip s) as [|b r] eqn:Hr.
  - simpl. rewrite andb_true_r.
    destruct (Py.isspace a) eqn:Ha; simpl; [done|]. by intros [= <-].
  - simpl. rewrite andb_false_r. simpl. exact IH.
Qed.

Lemma rstrip_idemp s : Py.rstrip (Py.rstrip s) = Py.rstrip s.
Proof.
  induction s as [|a s IH]; simpl; [done|].
  destruct (Py.isspace a && String.eqb (Py.rstrip s) EmptyString) eqn:Hc;
    simpl; [done|].
  by rewrite IH, Hc.
Qed.

Lemma lstrip_fixed s :
  (∀ c, head (chars s) = Some c → Py.isspace c = false) → Py.lstrip s = s.
Proof.
  destruct s as [|a s]; simpl; [done|].
  intros H. by rewrite (H a eq_refl).
Qed.

Lemma strip_idemp s : Py.strip (Py.strip s) = Py.strip s.
Proof.
  unfold Py.strip. rewrite (lstrip_fixed (Py.rstrip (Py.lstrip s))).
  - apply rstrip_idemp.
  - intros c Hc. by apply rstrip_head, lstrip_head in Hc.
Qed.

Lemma truthy_true s : Py.truthy s = true → s ≠ EmptyString.
Proof. unfold Py.truthy. by intros H%negb_true_iff ->. Qed.

End CleanUrls.

(** X3.  Every extracted URL is clean: it is not empty, it holds no line
    break, it neither starts nor ends with a blank, and stripping it
    again changes nothing. *)
Theorem get_video_links_clean_urls (data : schema) (v : video_info) :
  v ∈ get_video_links data →
  url v ≠ EmptyString
  ∧ (newline ∉ chars (url v))
  ∧ (∀ c, head (chars (url v)) = Some c → Py.isspace c = false)
  ∧ (∀ c, last (chars (url v)) = Some c → Py.isspace c = false)
  ∧ Py.strip (url v) = url v.
Proof.
  intros Hv.
  destruct (get_video_links_extracted data) as (st & (_ & _ & Hall) & Hp).
  rewrite Hp in Hv. eapply Forall_forall in Hall; [|exact Hv].
  destruct Hall as (pre & raw & post & _ & (link & _ & _ & Hu) & _).
  unfold link_urls in Hu. apply list_elem_of_filter in Hu as [Ht Hu].
  apply list_elem_of_fmap in Hu as (seg & Heq & Hseg).
  split; [by apply truthy_true|]. rewrite Heq. split; [|split; [|split]].
  - intros Hnl%strip_chars. by apply (split_on_no_sep newline link seg).
  - intros c Hc. by apply rstrip_head, lstrip_head in Hc.
  - intros c Hc. by apply rstrip_last in Hc.
  - apply strip_idemp.
Qed.

Lemma get_video_links_clean_urls_witness :
  url Sample.A ≠ EmptyString
  ∧ (newline ∉ chars (url Sample.A))
  ∧ (∀ c, head (chars (url Sample.A)) = Some c → Py.isspace c = false)
  ∧ (∀ c, last (chars (url Sample.A)) = Some c → Py.isspace c = false)
  ∧ Py.strip (url Sample.A) = url Sample.A.
Proof.
  apply (get_video_links_clean_urls Sample.export Sample.A).
  vm_compute. by left.
Defined.

(** ** What a call of [download_video] does to the world *)

Section WorkerOutcome.

Variable md5_hexdigest : string → string.
Variable http_get : world → string → response.

(** The retry loop on a path that holds nothing, or what an earlier
    failed attempt wrote. *)
Lemma retry_loop_outcome u p : ∀ attempts w,
  files w !! p = None ∨ written_by http_get u p false w →
  let '(r, w') := retry_loop http_get attempts u p w in
  match r with
  | Some q => q = p ∧ written_by http_get u p true w'
  | None => files w' !! p = None ∨ written_by http_get u p false w'
  end.
Proof.
  induction attempts as [|attempt rest IH]; intros w Hw; simpl; [done|].
  assert (Hkeep : ∀ w0, files w0 = files w →
            files w0 !! p = None ∨ written_by http_get u p false w0).
  { intros w0 Hw0. destruct Hw as [Hw|(w1 & ch & H1 & H2)].
    - left. by rewrite Hw0.
    - right. exists w1, ch. by rewrite Hw0. }
  unfold try_fetch.
  destruct (http_get w u) as [|chunks complete] eqn:Hresp.
  - destruct (attempt <? _); [|done]. by apply IH, Hkeep.
  - destruct (opens w p).
    + assert (Hnew : written_by http_get u p complete
                       (set_files <[p := write_chunks chunks]>
                          (log_request u w))).
      { exists w, chunks. split; [done|]. simpl. apply lookup_insert_eq. }
      destruct complete; [done|].
      destruct (attempt <? _); [|by right].
      apply IH. right.
      destruct Hnew as (w1 & ch & H1 & H2). by exists w1, ch.
    + destruct (attempt <? _); [|by apply Hkeep].
      by apply IH, Hkeep.
Qed.

(** The retry loop never touches another path. *)
Lemma retry_loop_frame u p q : q ≠ p → ∀ attempts w,
  files (retry_loop http_get attempts u p w).2 !! q = files w !! q.
Proof.
  intros Hq. induction attempts as [|attempt rest IH]; intros w; simpl;
    [done|].
  unfold try_fetch.
  destruct (http_get w u) as [|chunks complete].
  - destruct (attempt <? _); [|done]. by rewrite IH.
  - destruct (opens w p).
    + destruct complete; simpl; [by rewrite lookup_insert_ne|].
      destruct (attempt <? _); simpl.
      * rewrite IH. simpl. by rewrite lookup_insert_ne.
      * by rewrite lookup_insert_ne.
    + destruct (attempt <? _); [|done]. by rewrite IH.
Qed.

Lemma log_only_refl w : log_only w w.
Proof. by repeat split. Qed.

Lemma main_download_video_outcome self v w :
  worker_outcome http_get v
    (filepath md5_hexdigest (Main.download_dir self) v) w
    (Main.download_video md5_hexdigest http_get self v w).
Proof.
  unfold worker_outcome, Main.download_video.
  destruct (filepath _ _ v) as [p|]; [|apply log_only_refl].
  destruct (os_path_exists p w) eqn:Hex.
  - apply os_path_exists_true in Hex. simpl. split; [done|].
    left. split; [done|]. apply log_only_refl.
  - apply os_path_exists_false in Hex.
    pose proof (retry_loop_outcome (url v) p (seq 0 max_retries) w
                  (or_introl Hex)) as Hout.
    pose proof (retry_loop_effect http_get (url v) p w) as Heff.
    destruct (retry_loop _ _ _ _ _) as [[q|] w']; simpl.
    + destruct Hout as [-> Hw]. split; [done|]. by right.
    + destruct Heff as (k & _ & Hr & _ & _ & _ & [?|[_ ->]]); [done|].
      done.
Qed.

Lemma gui_download_video_outcome (self : Gui.TikTokDownloader world) v w :
  let out := Gui.download_video md5_hexdigest http_get self v w in
  if Gui.is_set (Gui.stop_event self) w then out = (None, w)
  else worker_outcome http_get v
         (filepath md5_hexdigest (Gui.download_dir self) v) w out.
Proof.
  cbv zeta. unfold worker_outcome, Gui.download_video.
  destruct (Gui.is_set _ _); [done|].
  destruct (filepath _ _ v) as [p|]; [|apply log_only_refl].
  destruct (os_path_exists p w) eqn:Hex.
  - apply os_path_exists_true in Hex. simpl. split; [done|].
    left. split; [done|]. apply log_only_refl.
  - apply os_path_exists_false in Hex.
    pose proof (retry_loop_outcome (url v) p (seq 0 max_retries) w
                  (or_introl Hex)) as Hout.
    pose proof (retry_loop_effect http_get (url v) p w) as Heff.
    destruct (retry_loop _ _ _ _ _) as [[q|] w']; simpl.
    + destruct Hout as [-> Hw]. split; [done|]. by right.
    + destruct Heff as (k & _ & Hr & _ & _ & _ & [?|[_ ->]]); [done|].
      done.
Qed.

(** Neither worker removes or rewrites a file that is there. *)
Lemma main_download_video_keeps self v w :
  files w ⊆ files (Main.download_video md5_hexdigest http_get self v w).2.
Proof.
  apply map_subseteq_spec. intros q x Hq.
  unfold Main.download_video.
  destruct (filepath _ _ v) as [p|]; [|done].
  destruct (os_path_exists p w) eqn:Hex; [done|].
  apply os_path_exists_false in Hex.
  rewrite retry_loop_frame; [done|]. intros ->. congruence.
Qed.

Lemma gui_download_video_keeps (self : Gui.TikTokDownloader world) v w :
  files w ⊆ files (Gui.download_video md5_hexdigest http_get self v w).2.
Proof.
  apply map_subseteq_spec. intros q x Hq.
  unfold Gui.download_video.
  destruct (Gui.is_set _ _); [done|].
  destruct (filepath _ _ v) as [p|]; [|done].
  destruct (os_path_exists p w) eqn:Hex; [done|].
  apply os_path_exists_false in Hex.
  rewrite retry_loop_frame; [done|]. intros ->. congruence.
Qed.

Lemma gui_download_video_frame (self : Gui.TikTokDownloader world) v w q :
  filepath md5_hexdigest (Gui.download_dir self) v ≠ Some q →
  files (Gui.download_video md5_hexdigest http_get self v w).2 !! q
  = files w !! q.
Proof.
  intros Hq. unfold Gui.download_video.
  destruct (Gui.is_set _ _); [done|].
  destruct (filepath _ _ v) as [p|]; [|done].
  destruct (os_path_exists p w); [done|].
  apply retry_loop_frame. congruence.
Qed.

End WorkerOutcome.

(** X4.  Neither [download_video] removes or rewrites a file, other
    than a log file, that is there when it is called: every path other
    than the two log files that holds a file before the call holds the
    same content after it, and every such path other than the destination
    path of the task holds after the call what it held before. *)
Theorem download_video_keeps_existing_files
    (md5_hexdigest : string → string) (http_get : world → string → response)
    (self : Main.TikTokDownloader) (gself : Gui.TikTokDownloader world)
    (v : video_info) (w : world) (q : string) :
  is_log_file q = false →
  (∀ x, files w !! q = Some x →
     files (Main.download_video md5_hexdigest http_get self v w).2 !! q
     = Some x
     ∧ files (Gui.download_video md5_hexdigest http_get gself v w).2 !! q
       = Some x)
  ∧ (filepath md5_hexdigest (Main.download_dir self) v = Some q
     ∨ files (Main.download_video md5_hexdigest http_get self v w).2 !! q
       = files w !! q)
  ∧ (filepath md5_hexdigest (Gui.download_dir gself) v = Some q
     ∨ files (Gui.download_video md5_hexdigest http_get gself v w).2 !! q
       = files w !! q).
Proof.
  intros _. split; [|split].
  - intros x Hx. split.
    + exact (lookup_weaken _ _ _ _ Hx
               (main_download_video_keeps md5_hexdigest http_get self v w)).
    + exact (lookup_weaken _ _ _ _ Hx
               (gui_download_video_keeps md5_hexdigest http_get gself v w)).
  - destruct (decide (filepath md5_hexdigest (Main.download_dir self) v
                      = Some q)) as [|Hne]; [by left|].
    right. by apply main_download_video_frame.
  - destruct (decide (filepath md5_hexdigest (Gui.download_dir gself) v
                      = Some q)) as [|Hne]; [by left|].
    right. by apply gui_download_video_frame.
Qed.

(** The theorem at the sample task [A] and its own path, which holds an
    empty file. *)
Lemma download_video_keeps_existing_files_witness :
  (∀ x, files Sample.empty_file_world !! Sample.path_a = Some x →
     files (Main.download_video Sample.md5_hexdigest Sample.serves
              Sample.downloader Sample.A Sample.empty_file_world).2
       !! Sample.path_a = Some x
     ∧ files (Gui.download_video Sample.md5_hexdigest Sample.serves
                (Sample.gui_downloader None) Sample.A
                Sample.empty_file_world).2
         !! Sample.path_a = Some x)
  ∧ (filepath Sample.md5_hexdigest (Main.download_dir Sample.downloader)
       Sample.A = Some Sample.path_a
     ∨ files (Main.download_video Sample.md5_hexdigest Sample.serves
                Sample.downloader Sample.A Sample.empty_file_world).2
         !! Sample.path_a
       = files Sample.empty_file_world !! Sample.path_a)
  ∧ (filepath Sample.md5_hexdigest
       (Gui.download_dir (Sample.gui_downloader None)) Sample.A
     = Some Sample.path_a
     ∨ files (Gui.download_video Sample.md5_hexdigest Sample.serves
                (Sample.gui_downloader None) Sample.A
                Sample.empty_file_world).2
         !! Sample.path_a
       = files Sample.empty_file_world !! Sample.path_a).
Proof.
  apply (download_video_keeps_existing_files Sample.md5_hexdigest
           Sample.serves Sample.downloader (Sample.gui_downloader None)
           Sample.A Sample.empty_file_world Sample.path_a).
  reflexivity.
Defined.

(** X5.  What the result of [download_video] in [main.py] tells.  A
    returned path is the destination path of the task, and either a file
    was there before the call, which then made no request, did not sleep
    and changed no file other than the log files, or none was there and
    the path now holds the non-empty chunks of a response whose stream
    ended regularly.  [None] is returned either when no path could be
    derived, again without a request, a sleep or a change to a file other
    than the log files, or after exactly three requests for the URL with
    no file at the path before the call; the path then holds nothing or
    the chunks of a response whose stream broke.  The GUI worker returns
    [None] and leaves the world as it was when the stop event is set, and
    behaves in the same way otherwise. *)
Theorem download_video_result_meaning
    (md5_hexdigest : string → string) (http_get : world → string → response)
    (self : Main.TikTokDownloader) (gself : Gui.TikTokDownloader world)
    (v : video_info) (w : world) :
  worker_outcome http_get v
    (filepath md5_hexdigest (Main.download_dir self) v) w
    (Main.download_video md5_hexdigest http_get self v w)
  ∧ (let out := Gui.download_video md5_hexdigest http_get gself v w in
     if Gui.is_set (Gui.stop_event gself) w then out = (None, w)
     else worker_outcome http_get v
            (filepath md5_hexdigest (Gui.download_dir gself) v) w out).
Proof.
  split.
  - apply main_download_video_outcome.
  - apply gui_download_video_outcome.
Qed.

(** ** Tasks without a destination path *)

Section BlankDates.

Lemma split_go_nil s : ∀ cur,
  Py.split_go cur s = []
  ↔ cur = None ∧ ∀ c, c ∈ chars s → Py.isspace c = true.
Proof.
  induction s as [|a s IH]; intros cur; simpl.
  - destruct cur; split; try done.
    + by intros [? _].
    + intros _. split; [done|]. by intros c ?%elem_of_nil.
  - destruct (Py.isspace a) eqn:Ha.
    + destruct cur as [w|].
      * split; [done|]. by intros [? _].
      * rewrite IH. split.
        -- intros [_ H]. split; [done|].
           intros c [->|Hc]%elem_of_cons; auto.
        -- intros [_ H]. split; [done|]. intros c Hc. apply H. by right.
    + rewrite IH. split; [by intros [? _]|].
      intros [_ H]. specialize (H a ltac:(by left)). congruence.
Qed.

Lemma date_str_none v : date_str v = None ↔ blank_date (date v).
Proof.
  unfold date_str, blank_date, Py.truthy.
  destruct (String.eqb_spec (date v) EmptyString) as [He|Hne]; simpl.
  - split; [done|]. by intros [? _].
  - unfold Py.split.
    destruct (Py.split_go None (date v)) as [|x l] eqn:Hs; simpl.
    + apply split_go_nil in Hs as [_ Hs]. by split.
    + split; [done|]. intros [_ H].
      assert (Py.split_go None (date v) = []) as Hnil
        by (apply split_go_nil; by split).
      congruence.
Qed.

Lemma filepath_none md5_hexdigest dir v :
  filepath md5_hexdigest dir v = None ↔ blank_date (date v).
Proof.
  rewrite <- date_str_none. unfold filepath, filename.
  by destruct (date_str v).
Qed.

End BlankDates.

(** X6.  A destination path is derived for every task except those whose
    date is not empty and made of blanks only, for which [split()[0]]
    raises.  For such a task both workers return [None], whatever the
    server: no request is made, and no file other than the log files is
    written or changed. *)
Theorem blank_date_is_never_fetched
    (md5_hexdigest : string → string) (http_get : world → string → response)
    (self : Main.TikTokDownloader) (gself : Gui.TikTokDownloader world)
    (v : video_info) (w : world) :
  (∀ dir, filepath md5_hexdigest dir v = None ↔ blank_date (date v))
  ∧ (blank_date (date v) →
     (Main.download_video md5_hexdigest http_get self v w).1 = None
     ∧ log_only w (Main.download_video md5_hexdigest http_get self v w).2
     ∧ (Gui.download_video md5_hexdigest http_get gself v w).1 = None
     ∧ log_only w (Gui.download_video md5_hexdigest http_get gself v w).2).
Proof.
  split; [intros dir; apply filepath_none|].
  intros Hb. unfold Main.download_video, Gui.download_video.
  rewrite !(proj2 (filepath_none _ _ _) Hb).
  destruct (Gui.is_set _ _); repeat split.
Qed.

Lemma blank_date_is_never_fetched_witness :
  (Main.download_video Sample.md5_hexdigest Sample.serves Sample.downloader
     (Sample.task Sample.url_a "  ") Sample.fresh_world).1 = None
  ∧ log_only Sample.fresh_world
      (Main.download_video Sample.md5_hexdigest Sample.serves
         Sample.downloader (Sample.task Sample.url_a "  ")
         Sample.fresh_world).2
  ∧ (Gui.download_video Sample.md5_hexdigest Sample.serves
       (Sample.gui_downloader None) (Sample.task Sample.url_a "  ")
       Sample.fresh_world).1 = None
  ∧ log_only Sample.fresh_world
      (Gui.download_video Sample.md5_hexdigest Sample.serves
         (Sample.gui_downloader None) (Sample.task Sample.url_a "  ")
         Sample.fresh_world).2.
Proof.
  refine (proj2 (blank_date_is_never_fetched Sample.md5_hexdigest
            Sample.serves Sample.downloader (Sample.gui_downloader None)
            (Sample.task Sample.url_a "  ") Sample.fresh_world) _).
  split; [done|].
  intros c Hc. simpl in Hc.
  repeat (apply elem_of_cons in Hc as [->|Hc]; [reflexivity|]).
  by apply elem_of_nil in Hc.
Defined.

(** ** Runs of [main.py] with any answers *)

Section MainAnyAnswer.

Context {W : Type}.
Variable submit : video_info → W → future_result * W.
Variable path_exists : string → W → bool.
Variable getsize : string → W → nat.
Variable completes_first : W → list video_info → nat.
Variable input : W → option string * W.

Local Abbreviation on_completion :=
  (Main.on_completion path_exists getsize).
Local Abbreviation completions :=
  (as_completed submit completes_first).

Lemma main_confirm_eq s :
  Main.confirm input s
  = match (input (env s)).1 with
    | None => (Raise EOFError, main_answered input s)
    | Some line =>
        if String.eqb (Py.lower line) "y"
        then (Normal, main_answered input s)
        else (Break, main_stopped input s)
    end.
Proof.
  unfold Main.confirm, main_stopped, main_answered.
  by destruct (input (env s)) as [[line|] w'].
Qed.

Lemma main_batch_turn_any videos batch_size i s :
  let batch := Py.slice videos i (i + batch_size) in
  let s0 := main_asking batch_size i s in
  let go := fun s1 =>
    let out := completions (length batch) i batch on_completion
                 (opened batch s1) in
    match out.1 with
    | Normal => (Normal, closed (i / batch_size + 1) out.2)
    | _ => out
    end in
  Main.batch_turn submit path_exists getsize completes_first input
    videos batch_size i s
  = if 0 <? i then
      match (input (env s0)).1 with
      | None => (Raise EOFError, main_answered input s0)
      | Some line =>
          if String.eqb (Py.lower line) "y"
          then go (main_answered input s0)
          else (Break, main_stopped input s0)
      end
    else go s0.
Proof.
  cbv zeta. unfold Main.batch_turn, main_asking, opened.
  unfold then_ at 1. unfold exec at 1.
  unfold then_ at 1.
  destruct (0 <? i).
  - rewrite main_confirm_eq.
    destruct ((input _).1) as [line|]; [|reflexivity].
    destruct (String.eqb _ _); [|reflexivity].
    unfold then_ at 1. unfold exec at 1.
    unfold then_ at 1. unfold exec at 1.
    unfold then_ at 1.
    destruct (completions _ _ _ _ _) as [[] s']; reflexivity.
  - unfold skip.
    unfold then_ at 1. unfold exec at 1.
    unfold then_ at 1. unfold exec at 1.
    unfold then_ at 1.
    destruct (completions _ _ _ _ _) as [[] s']; reflexivity.
Qed.

(** Invariant rule for a run of [main.py], whatever the answers: the run
    goes through all batches, or it stops before the batch at which the
    answer is not "y" or the console is closed. *)
Lemma main_run_any_rule (videos : list video_info) (batch_size : nat)
    (O : list nat → locals W → Prop)
    (I : nat → list nat → list video_info → locals W → Prop) (w : W) :
  1 ≤ batch_size →
  O (Py.range (length videos) batch_size) (initial w) →
  (∀ done i rest s,
     done ++ i :: rest = Py.range (length videos) batch_size →
     O (i :: rest) s →
     (0 < i → ∃ line, (input (env (main_asking batch_size i s))).1
                      = Some line ∧ Py.lower line = "y") →
     I i rest (Py.slice videos i (i + batch_size))
       (main_opened input videos batch_size i s)) →
  (∀ i rest pending k v s,
     pending !! k = Some v → I i rest pending s →
     I i rest (delete k pending)
       (on_completion v (submit v (env s)).1
          (set_future (i, v, (submit v (env s)).1)
             (set_env (submit v (env s)).2 s))).2) →
  (∀ i rest s, I i rest [] s → O rest (closed (i / batch_size + 1) s)) →
  let out := Main.parallel_download_videos submit path_exists getsize
               completes_first input videos batch_size w in
  (∃ s, O [] s ∧ out = (Return (all_successful_downloads s), summed s))
  ∨ (∃ done i rest s,
       done ++ i :: rest = Py.range (length videos) batch_size
       ∧ 0 < i ∧ O (i :: rest) s
       ∧ match (input (env (main_asking batch_size i s))).1 with
         | Some line =>
             Py.lower line ≠ "y"
             ∧ out = (Return (all_successful_downloads s),
                      summed (main_stopped input
                                (main_asking batch_size i s)))
         | None =>
             out = (Raise EOFError,
                    main_answered input (main_asking batch_size i s))
         end).
Proof.
  intros Hbs Hinit Hopen Hstep Hclose. cbv zeta.
  unfold Main.parallel_download_videos.
  destruct (batch_size =? 0) eqn:H0; [apply Nat.eqb_eq in H0; lia|].
  set (range := Py.range (length videos) batch_size) in *.
  set (body := Main.batch_turn submit path_exists getsize
                 completes_first input videos batch_size).
  assert (Hloop :
    ∀ l s, (∃ done, done ++ l = range) → O l s →
      (∃ s', for_ l body s = (Normal, s') ∧ O [] s')
      ∨ (∃ done i rest s1,
           done ++ i :: rest = range ∧ 0 < i ∧ O (i :: rest) s1
           ∧ match (input (env (main_asking batch_size i s1))).1 with
             | Some line =>
                 Py.lower line ≠ "y"
                 ∧ for_ l body s
                   = (Normal, main_stopped input
                                (main_asking batch_size i s1))
             | None =>
                 for_ l body s
                 = (Raise EOFError,
                    main_answered input (main_asking batch_size i s1))
             end)).
  { induction l as [|i rest IH]; intros s [done Hdone] HO.
    - left. by exists s.
    - simpl. unfold body at 1 3 5. rewrite main_batch_turn_any. cbv zeta.
      assert (Hgo : ∀ s1,
        s1 = (if 0 <? i
              then main_answered input (main_asking batch_size i s)
              else main_asking batch_size i s) →
        (0 < i → ∃ line, (input (env (main_asking batch_size i s))).1
                         = Some line ∧ Py.lower line = "y") →
        ∃ s2, completions
                (length (Py.slice videos i (i + batch_size))) i
                (Py.slice videos i (i + batch_size)) on_completion
                (opened (Py.slice videos i (i + batch_size)) s1)
              = (Normal, s2) ∧ O rest (closed (i / batch_size + 1) s2)).
      { intros s1 -> Hy.
        pose proof (main_completions_rule submit path_exists getsize
                      completes_first (I i rest) i (Hstep i rest) _ _
                      (Hopen done i rest s Hdone HO Hy)) as [Hn HI].
        unfold main_opened, main_asking, main_answered in *.
        destruct (completions _ _ _ _ _) as [c s2].
        simpl in Hn, HI. subst c. exists s2. split; [done|].
        by apply Hclose. }
      assert (Hnext : ∃ done', done' ++ rest = range).
      { exists (done ++ [i]). by rewrite <- app_assoc. }
      destruct (0 <? i) eqn:Hi.
      + apply Nat.ltb_lt in Hi.
        destruct ((input (env (main_asking batch_size i s))).1)
          as [line|] eqn:Hline.
        * destruct (String.eqb_spec (Py.lower line) "y") as [Hy|Hy].
          -- destruct (Hgo _ eq_refl) as (s2 & Hc & HO2); [by eauto|].
             rewrite Hc. simpl. by apply IH.
          -- right. exists done, i, rest, s.
             replace ((input (env s)).1) with (Some line)
               by exact (eq_sym Hline).
             done.
        * right. exists done, i, rest, s.
          replace ((input (env s)).1) with (@None string)
            by exact (eq_sym Hline).
          done.
      + apply Nat.ltb_ge in Hi.
        destruct (Hgo _ eq_refl) as (s2 & Hc & HO2); [lia|].
        rewrite Hc. simpl. by apply IH. }
  destruct (Hloop range (initial w)) as
    [(s' & Hfor & HO)|(dn & i & rest & s1 & Hd & Hi & HO & Hcase)];
    [by exists []|done| |].
  - left. exists s'. split; [done|].
    unfold then_ at 1. fold body. rewrite Hfor. reflexivity.
  - right. exists dn, i, rest, s1.
    split; [done|]. split; [done|]. split; [done|].
    destruct ((input _).1) as [line|].
    + destruct Hcase as [Hy Hfor]. split; [done|].
      unfold then_ at 1. fold body. rewrite Hfor. reflexivity.
    + unfold then_ at 1. fold body. rewrite Hcase. reflexivity.
Qed.

End MainAnyAnswer.

Section MainInvariants.

Context {W : Type}.
Variable submit : video_info → W → future_result * W.
Variable path_exists : string → W → bool.
Variable getsize : string → W → nat.
Variable completes_first : W → list video_info → nat.
Variable input : W → option string * W.

Local Abbreviation on_completion :=
  (Main.on_completion path_exists getsize).

(** A property of the state that holds between the batches of a run of
    [main.py] holds when the run ends, and the run ends by returning the
    totals or with the [EOFError] of a closed console. *)
Lemma main_run_invariant (videos : list video_info) (batch_size : nat)
    (J : locals W → Prop) (I : list video_info → locals W → Prop) (w : W) :
  1 ≤ batch_size →
  J (initial w) →
  (∀ s e, is_notice e = true → J s → J (emit e s)) →
  (∀ s, J s → J (main_answered input s)) →
  (∀ i s, J s →
     I (Py.slice videos i (i + batch_size))
       (opened (Py.slice videos i (i + batch_size)) s)) →
  (∀ i pending k v s,
     pending !! k = Some v → I pending s →
     I (delete k pending)
       (on_completion v (submit v (env s)).1
          (set_future (i, v, (submit v (env s)).1)
             (set_env (submit v (env s)).2 s))).2) →
  (∀ n s, I [] s → J (closed n s)) →
  let out := Main.parallel_download_videos submit path_exists getsize
               completes_first input videos batch_size w in
  J out.2
  ∧ ((out.1 = Return (all_successful_downloads out.2)
      ∧ last (log out.2)
        = Some (OverallSummary (size (processed_urls out.2))
                  (length (all_successful_downloads out.2))
                  (length (all_failed_downloads out.2))))
     ∨ (out.1 = Raise EOFError ∧ ∃ w1, (input w1).1 = None)).
Proof.
  intros Hbs Hinit Hemit Hin Hopen Hstep Hclose.
  pose proof (main_run_any_rule submit path_exists getsize completes_first
    input videos batch_size (fun _ s => J s) (fun i _ pending s => I pending s)
    w Hbs Hinit) as Hrun.
  cbv zeta in Hrun |- *.
  destruct Hrun as [(s & HJ & ->)|(dn & i & rest & s & _ & _ & HJ & Hc)].
  - intros dn i rest s _ HJ _. unfold main_opened.
    destruct (0 <? i).
    + apply Hopen, (Hin (emit _ s)), Hemit; done.
    + apply Hopen, Hemit; done.
  - intros i rest. apply Hstep.
  - intros i rest. apply Hclose.
  - split; [by apply Hemit|]. left. split; [done|].
    simpl. by rewrite last_snoc.
  - destruct ((input _).1) as [line|] eqn:Hline.
    + destruct Hc as [_ ->]. split.
      * apply Hemit; [done|]. apply Hemit; [done|].
        apply Hin, Hemit; done.
      * left. split; [done|]. simpl. by rewrite last_snoc.
    + rewrite Hc. split; [apply Hin, Hemit; done|].
      right. split; [done|]. by eexists.
Qed.

(** The totals between batches, and with the lists of the running batch
    inside one, are the paths logged as verified. *)
Lemma main_totals_are_verified videos batch_size w :
  1 ≤ batch_size →
  let out := Main.parallel_download_videos submit path_exists getsize
               completes_first input videos batch_size w in
  all_successful_downloads out.2 = verified_paths (log out.2)
  ∧ ((out.1 = Return (all_successful_downloads out.2)
      ∧ last (log out.2)
        = Some (OverallSummary (size (processed_urls out.2))
                  (length (all_successful_downloads out.2))
                  (length (all_failed_downloads out.2))))
     ∨ (out.1 = Raise EOFError ∧ ∃ w1, (input w1).1 = None)).
Proof.
  intros Hbs.
  apply (main_run_invariant videos batch_size
           (fun s => all_successful_downloads s = verified_paths (log s))
           (fun _ s => all_successful_downloads s ++ successful_downloads s
                       = verified_paths (log s))); try done.
  - intros s e He Hs. simpl. rewrite verified_paths_snoc_other; [done|].
    intros p ->. done.
  - intros i s Hs. simpl.
    by rewrite app_nil_r, verified_paths_snoc_other.
  - intros i pending k v s _ Hs.
    rewrite main_on_completion_eq. case_bool_decide; cbn [snd].
    + simpl. by rewrite verified_paths_snoc_other.
    + by apply filed_verified_paths.
  - intros n s Hs. simpl.
    by rewrite !verified_paths_snoc_other.
Qed.

Lemma size_list_to_set_le (l : list string) :
  size (list_to_set (C := gset string) l) ≤ length l.
Proof.
  induction l as [|x l IH].
  - change (size (∅ : gset string) ≤ 0). by rewrite size_empty.
  - cbn [list_to_set length].
    pose proof (size_union_alt (C := gset string) {[x]} (list_to_set l)).
    pose proof (subseteq_size (C := gset string)
                  (list_to_set l ∖ {[x]}) (list_to_set l)
                  ltac:(set_solver)).
    rewrite size_singleton in *. lia.
Qed.

(** Every processed URL is in one of the lists once. *)
Lemma main_run_accounted videos batch_size w :
  1 ≤ batch_size →
  let out := Main.parallel_download_videos submit path_exists getsize
               completes_first input videos batch_size w in
  accounted videos (all_successful_downloads out.2)
    (all_failed_downloads out.2) out.2.
Proof.
  intros Hbs.
  refine (proj1 (main_run_invariant videos batch_size
           (fun s => accounted videos (all_successful_downloads s)
                       (all_failed_downloads s) s)
           (fun pending s =>
              (∀ v, v ∈ pending → v ∈ videos)
              ∧ accounted videos
                  (all_successful_downloads s ++ successful_downloads s)
                  (all_failed_downloads s ++ failed_downloads s) s)
           w Hbs _ _ _ _ _ _)); try done.
  - unfold accounted. cbn [initial all_successful_downloads
      all_failed_downloads processed_urls length]. rewrite size_empty.
    split; [done|]. split; [constructor|]. split; set_solver.
  - intros i s Hs. split; [intros v; apply elem_of_slice|].
    unfold accounted in *. simpl. by rewrite !app_nil_r.
  - intros i pending k v s Hk [Hsub Hacc].
    split; [intros x Hx; eapply Hsub, elem_of_delete_in, Hx|].
    rewrite main_on_completion_eq. case_bool_decide as Hdup; cbn [snd].
    { exact Hacc. }
    set (s1 := add_processed (url v) (set_future _ (set_env _ s))).
    pose proof (filed_unchanged path_exists getsize (url v)
                  (submit v (env s)).1 s1) as (Hp & _ & Has & Haf & _).
    pose proof (filed_lists path_exists getsize (url v)
                  (submit v (env s)).1 s1) as Hl.
    cbv zeta in Hl. simpl in Hdup.
    destruct Hacc as (Hlen & Hnd & Hko & Hurls).
    assert (Hsize : size (processed_urls s1) = S (size (processed_urls s))).
    { subst s1. simpl. rewrite size_union by set_solver.
      by rewrite size_singleton. }
    assert (Hin : ∀ u, u ∈ processed_urls s1 → u ∈ url <$> videos).
    { subst s1. simpl. intros u [->%elem_of_singleton|Hu]%elem_of_union.
      - apply list_elem_of_fmap_2, Hsub. by eapply list_elem_of_lookup_2.
      - by apply Hurls. }
    unfold accounted. rewrite Hp, Has, Haf.
    destruct (verified_path _ _ _ _); destruct Hl as (-> & -> & _).
    + split; [|split; [done|split; [|done]]].
      * rewrite Hsize, app_assoc, length_app. simpl in *.
        rewrite !length_app in *. simpl. lia.
      * intros u Hu. subst s1. simpl. set_solver.
    + split; [|split; [|split; [|done]]].
      * rewrite Hsize, app_assoc, (length_app _ [_]). simpl in *.
        rewrite !length_app in *. simpl. lia.
      * rewrite app_assoc. apply NoDup_app. split; [done|].
        split; [|apply NoDup_singleton].
        intros u Hu ->%list_elem_of_singleton. by apply Hdup, Hko.
      * intros u. rewrite app_assoc.
        intros [Hu| ->%list_elem_of_singleton]%elem_of_app;
          subst s1; simpl; [|set_solver].
        apply elem_of_union. right. by apply Hko.
  - intros n s [_ H]. exact H.
Qed.

End MainInvariants.

(** X7.  A run of the scheduler of [main.py] ends in one of three ways.
    With a batch size of 0 it raises [ValueError] before anything is
    done.  Otherwise it returns, and what it returns is exactly the list
    of the paths it logged as verified successful downloads, in the
    order of the log, the overall summary being the last log line; or it
    raises [EOFError], which takes a console that is closed.  This holds
    whatever the workers do, in whatever order the futures complete and
    whatever is answered at the prompts. *)
Theorem main_returns_the_verified_paths {W : Type}
    (submit : video_info → W → future_result * W)
    (path_exists : string → W → bool) (getsize : string → W → nat)
    (completes_first : W → list video_info → nat)
    (input : W → option string * W)
    (videos : list video_info) (batch_size : nat) (w : W) :
  let out := Main.parallel_download_videos submit path_exists getsize
               completes_first input videos batch_size w in
  if batch_size =? 0 then out = (Raise ValueError, initial w)
  else
    all_successful_downloads out.2 = verified_paths (log out.2)
    ∧ ((out.1 = Return (verified_paths (log out.2))
        ∧ ∃ unique failed,
            last (log out.2)
            = Some (OverallSummary unique
                      (length (verified_paths (log out.2))) failed))
       ∨ (out.1 = Raise EOFError ∧ ∃ w1, (input w1).1 = None)).
Proof.
  cbv zeta. destruct (batch_size =? 0) eqn:H0.
  { unfold Main.parallel_download_videos. by rewrite H0. }
  apply Nat.eqb_neq in H0.
  pose proof (main_totals_are_verified submit path_exists getsize
                completes_first input videos batch_size w ltac:(lia))
    as [Hs Hc].
  cbv zeta in Hs, Hc. split; [done|].
  destruct Hc as [[Hr Hl]|He]; [left|by right].
  rewrite <- Hs. split; [done|]. eauto.
Qed.

(** X8.  The books of a run of [main.py] balance, whatever the workers
    do and whatever is answered: when the run ends, every processed URL
    is the URL of a task and stands for exactly one entry of the success
    list or of the failure list, no URL is twice in the failure list,
    and no more URLs are processed than there are tasks.  When the run
    returns, the overall summary it logged last says so: its number of
    unique URLs is the sum of its numbers of successes and failures. *)
Theorem main_books_balance {W : Type}
    (submit : video_info → W → future_result * W)
    (path_exists : string → W → bool) (getsize : string → W → nat)
    (completes_first : W → list video_info → nat)
    (input : W → option string * W)
    (videos : list video_info) (batch_size : nat) (w : W) :
  let out := Main.parallel_download_videos submit path_exists getsize
               completes_first input videos batch_size w in
  accounted videos (all_successful_downloads out.2)
    (all_failed_downloads out.2) out.2
  ∧ size (processed_urls out.2) ≤ length videos
  ∧ match out.1 with
    | Return x =>
        last (log out.2)
        = Some (OverallSummary
                  (length x + length (all_failed_downloads out.2))
                  (length x) (length (all_failed_downloads out.2)))
    | _ => True
    end.
Proof.
  cbv zeta. destruct (batch_size =? 0) eqn:H0.
  { unfold Main.parallel_download_videos. rewrite H0. unfold signal.
    cbn [fst snd]. unfold accounted.
    cbn [initial all_successful_downloads all_failed_downloads
         processed_urls length]. rewrite size_empty.
    split; [|split; [lia|done]].
    split; [done|]. split; [constructor|]. split; set_solver. }
  apply Nat.eqb_neq in H0.
  pose proof (main_run_accounted submit path_exists getsize
                completes_first input videos batch_size w ltac:(lia))
    as Hacc.
  pose proof (main_totals_are_verified submit path_exists getsize
                completes_first input videos batch_size w ltac:(lia))
    as [_ Hc].
  cbv zeta in Hacc, Hc. split; [done|].
  destruct Hacc as (Hlen & _ & _ & Hurls). split.
  - pose proof (size_list_to_set_le (url <$> videos)) as Hle.
    rewrite length_fmap in Hle.
    etransitivity; [|exact Hle].
    apply subseteq_size. intros u Hu. apply elem_of_list_to_set. auto.
  - destruct Hc as [[Hr Hl]|[He _]]; rewrite ?Hr, ?He; [|done].
    by rewrite Hl, Hlen.
Qed.

(** ** Runs of the GUI scheduler, whatever the stop flags *)

Section GuiInvariants.

Context {W : Type}.
Variable submit : video_info → W → future_result * W.
Variable path_exists : string → W → bool.
Variable getsize : string → W → nat.
Variable completes_first : W → list video_info → nat.
Variable self : Gui.TikTokDownloader W.
Variable stop_event : option (W → bool).
Variable videos : list video_info.
Variable batch_size : nat.

Local Abbreviation account := (Gui.account path_exists getsize self).
Local Abbreviation on_completion :=
  (Gui.on_completion path_exists getsize self).
Local Abbreviation completions :=
  (as_completed submit completes_first).

Variable J : locals W → Prop.

Hypothesis Hemit : ∀ s e, is_quiet e = true → J s → J (emit e s).
Hypothesis Hnew : ∀ s, J s → J (new_batch_lists s).
Hypothesis Hsubmit : ∀ i v s,
  v ∈ videos → J s →
  J (set_future (i, v, (submit v (env s)).1)
       (set_env (submit v (env s)).2 s)).
Hypothesis Haccount : ∀ v r s,
  v ∈ videos → J s → url v ∉ processed_urls s →
  J (progressed self (length videos)
       (filed path_exists getsize (url v) r
          (count_processed (add_processed (url v) s)))).

(** [J], with what the proof needs of the totals and of the loop
    variable. *)
Let J' (s : locals W) : Prop :=
  J s
  ∧ all_successful_downloads s = []
  ∧ ∀ j v r, future s = Some (j, v, r) → v ∈ videos.

Lemma gui_emit_kept s e : is_quiet e = true → J' s → J' (emit e s).
Proof. intros He (HJ & Hs & Hf). split; [by apply Hemit|done]. Qed.

Lemma gui_account_kept v r s :
  v ∈ videos → J' s → J' (account (length videos) v r s).2.
Proof.
  intros Hv (HJ & Hs & Hf).
  pose proof (gui_account_effect path_exists getsize self (length videos)
                v r s) as (_ & Has & Hfut & _).
  cbv zeta in Has, Hfut.
  split; [|split; [congruence|by rewrite Hfut]].
  rewrite gui_account_eq. case_bool_decide; cbn [snd].
  - by apply Hemit.
  - by apply Haccount.
Qed.

Lemma gui_completions_kept i batch s :
  (∀ v, v ∈ batch → v ∈ videos) → J' s →
  J' (completions (length batch) i batch
        (on_completion (length videos)) s).2.
Proof.
  intros Hsub HJ.
  apply (as_completed_rule submit completes_first
           (fun pending s' => J' s' ∧ ∀ v, v ∈ pending → v ∈ videos)
           (fun out => J' out.2) i (on_completion (length videos)));
    [| |done|done].
  - intros pending k v s' Hk [(HJs & Hs & Hf) Hp]. cbv zeta.
    assert (Hv : v ∈ videos) by (eapply Hp, list_elem_of_lookup_2, Hk).
    set (s1 := set_future _ _).
    assert (H1 : J' s1).
    { split; [by apply Hsubmit|]. split; [done|].
      subst s1. simpl. by intros j v' r' [= _ <- _]. }
    rewrite gui_on_completion_eq.
    destruct (Gui.is_set _ _); cbn [fst snd after_turn].
    + by repeat apply gui_emit_kept.
    + pose proof (gui_account_kept v (submit v (env s')).1 s1 Hv H1) as H2.
      pose proof (gui_account_effect path_exists getsize self
                    (length videos) v (submit v (env s')).1 s1)
        as (Hc & _).
      cbv zeta in Hc.
      destruct (account _ _ _ _) as [c s2]. simpl in *.
      destruct Hc as [-> | ->]; simpl;
        (split; [done|]; intros x Hx; eapply Hp, elem_of_delete_in, Hx).
  - by intros s' [? _].
Qed.

Lemma gui_finally_kept i s :
  J' s →
  J' (Gui.finally_clause path_exists getsize self (length videos) i s).2.
Proof.
  intros HJ. rewrite gui_finally_eq.
  destruct (future s) as [[[j v] r]|] eqn:Hfut.
  - destruct (j =? i).
    + apply gui_account_kept; [|by apply gui_emit_kept].
      destruct HJ as (_ & _ & Hf). eauto.
    + by apply gui_emit_kept.
  - by apply gui_emit_kept.
Qed.

(** One turn of the batch loop: it is left at once when the stop
    callable is set, and never falls through to the statements after the
    [finally] clause otherwise. *)
Lemma gui_batch_turn_kept i s :
  1 ≤ batch_size → i < length videos → J' s →
  let out := Gui.batch_turn submit path_exists getsize completes_first
               self stop_event videos batch_size i s in
  if Gui.is_set stop_event (env s)
  then out = (Break, emit DownloadStoppedByUser s)
  else J' out.2 ∧ out.1 ≠ Normal.
Proof.
  intros Hbs Hi HJ. cbv zeta.
  pose proof (gui_batch_turn_keeps_nothing submit path_exists getsize
                completes_first self stop_event videos batch_size i s
                Hbs Hi (proj1 (proj2 HJ))) as [_ Hn].
  cbv zeta in Hn. revert Hn.
  rewrite gui_batch_turn_eq. cbv zeta.
  destruct (Gui.is_set stop_event (env s)); [done|].
  set (batch := Py.slice videos i (i + batch_size)).
  set (s0 := opened batch _).
  assert (H0 : J' s0).
  { subst s0. unfold opened. apply gui_emit_kept; [done|].
    destruct (gui_emit_kept s (ProcessingBatch (i / batch_size + 1))
                eq_refl HJ) as (H1 & H2 & H3).
    split; [by apply Hnew|done]. }
  pose proof (gui_completions_kept i batch s0
                ltac:(intros v; apply elem_of_slice) H0) as H1.
  pose proof (gui_finally_kept i _ H1) as H2.
  destruct (completions _ _ _ _ _) as [c1 s1].
  cbn [fst snd] in *.
  destruct (Gui.finally_clause _ _ _ _ _ _) as [c2 s2].
  cbn [fst snd] in *.
  destruct c2; cbn [fst snd]; try done.
  destruct c1; cbn [fst snd]; done.
Qed.

(** A property of the state that the steps of the GUI scheduler keep
    holds of the state in which the run ends, or in which it logs that
    the download was stopped, or in which it logs the overall summary.
    Nothing follows the stop line but the summary. *)
Lemma gui_run_invariant w :
  J (initial w) →
  let out := Gui.parallel_download_videos submit path_exists getsize
               completes_first self videos batch_size stop_event w in
  ∃ s, J s ∧ all_successful_downloads s = []
       ∧ (out = (Return [], summed s)
          ∨ (Gui.is_set stop_event (env s) = true
             ∧ out = (Return [], summed (emit DownloadStoppedByUser s)))
          ∨ (out.2 = s ∧ (out.1 = Return [] ∨ ∃ e, out.1 = Raise e))).
Proof.
  intros Hinit. cbv zeta.
  pose proof (gui_run_keeps_nothing submit path_exists getsize
                completes_first self stop_event videos batch_size w)
    as [_ Hend].
  cbv zeta in Hend. revert Hend.
  unfold Gui.parallel_download_videos.
  destruct (batch_size =? 0) eqn:H0.
  { intros Hend. exists (initial w). split; [done|]. split; [done|].
    right. right. split; [done|]. right. by eexists. }
  apply Nat.eqb_neq in H0.
  pose proof (for_rule
    (fun rest s => J' s ∧ ∀ i, i ∈ rest → i < length videos)
    (fun out : completion (list string) * locals W =>
       match out.1 with
       | Normal =>
           J' out.2
           ∨ ∃ s, J' s ∧ Gui.is_set stop_event (env s) = true
                  ∧ out.2 = emit DownloadStoppedByUser s
       | _ => J' out.2
       end)
    (Gui.batch_turn submit path_exists getsize completes_first
       self stop_event videos batch_size)) as Hfor.
  specialize (Hfor
    ltac:(intros i rest s [HJ Hr];
          pose proof (gui_batch_turn_kept i s ltac:(lia)
                        (Hr i ltac:(by left)) HJ) as HJ2;
          cbv zeta in HJ2;
          destruct (Gui.is_set stop_event (env s)) eqn:Hset;
          [ rewrite HJ2; simpl; right; by exists s
          | destruct HJ2 as [HJ2 Hn];
            destruct (Gui.batch_turn _ _ _ _ _ _ _ _ _ _) as [c s'];
            simpl in *; destruct c; simpl; try done;
            [ split; [done|]; intros j Hj; apply Hr; by right
            | by left ] ])
    ltac:(intros s [HJ _]; by left)
    (Py.range (length videos) batch_size) (initial w)
    ltac:(split; [by split|]; intros i; apply range_bound)).
  destruct (for_ _ _ _) as [c s] eqn:Heq. simpl in Hfor.
  rewrite (then_run _ _ _ _ _ Heq).
  destruct c; simpl; intros Hend.
  - unfold then_, exec. simpl.
    destruct Hfor as [(HJ & Hs & _)|(s0 & (HJ & Hs & _) & Hset & ->)].
    + exists s. split; [done|]. split; [done|]. left.
      unfold summed. by rewrite Hs.
    + exists s0. split; [done|]. split; [done|]. right. left.
      split; [done|]. unfold summed. simpl. by rewrite Hs.
  - destruct Hend as [?|[e ?]]; done.
  - destruct Hend as [?|[e ?]]; done.
  - destruct Hfor as (HJ & Hs & _). exists s.
    split; [done|]. split; [done|]. right. right. done.
  - destruct Hfor as (HJ & Hs & _). exists s.
    split; [done|]. split; [done|]. right. right. done.
Qed.

End GuiInvariants.

Section GuiLogs.

Context {W : Type}.
Variable path_exists : string → W → bool.
Variable getsize : string → W → nat.

(** The one log line of [record_result]. *)
Lemma filed_log u r (s : locals W) :
  ∃ e, log (filed path_exists getsize u r s) = log s ++ [e]
       ∧ ((∃ p, e = Verified p) ∨ e = failure_event u r).
Proof.
  pose proof (filed_lists path_exists getsize u r s) as H. cbv zeta in H.
  destruct (verified_path _ _ _ _) as [p|]; destruct H as (_ & _ & ->).
  - exists (Verified p). split; [done|]. left. by exists p.
  - exists (failure_event u r). split; [done|]. by right.
Qed.

Lemma failure_event_cases u r :
  (∃ p, failure_event u r = Invalid p)
  ∨ failure_event u r = FailedToProcess u
  ∨ failure_event u r = ExceptionWhile u.
Proof.
  destruct r as [[p|]|]; simpl; auto.
  destruct (Py.truthy p); eauto.
Qed.

Lemma progress_events_snoc_other l e :
  is_progress e = false → progress_events (l ++ [e]) = progress_events l.
Proof.
  intros He. unfold progress_events. rewrite filter_app.
  rewrite (filter_cons_False _ e), filter_nil, app_nil_r; [done|].
  by rewrite He.
Qed.

Lemma progress_events_snoc l j total :
  progress_events (l ++ [Progress j total])
  = progress_events l ++ [Progress j total].
Proof.
  unfold progress_events. rewrite filter_app.
  by rewrite (filter_cons_True _ (Progress j total)), filter_nil.
Qed.

Lemma counting_up_S k total :
  counting_up (S k) total = counting_up k total ++ [Progress (k + 1) total].
Proof.
  unfold counting_up. rewrite seq_S, fmap_app. simpl.
  by rewrite Nat.add_1_r.
Qed.

End GuiLogs.

Section GuiProgress.

Context {W : Type}.
Variable submit : video_info → W → future_result * W.
Variable path_exists : string → W → bool.
Variable getsize : string → W → nat.
Variable completes_first : W → list video_info → nat.
Variable self : Gui.TikTokDownloader W.
Variable stop_event : option (W → bool).
Variable videos : list video_info.
Variable batch_size : nat.

Local Abbreviation progress_in_step := (progress_in_step self videos).

Lemma gui_progress_in_step w :
  progress_in_step
    (Gui.parallel_download_videos submit path_exists getsize
       completes_first self videos batch_size stop_event w).2.
Proof.
  pose proof (gui_run_invariant submit path_exists getsize completes_first
                self stop_event videos batch_size progress_in_step) as H.
  destruct (H ltac:(clear; intros s e He (H1 & H2 & H3);
                    split; [done|]; split; [done|]; simpl;
                    rewrite progress_events_snoc_other; [done|];
                    by destruct e)
              ltac:(clear; by intros s (H1 & H2 & H3))
              ltac:(clear; by intros i v s _ (H1 & H2 & H3))) with (w := w)
    as (s & (H1 & H2 & H3) & _ & Hout).
  - clear. intros v r s Hv (H1 & H2 & H3) Hnew.
    set (s1 := count_processed (add_processed (url v) s)).
    pose proof (filed_unchanged path_exists getsize (url v) r s1)
      as (Hp & _ & _ & _ & Hvp & _).
    destruct (filed_log path_exists getsize (url v) r s1)
      as (e & Hlog & He).
    assert (Hne : is_progress e = false).
    { destruct He as [[p ->]| ->]; [done|].
      destruct (failure_event_cases (url v) r) as [[p ->]|[-> | ->]]; done. }
    assert (Hsize : videos_processed s1 = size (processed_urls s1)).
    { subst s1. simpl. rewrite size_union by set_solver.
      rewrite size_singleton, H1. lia. }
    unfold progress_in_step, progressed.
    destruct (Gui.gui_callback self); simpl; rewrite ?Hp, ?Hvp, ?Hlog.
    + split; [done|]. split.
      * subst s1. simpl.
        intros u [->%elem_of_singleton|Hu]%elem_of_union; auto.
        by apply list_elem_of_fmap_2.
      * rewrite progress_events_snoc, progress_events_snoc_other by done.
        subst s1. simpl. rewrite H3.
        by rewrite (Nat.add_comm _ 1), counting_up_S, (Nat.add_comm _ 1).
    + split; [done|]. split.
      * subst s1. simpl.
        intros u [->%elem_of_singleton|Hu]%elem_of_union; auto.
        by apply list_elem_of_fmap_2.
      * rewrite progress_events_snoc_other by done.
        subst s1. simpl. exact H3.
  - unfold progress_in_step. simpl. split; [done|].
    split; [set_solver|]. by destruct (Gui.gui_callback self).
  - cbv zeta in Hout.
    destruct Hout as [-> |[[_ ->]|[-> _]]]; unfold progress_in_step; simpl.
    + by rewrite progress_events_snoc_other.
    + by rewrite !progress_events_snoc_other.
    + done.
Qed.

End GuiProgress.

(** X9.  The progress shown by the GUI is in step with the work done,
    whatever the workers do, whatever the order of completions and
    whenever the stop flags are set: at the end of a run the counter
    [videos_processed] is the number of processed URLs, it is at most
    the number of tasks, and the progress callback, if there is one, has
    been called with the values 1, 2, ... up to the counter, once each
    and in this order, every time with the number of tasks as total. *)
Theorem gui_progress_counts_up {W : Type}
    (submit : video_info → W → future_result * W)
    (path_exists : string → W → bool) (getsize : string → W → nat)
    (completes_first : W → list video_info → nat)
    (self : Gui.TikTokDownloader W) (stop_event : option (W → bool))
    (videos : list video_info) (batch_size : nat) (w : W) :
  let out := Gui.parallel_download_videos submit path_exists getsize
               completes_first self videos batch_size stop_event w in
  videos_processed out.2 = size (processed_urls out.2)
  ∧ videos_processed out.2 ≤ length videos
  ∧ progress_events (log out.2)
    = if Gui.gui_callback self
      then counting_up (videos_processed out.2) (length videos)
      else [].
Proof.
  cbv zeta.
  destruct (gui_progress_in_step submit path_exists getsize completes_first
              self stop_event videos batch_size w) as (H1 & H2 & H3).
  split; [done|]. split; [|done].
  rewrite H1.
  pose proof (size_list_to_set_le (url <$> videos)) as Hle.
  rewrite length_fmap in Hle.
  etransitivity; [|exact Hle].
  apply subseteq_size. intros u Hu. apply elem_of_list_to_set. auto.
Qed.

Section GuiSummaries.

Context {W : Type}.
Variable submit : video_info → W → future_result * W.
Variable path_exists : string → W → bool.
Variable getsize : string → W → nat.
Variable completes_first : W → list video_info → nat.
Variable self : Gui.TikTokDownloader W.
Variable stop_event : option (W → bool).
Variable videos : list video_info.
Variable batch_size : nat.

Lemma gui_run_without_summary w :
  let out := Gui.parallel_download_videos submit path_exists getsize
               completes_first self videos batch_size stop_event w in
  all_failed_downloads out.2 = []
  ∧ Forall (no_result_summary (size (processed_urls out.2))) (log out.2).
Proof.
  pose proof (gui_run_invariant submit path_exists getsize completes_first
                self stop_event videos batch_size
                (fun s => all_failed_downloads s = []
                          ∧ Forall no_summary (log s))) as H.
  assert (Hweak : ∀ k l, Forall no_summary l →
                         Forall (no_result_summary k) l).
  { intros k l Hl. eapply Forall_impl; [exact Hl|]. by intros []. }
  destruct (H ltac:(clear; intros s e He [H1 H2]; split; [done|]; simpl;
                    apply Forall_app; split; [done|];
                    apply Forall_singleton; by destruct e)
              ltac:(clear; by intros s [H1 H2])
              ltac:(clear; by intros i v s _ [H1 H2])) with (w := w)
    as (s & [H1 H2] & Hs & Hout).
  - clear. intros v r s Hv [H1 H2] Hnew.
    set (s1 := count_processed (add_processed (url v) s)).
    pose proof (filed_unchanged path_exists getsize (url v) r s1)
      as (_ & _ & _ & Haf & _).
    destruct (filed_log path_exists getsize (url v) r s1)
      as (e & Hlog & He).
    assert (Hne : no_summary e).
    { destruct He as [[p ->]| ->]; [done|].
      destruct (failure_event_cases (url v) r) as [[p ->]|[-> | ->]]; done. }
    unfold progressed.
    destruct (Gui.gui_callback self); simpl; rewrite ?Haf, ?Hlog.
    + split; [done|]. rewrite !Forall_app, !Forall_singleton. done.
    + split; [done|]. rewrite !Forall_app, !Forall_singleton. done.
  - split; [done|]. simpl. constructor.
  - cbv zeta in Hout |- *.
    destruct Hout as [-> |[[_ ->]|[-> _]]]; simpl.
    + split; [done|]. rewrite Forall_app, Forall_singleton.
      split; [by apply Hweak|]. simpl. by rewrite Hs, H1.
    + split; [done|]. rewrite !Forall_app, !Forall_singleton.
      split; [split; [by apply Hweak|done]|]. simpl. by rewrite Hs, H1.
    + split; [done|]. by apply Hweak.
Qed.

(** Once the stop line is logged, only the summary follows. *)
Lemma gui_run_stop_line w :
  let out := Gui.parallel_download_videos submit path_exists getsize
               completes_first self videos batch_size stop_event w in
  DownloadStoppedByUser ∈ log out.2 →
  out.1 = Return []
  ∧ ∃ l, log out.2
         = l ++ [DownloadStoppedByUser;
                 OverallSummary (size (processed_urls out.2)) 0 0]
         ∧ DownloadStoppedByUser ∉ l.
Proof.
  pose proof (gui_run_invariant submit path_exists getsize completes_first
                self stop_event videos batch_size
                (fun s => all_failed_downloads s = []
                          ∧ DownloadStoppedByUser ∉ log s)) as H.
  destruct (H ltac:(clear; intros s e He [H1 H2]; split; [done|]; simpl;
                    rewrite elem_of_app, list_elem_of_singleton;
                    intros [?| <-]; done)
              ltac:(clear; by intros s [H1 H2])
              ltac:(clear; by intros i v s _ [H1 H2])) with (w := w)
    as (s & [H1 H2] & Hs & Hout).
  - clear. intros v r s Hv [H1 H2] Hnew.
    set (s1 := count_processed (add_processed (url v) s)).
    pose proof (filed_unchanged path_exists getsize (url v) r s1)
      as (_ & _ & _ & Haf & _).
    destruct (filed_log path_exists getsize (url v) r s1)
      as (e & Hlog & He).
    assert (Hne : e ≠ DownloadStoppedByUser).
    { destruct He as [[p ->]| ->]; [done|].
      destruct (failure_event_cases (url v) r) as [[p ->]|[-> | ->]]; done. }
    unfold progressed.
    destruct (Gui.gui_callback self); simpl; rewrite ?Haf, ?Hlog;
      (split; [done|]);
      rewrite ?elem_of_app, ?list_elem_of_singleton; subst s1; simpl;
      naive_solver.
  - split; [done|]. simpl. by intros ?%elem_of_nil.
  - cbv zeta in Hout |- *.
    destruct Hout as [-> |[[_ ->]|[-> _]]]; simpl.
    + rewrite elem_of_app, list_elem_of_singleton. intros [?|?]; done.
    + intros _. split; [done|]. exists (log s).
      rewrite <- app_assoc. simpl. by rewrite Hs, H1.
    + done.
Qed.

End GuiSummaries.

(** X10.  The GUI scheduler never closes a batch, whatever the workers
    do, whatever the order of completions and whenever the stop flags
    are set: at the end of a run the failure totals are empty, as the
    success totals are, no batch summary has been logged, and an overall
    summary in the log reports the number of processed URLs with 0
    successful and 0 failed downloads. *)
Theorem gui_never_closes_a_batch {W : Type}
    (submit : video_info → W → future_result * W)
    (path_exists : string → W → bool) (getsize : string → W → nat)
    (completes_first : W → list video_info → nat)
    (self : Gui.TikTokDownloader W) (stop_event : option (W → bool))
    (videos : list video_info) (batch_size : nat) (w : W) :
  let out := Gui.parallel_download_videos submit path_exists getsize
               completes_first self videos batch_size stop_event w in
  all_failed_downloads out.2 = []
  ∧ Forall (no_result_summary (size (processed_urls out.2))) (log out.2).
Proof. apply gui_run_without_summary. Qed.

(** X11.  The stop callable given to the GUI scheduler ends the run at
    the next batch boundary.  When it is set as the run starts on at
    least one task, nothing is submitted and the world is left as it
    is.  In any run, once "Download stopped by user" is logged, only the
    overall summary follows and the empty list is returned: no batch is
    started after that line. *)
Theorem gui_stop_callable_ends_the_run {W : Type}
    (submit : video_info → W → future_result * W)
    (path_exists : string → W → bool) (getsize : string → W → nat)
    (completes_first : W → list video_info → nat)
    (self : Gui.TikTokDownloader W) (stop_event : option (W → bool))
    (videos : list video_info) (batch_size : nat) (w : W) :
  let out := Gui.parallel_download_videos submit path_exists getsize
               completes_first self videos batch_size stop_event w in
  (Gui.is_set stop_event w = true → videos ≠ [] → 1 ≤ batch_size →
   out = (Return [], summed (emit DownloadStoppedByUser (initial w))))
  ∧ (DownloadStoppedByUser ∈ log out.2 →
     out.1 = Return []
     ∧ ∃ l, log out.2
            = l ++ [DownloadStoppedByUser;
                    OverallSummary (size (processed_urls out.2)) 0 0]
            ∧ DownloadStoppedByUser ∉ l).
Proof.
  cbv zeta. split; [|apply gui_run_stop_line].
  intros Hset Hne Hbs. unfold Gui.parallel_download_videos.
  destruct (batch_size =? 0) eqn:H0; [apply Nat.eqb_eq in H0; lia|].
  destruct videos as [|v l]; [done|].
  unfold Py.range. cbn [length Py.range_from].
  rewrite (proj2 (Nat.ltb_lt 0 (S (length l)))) by lia.
  unfold then_ at 1. cbn [for_].
  unfold Gui.batch_turn at 1. unfold if_ at 1.
  cbn [initial env]. rewrite Hset.
  reflexivity.
Qed.

Lemma gui_stop_callable_ends_the_run_witness :
  Gui.run Sample.md5_hexdigest Sample.serves Sample.in_order
    (Sample.gui_downloader None) [Sample.A; Sample.B] 1
    (Sample.stop_after 0) Sample.fresh_world
  = (Return [], summed (emit DownloadStoppedByUser
                          (initial Sample.fresh_world)))
  ∧ (let out := Gui.run Sample.md5_hexdigest Sample.serves Sample.in_order
                  (Sample.gui_downloader None) [Sample.A; Sample.B] 1
                  (Sample.stop_after 1) Sample.fresh_world in
     out.1 = Return []
     ∧ ∃ l, log out.2
            = l ++ [DownloadStoppedByUser;
                    OverallSummary (size (processed_urls out.2)) 0 0]
            ∧ DownloadStoppedByUser ∉ l).
Proof.
  split.
  - refine (proj1 (gui_stop_callable_ends_the_run
              (Gui.worker Sample.md5_hexdigest Sample.serves
                 (Sample.gui_downloader None))
              os_path_exists os_path_getsize Sample.in_order
              (Sample.gui_downloader None) (Sample.stop_after 0)
              [Sample.A; Sample.B] 1 Sample.fresh_world) _ _ _).
    + reflexivity.
    + discriminate.
    + lia.
  - refine (proj2 (gui_stop_callable_ends_the_run
              (Gui.worker Sample.md5_hexdigest Sample.serves
                 (Sample.gui_downloader None))
              os_path_exists os_path_getsize Sample.in_order
              (Sample.gui_downloader None) (Sample.stop_after 1)
              [Sample.A; Sample.B] 1 Sample.fresh_world) _).
    vm_compute. right. right. right. right. right. right. left.
Defined.

(** ** The files of a run *)

Section FilesOnDisk.

Variable md5_hexdigest : string → string.
Variable http_get : world → string → response.

Lemma nonempty_file_mono p w w' :
  files w ⊆ files w' → nonempty_file p w → nonempty_file p w'.
Proof.
  intros Hsub [Hex Hsize]. apply os_path_exists_true in Hex as [c Hc].
  pose proof (lookup_weaken _ _ _ _ Hc Hsub) as Hc'.
  unfold nonempty_file, os_path_getsize in *. rewrite Hc in Hsize.
  split; [|by rewrite Hc'].
  apply os_path_exists_true. by rewrite Hc'.
Qed.

Lemma verified_path_nonempty r w p :
  verified_path os_path_exists os_path_getsize r w = Some p →
  nonempty_file p w.
Proof.
  destruct r as [[q|]|]; simpl; try done.
  destruct (Py.truthy q); simpl; [|done].
  destruct (os_path_exists q w) eqn:Hex; simpl; [|done].
  destruct (0 <? os_path_getsize q w) eqn:Hsize; [|done].
  intros [= <-]. split; [done|]. by apply Nat.ltb_lt.
Qed.

Lemma files_kept_emit w s e :
  (∀ p, e ≠ Verified p) → files_kept w s → files_kept w (emit e s).
Proof.
  intros He [H1 H2]. split; [done|]. simpl.
  by rewrite verified_paths_snoc_other.
Qed.

Lemma files_kept_env w s w' :
  files (env s) ⊆ files w' → files_kept w s →
  files_kept w (set_env w' s).
Proof.
  intros Hsub [H1 H2]. split; simpl.
  - by etransitivity.
  - eapply Forall_impl; [exact H2|]. intros p. by apply nonempty_file_mono.
Qed.

Lemma files_kept_filed w u r (s s0 : locals world) :
  env s = env s0 → log s = log s0 →
  files_kept w s0 →
  files_kept w (filed os_path_exists os_path_getsize u r s).
Proof.
  intros Henv Hlog [H1 H2].
  pose proof (filed_unchanged os_path_exists os_path_getsize u r s)
    as (_ & He & _).
  pose proof (filed_lists os_path_exists os_path_getsize u r s) as Hl.
  cbv zeta in Hl. unfold files_kept. rewrite He, Henv.
  split; [done|].
  destruct (verified_path _ _ _ _) as [p|] eqn:Hv;
    destruct Hl as (_ & _ & ->); rewrite Hlog.
  - rewrite verified_paths_snoc, Forall_app, Forall_singleton.
    split; [done|]. rewrite <- Henv.
    exact (verified_path_nonempty _ _ _ Hv).
  - rewrite verified_paths_snoc_other; [done|].
    apply failure_event_not_verified.
Qed.

Variable completes_first : world → list video_info → nat.
Variable videos : list video_info.
Variable batch_size : nat.

Lemma main_run_files_kept console self w :
  files_kept w
    (Main.run md5_hexdigest http_get console completes_first self
       videos batch_size w).2.
Proof.
  unfold Main.run.
  destruct (batch_size =? 0) eqn:H0.
  { unfold Main.parallel_download_videos. rewrite H0.
    split; [done|constructor]. }
  apply Nat.eqb_neq in H0.
  refine (proj1 (main_run_invariant (Main.worker md5_hexdigest http_get self)
            os_path_exists os_path_getsize completes_first
            (console_input console) videos batch_size
            (files_kept w) (fun _ => files_kept w) w ltac:(lia)
            _ _ _ _ _ _)).
  - split; [done|constructor].
  - intros s e He. apply files_kept_emit. intros p ->. done.
  - intros s. unfold main_answered. by apply files_kept_env.
  - intros i s Hs. unfold opened. apply files_kept_emit; [done|].
    exact Hs.
  - intros i pending k v s _ Hs.
    set (s1 := set_future _ _).
    assert (H1 : files_kept w s1).
    { destruct (files_kept_env w s (Main.worker md5_hexdigest http_get
                                      self v (env s)).2) as [Ha Hb];
        [|done|by split].
      unfold Main.worker.
      pose proof (main_download_video_keeps md5_hexdigest http_get
                    self v (env s)) as Hk.
      by destruct (Main.download_video _ _ _ _ _). }
    rewrite main_on_completion_eq. case_bool_decide; cbn [snd].
    + by apply files_kept_emit.
    + by apply (files_kept_filed w _ _ _ s1).
  - intros n s Hs. unfold closed.
    apply files_kept_emit; [done|].
    destruct (files_kept_emit w s (Shutdown true) ltac:(done) Hs).
    by split.
Qed.

Lemma gui_run_files_kept (self : Gui.TikTokDownloader world) stop_event w :
  files_kept w
    (Gui.run md5_hexdigest http_get completes_first self videos
       batch_size stop_event w).2.
Proof.
  unfold Gui.run.
  pose proof (gui_run_invariant (Gui.worker md5_hexdigest http_get self)
                os_path_exists os_path_getsize completes_first self
                stop_event videos batch_size (files_kept w)) as H.
  destruct (H ltac:(clear; intros s e He; apply files_kept_emit;
                    intros p ->; done)
              ltac:(clear; by intros s [H1 H2])) with (w := w)
    as (s & Hs & _ & Hout).
  - intros i v s _ Hs.
    destruct (files_kept_env w s (Gui.worker md5_hexdigest http_get
                                    self v (env s)).2) as [Ha Hb];
      [|done|by split].
    unfold Gui.worker.
    pose proof (gui_download_video_keeps md5_hexdigest http_get
                  self v (env s)) as Hk.
    by destruct (Gui.download_video _ _ _ _ _).
  - intros v r s _ Hs _. unfold progressed.
    set (s1 := count_processed _).
    pose proof (files_kept_filed w (url v) r s1 s eq_refl eq_refl Hs) as Hf.
    destruct (Gui.gui_callback self); [|done].
    by apply files_kept_emit.
  - split; [done|constructor].
  - cbv zeta in Hout.
    destruct Hout as [-> |[[_ ->]|[-> _]]]; cbn [snd]; [| |done].
    + by apply files_kept_emit.
    + by repeat apply files_kept_emit.
Qed.

End FilesOnDisk.

(** X12.  No run of either scheduler removes or rewrites a file, other
    than a log file, that was there when the run started: such a file
    is there with the same content when the run ends, whatever the
    server, the answers at the console, the stop flags and the order of
    completions. *)
Theorem runs_keep_existing_files
    (md5_hexdigest : string → string) (http_get : world → string → response)
    (console : nat → option string)
    (completes_first : world → list video_info → nat)
    (self : Main.TikTokDownloader) (gself : Gui.TikTokDownloader world)
    (stop_event : option (world → bool))
    (videos : list video_info) (batch_size : nat) (w : world)
    (q x : string) :
  is_log_file q = false →
  files w !! q = Some x →
  files (env (Main.run md5_hexdigest http_get console completes_first self
                videos batch_size w).2) !! q = Some x
  ∧ files (env (Gui.run md5_hexdigest http_get completes_first gself videos
                  batch_size stop_event w).2) !! q = Some x.
Proof.
  intros _ Hq. split.
  - destruct (main_run_files_kept md5_hexdigest http_get completes_first
                videos batch_size console self w) as [H1 _].
    exact (lookup_weaken _ _ _ _ Hq H1).
  - destruct (gui_run_files_kept md5_hexdigest http_get completes_first
                videos batch_size gself stop_event w) as [H1 _].
    exact (lookup_weaken _ _ _ _ Hq H1).
Qed.

(** The theorem at the sample task [A], whose path holds an empty
    file. *)
Lemma runs_keep_existing_files_witness :
  files (env (Main.run Sample.md5_hexdigest Sample.serves Sample.says_yes
                Sample.in_order Sample.downloader [Sample.A] 1
                Sample.empty_file_world).2) !! Sample.path_a
  = Some EmptyString
  ∧ files (env (Gui.run Sample.md5_hexdigest Sample.serves Sample.in_order
                  (Sample.gui_downloader None) [Sample.A] 1 None
                  Sample.empty_file_world).2) !! Sample.path_a
    = Some EmptyString.
Proof.
  apply (runs_keep_existing_files Sample.md5_hexdigest Sample.serves
           Sample.says_yes Sample.in_order Sample.downloader
           (Sample.gui_downloader None) None [Sample.A] 1
           Sample.empty_file_world Sample.path_a EmptyString);
    reflexivity.
Defined.

(** X22.  When no two tasks have the same destination path, every path
    that a run of the scheduler of [main.py] logs as a verified
    successful download is a file of size above zero when the run ends,
    and so is every path of the returned list, whatever the server, the
    answers at the console and the order of completions. *)
Theorem verified_downloads_are_on_disk
    (md5_hexdigest : string → string) (http_get : world → string → response)
    (console : nat → option string)
    (completes_first : world → list video_info → nat)
    (self : Main.TikTokDownloader)
    (videos : list video_info) (batch_size : nat) (w : world) :
  NoDup (omap (filepath md5_hexdigest (Main.download_dir self)) videos) →
  let out := Main.run md5_hexdigest http_get console completes_first self
               videos batch_size w in
  Forall (fun p => nonempty_file p (env out.2)) (verified_paths (log out.2))
  ∧ match out.1 with
    | Return x => Forall (fun p => nonempty_file p (env out.2)) x
    | _ => True
    end.
Proof.
  intros _. cbv zeta.
  destruct (main_run_files_kept md5_hexdigest http_get completes_first
              videos batch_size console self w) as [_ H2].
  split; [done|].
  unfold Main.run in *.
  destruct (batch_size =? 0) eqn:H0.
  { unfold Main.parallel_download_videos. by rewrite H0. }
  apply Nat.eqb_neq in H0.
  pose proof (main_totals_are_verified (Main.worker md5_hexdigest http_get self)
                os_path_exists os_path_getsize completes_first
                (console_input console) videos batch_size w ltac:(lia))
    as [Hs Hc].
  cbv zeta in Hs, Hc.
  destruct Hc as [[-> _]|[-> _]]; [|done]. by rewrite Hs.
Qed.

(** The theorem at the three sample tasks, whose paths differ. *)
Lemma verified_downloads_are_on_disk_witness :
  let out := Main.run Sample.md5_hexdigest Sample.serves Sample.says_yes
               Sample.in_order Sample.downloader
               [Sample.A; Sample.B; Sample.C] 2 Sample.fresh_world in
  Forall (fun p => nonempty_file p (env out.2)) (verified_paths (log out.2))
  ∧ match out.1 with
    | Return x => Forall (fun p => nonempty_file p (env out.2)) x
    | _ => True
    end.
Proof.
  apply (verified_downloads_are_on_disk Sample.md5_hexdigest Sample.serves
           Sample.says_yes Sample.in_order Sample.downloader
           [Sample.A; Sample.B; Sample.C] 2 Sample.fresh_world).
  vm_compute. repeat constructor; set_solver.
Defined.

(** ** The prompts of [main.py] *)

Section MainPrompts.

Lemma range_from_ge stop step : ∀ fuel start i,
  i ∈ Py.range_from fuel start stop step → start ≤ i.
Proof.
  induction fuel as [|fuel IH]; intros start i; simpl.
  - by intros ?%elem_of_nil.
  - destruct (start <? stop); [|by intros ?%elem_of_nil].
    intros [->|Hi]%elem_of_cons; [done|].
    apply IH in Hi. lia.
Qed.

(** The first start index is 0, the others are above. *)
Lemma range_first stop step dn i rest :
  1 ≤ step → dn ++ i :: rest = Py.range stop step →
  (0 < i ↔ dn ≠ []) ∧ (i = 0 ↔ dn = []).
Proof.
  intros Hstep. unfold Py.range.
  destruct stop as [|n]; simpl.
  { by destruct dn. }
  destruct dn as [|d dn]; simpl.
  - intros [= -> _]. split; split; (done || lia).
  - intros [= -> Hrest].
    assert (i ∈ Py.range_from n step (S n) step) as Hi%range_from_ge.
    { rewrite <- Hrest. apply elem_of_app. right. by left. }
    split; split; (done || lia).
Qed.

Lemma pools_of_prefix videos batch_size dn rest :
  dn ++ rest = Py.range (length videos) batch_size →
  pools_of videos batch_size dn
  = take (length dn) (chunks batch_size videos) ≫= pool_trace.
Proof.
  intros Hr. rewrite <- range_slices, <- Hr, fmap_app.
  rewrite take_app_length' by by rewrite length_fmap.
  unfold pools_of. clear Hr.
  induction dn as [|i l IH]; [done|].
  by rewrite fmap_cons, !bind_cons, IH.
Qed.

Variable md5_hexdigest : string → string.
Variable http_get : world → string → response.
Variable console : nat → option string.
Variable completes_first : world → list video_info → nat.
Variable self : Main.TikTokDownloader.

Lemma main_worker_prompts v w :
  prompts (Main.worker md5_hexdigest http_get self v w).2 = prompts w.
Proof.
  unfold Main.worker, Main.download_video.
  destruct (filepath _ _ v) as [p|]; [|done].
  destruct (os_path_exists p w); [done|].
  pose proof (retry_loop_effect http_get (url v) p w) as H.
  destruct (retry_loop _ _ _ _ _) as [r w'].
  by destruct H as (k & _ & _ & _ & Hp & _).
Qed.

Lemma main_run_went_through videos batch_size w :
  1 ≤ batch_size →
  ∃ m, went_through console videos batch_size w m
         (Main.run md5_hexdigest http_get console completes_first self
            videos batch_size w).
Proof.
  intros Hbs. unfold Main.run.
  set (range := Py.range (length videos) batch_size).
  assert (Hlen : length (chunks batch_size videos) = length range).
  { rewrite <- range_slices. by rewrite length_fmap. }
  pose proof (main_totals_are_verified
                (Main.worker md5_hexdigest http_get self)
                os_path_exists os_path_getsize completes_first
                (console_input console) videos batch_size w Hbs)
    as [Hver Hends].
  cbv zeta in Hver, Hends.
  pose proof (main_run_any_rule
    (Main.worker md5_hexdigest http_get self)
    os_path_exists os_path_getsize completes_first (console_input console)
    videos batch_size
    (fun rest s =>
       ∃ dn, dn ++ rest = range
             ∧ prompts (env s) = prompts w + (length dn - 1)
             ∧ pool_events (log s) = pools_of videos batch_size dn
             ∧ yes_until console (prompts w) (length dn - 1)
             ∧ StoppingAtUserRequest ∉ log s)
    (fun i rest pending s =>
       ∃ dn, dn ++ i :: rest = range
             ∧ prompts (env s) = prompts w + length dn
             ∧ pool_events (log s)
               = pools_of videos batch_size dn
                 ++ [Submitted (Py.slice videos i (i + batch_size))]
             ∧ yes_until console (prompts w) (length dn)
             ∧ StoppingAtUserRequest ∉ log s)
    w Hbs) as Hrun.
  cbv zeta in Hrun.
  destruct Hrun as
    [(s & (dn & Hdn & Hp & Hpool & Hyes & Hns) & Hout)
    |(dn & i & rest & s & Hdn & Hi & (dn' & Hdn' & Hp & Hpool & Hyes & Hns)
      & Hcase)].
  - exists []. simpl. rewrite Nat.add_0_r.
    split; [done|]. split; [done|]. split; [done|].
    split; [intros j ?; lia|]. by intros ?%elem_of_nil.
  - intros dn i rest s Hdn (dn' & Hdn' & Hp & Hpool & Hyes & Hns) Hy.
    assert (dn' = dn) as ->.
    { eapply app_inv_tail. etransitivity; [exact Hdn'|]. symmetry.
      exact Hdn. }
    destruct (range_first _ _ _ _ _ Hbs Hdn) as [Hpos Hzero].
    exists dn. split; [done|].
    unfold main_opened, opened.
    destruct (0 <? i) eqn:H0i.
    + apply Nat.ltb_lt in H0i.
      assert (1 ≤ length dn).
      { destruct dn; [by apply Hpos in H0i|simpl; lia]. }
      cbn [env emit set_env new_batch_lists console_input snd prompts log].
      split; [lia|]. split.
      * rewrite pool_events_snoc_pool, pool_events_snoc_other by done.
        by rewrite Hpool.
      * split.
        -- intros j Hj. destruct (decide (j < length dn - 1)) as [?|Hn].
           { by apply Hyes. }
           replace j with (length dn - 1) by lia.
           destruct (Hy H0i) as (line & Hl & Hly).
           exists line. split; [|done].
           unfold main_asking in Hl. simpl in Hl. by rewrite <- Hp.
        -- rewrite !elem_of_app, !list_elem_of_singleton. naive_solver.
    + apply Nat.ltb_ge in H0i.
      assert (dn = []) as -> by (apply Hzero; lia).
      cbn [env emit set_env new_batch_lists console_input snd prompts log].
      simpl in *. split; [lia|]. split.
      * rewrite pool_events_snoc_pool, pool_events_snoc_other by done.
        by rewrite Hpool.
      * split; [intros j ?; lia|].
        rewrite !elem_of_app, !list_elem_of_singleton. naive_solver.
  - intros i rest pending k v s Hk (dn & Hdn & Hp & Hpool & Hyes & Hns).
    exists dn. split; [done|].
    rewrite main_on_completion_eq. case_bool_decide; cbn [snd].
    + cbn [env emit set_future set_env log].
      rewrite main_worker_prompts. split; [done|].
      rewrite pool_events_snoc_other by done. split; [done|].
      split; [done|].
      rewrite elem_of_app, list_elem_of_singleton. naive_solver.
    + set (s1 := add_processed _ _).
      pose proof (filed_unchanged os_path_exists os_path_getsize (url v)
                    (Main.worker md5_hexdigest http_get self v (env s)).1 s1)
        as (_ & He & _).
      destruct (filed_log os_path_exists os_path_getsize (url v)
                  (Main.worker md5_hexdigest http_get self v (env s)).1 s1)
        as (e & Hlog & Hev).
      rewrite filed_pool_events, He. subst s1.
      cbn [env add_processed set_future set_env log].
      rewrite main_worker_prompts. split; [done|]. split; [done|].
      split; [done|]. rewrite Hlog. simpl.
      rewrite elem_of_app, list_elem_of_singleton.
      intros [?| <-]; [done|].
      destruct Hev as [[p Hev]|Hev]; [done|].
      destruct (failure_event_cases (url v)
                  (Main.worker md5_hexdigest http_get self v (env s)).1)
        as [[p Hf]|[Hf|Hf]]; congruence.
  - intros i rest s (dn & Hdn & Hp & Hpool & Hyes & Hns).
    exists (dn ++ [i]). split; [by rewrite <- app_assoc|].
    rewrite length_app. simpl. rewrite Nat.add_sub.
    split; [done|]. split; [|split; [done|]].
    + rewrite pool_events_snoc_other, pool_events_snoc_pool by done.
      by rewrite Hpool, pools_of_snoc, <- app_assoc.
    + rewrite !elem_of_app, !list_elem_of_singleton. naive_solver.
  - (* every batch was processed *)
    rewrite app_nil_r in Hdn. subst dn.
    exists (length range). unfold went_through. cbv zeta.
    rewrite Hlen, Nat.ltb_irrefl, Hout. cbn [fst snd].
    unfold summed. cbn [log env emit].
    rewrite pool_events_snoc_other by done.
    rewrite verified_paths_snoc_other by done.
    split; [|split; [done|split; [done|split; [done|split]]]].
    + rewrite Hpool. rewrite <- Hlen, firstn_all.
      apply pools_of_range.
    + rewrite Hout in Hver. simpl in Hver.
      rewrite verified_paths_snoc_other in Hver by done. by rewrite Hver.
    + rewrite elem_of_app, list_elem_of_singleton. naive_solver.
  - (* the run stopped before the batch at [i] *)
    assert (dn' = dn) as ->.
    { eapply app_inv_tail. etransitivity; [exact Hdn'|]. symmetry.
      exact Hdn. }
    destruct (range_first _ _ _ _ _ Hbs Hdn) as [Hpos Hzero].
    assert (1 ≤ length dn).
    { destruct dn; [by apply Hpos in Hi|simpl; lia]. }
    assert (Hlt : length dn < length range).
    { unfold range. rewrite <- Hdn, length_app. simpl. lia. }
    exists (length dn). unfold went_through. cbv zeta.
    rewrite Hlen, (proj2 (Nat.ltb_lt _ _) Hlt).
    unfold main_asking in Hcase. simpl in Hcase.
    rewrite Hp in Hcase.
    assert (Hpools : pools_of videos batch_size dn
                     = take (length dn) (chunks batch_size videos)
                       ≫= pool_trace)
      by (eapply pools_of_prefix, Hdn).
    destruct (console (prompts w + (length dn - 1))) as [line|].
    + destruct Hcase as [Hny Hout]. rewrite Hout in Hver |- *.
      unfold summed, main_stopped, main_answered in *.
      cbn [fst snd log env emit set_env console_input prompts] in *.
      simpl in Hver.
      rewrite !pool_events_snoc_other by done.
      rewrite !verified_paths_snoc_other in Hver |- * by done.
      split; [by rewrite Hpool|]. split; [done|]. split; [done|].
      split; [lia|]. split; [done|]. split; [by rewrite Hver|].
      rewrite !elem_of_app, !list_elem_of_singleton. naive_solver.
    + rewrite Hcase. unfold main_answered.
      cbn [fst snd log env emit set_env console_input prompts].
      rewrite !pool_events_snoc_other by done.
      split; [by rewrite Hpool|]. split; [done|]. split; [done|].
      split; [lia|done].
Qed.

End MainPrompts.

(** X13.  [main.py] asks before every batch but the first, and goes on
    exactly as long as the answer is "y" in any letter case.  For a batch
    size of at least 1 there is a number [m] of batches such that the
    run submits the first [m] contiguous slices of the task list, each
    pool being shut down before the next is submitted, and such that the
    [m - 1] console lines read before them are "y".  Either [m] is the
    number of all batches, the run has read [m - 1] lines and returns the
    verified paths without the line "Stopping at user request"; or
    batches are left, the run has read [m] lines, and the last of them
    is another answer, after which the run logs that line and returns
    the verified paths of the batches so far, or the console was closed,
    and the run raises [EOFError]. *)
Theorem main_asks_before_every_further_batch
    (md5_hexdigest : string → string) (http_get : world → string → response)
    (console : nat → option string)
    (completes_first : world → list video_info → nat)
    (self : Main.TikTokDownloader)
    (videos : list video_info) (batch_size : nat) (w : world) :
  1 ≤ batch_size →
  ∃ m, went_through console videos batch_size w m
         (Main.run md5_hexdigest http_get console completes_first self
            videos batch_size w).
Proof. apply main_run_went_through. Qed.

Lemma main_asks_before_every_further_batch_witness :
  ∃ m, went_through (fun _ => Some "n") [Sample.A; Sample.B; Sample.C] 2
         Sample.fresh_world m
         (Main.run Sample.md5_hexdigest Sample.serves (fun _ => Some "n")
            Sample.in_order Sample.downloader
            [Sample.A; Sample.B; Sample.C] 2 Sample.fresh_world).
Proof.
  apply (main_asks_before_every_further_batch Sample.md5_hexdigest
           Sample.serves (fun _ => Some "n") Sample.in_order
           Sample.downloader [Sample.A; Sample.B; Sample.C] 2
           Sample.fresh_world).
  lia.
Defined.

(** ** Running the programs again *)

Section Reruns.

Variable md5_hexdigest : string → string.
Variable http_get : world → string → response.
Variable console : nat → option string.
Variable completes_first : world → list video_info → nat.
Variable videos : list video_info.
Variable batch_size : nat.

Local Abbreviation same w w' :=
  (files w' = files w ∧ requests w' = requests w ∧ sleeps w' = sleeps w).

Lemma same_untouched w w' : same w w' → untouched w w'.
Proof. intros (Hf & Hr & Hs). repeat split; try done. by rewrite Hf. Qed.

Lemma main_rerun_untouched self w :
  (∀ u p, u ∈ videos →
          filepath md5_hexdigest (Main.download_dir self) u = Some p →
          is_Some (files w !! p)) →
  untouched w
    (env (Main.run md5_hexdigest http_get console completes_first self
            videos batch_size w).2).
Proof.
  intros Hfiles. apply same_untouched. unfold Main.run.
  destruct (batch_size =? 0) eqn:H0.
  { unfold Main.parallel_download_videos. by rewrite H0. }
  apply Nat.eqb_neq in H0.
  refine (proj1 (main_run_invariant (Main.worker md5_hexdigest http_get self)
            os_path_exists os_path_getsize completes_first
            (console_input console) videos batch_size
            (fun s => same w (env s))
            (fun pending s => same w (env s)
                              ∧ ∀ u, u ∈ pending → u ∈ videos)
            w ltac:(lia) _ _ _ _ _ _)); try done.
  - intros i s Hs. split; [done|]. intros u. apply elem_of_slice.
  - intros i pending k v s Hk [(Hf & Hr & Hsl) Hsub].
    split; [|intros x Hx; eapply Hsub, elem_of_delete_in, Hx].
    assert (Hw : (Main.worker md5_hexdigest http_get self v (env s)).2
                 = env s).
    { unfold Main.worker, Main.download_video.
      destruct (filepath _ _ v) as [p|] eqn:Hp; [|done].
      destruct (Hfiles v p) as [c Hc];
        [eapply Hsub, list_elem_of_lookup_2, Hk|done|].
      rewrite <- Hf in Hc.
      by rewrite (proj2 (os_path_exists_true p (env s))). }
    rewrite main_on_completion_eq. case_bool_decide; cbn [snd].
    + simpl. by rewrite Hw.
    + set (s1 := add_processed _ _).
      pose proof (filed_unchanged os_path_exists os_path_getsize (url v)
                    (Main.worker md5_hexdigest http_get self v (env s)).1 s1)
        as (_ & -> & _).
      subst s1. simpl. by rewrite Hw.
  - by intros n s [Hs _].
Qed.

Lemma gui_rerun_untouched (self : Gui.TikTokDownloader world) stop_event w :
  (∀ u p, u ∈ videos →
          filepath md5_hexdigest (Gui.download_dir self) u = Some p →
          is_Some (files w !! p)) →
  untouched w
    (env (Gui.run md5_hexdigest http_get completes_first self videos
            batch_size stop_event w).2).
Proof.
  intros Hfiles. apply same_untouched. unfold Gui.run.
  pose proof (gui_run_invariant (Gui.worker md5_hexdigest http_get self)
                os_path_exists os_path_getsize completes_first self
                stop_event videos batch_size
                (fun s => same w (env s))) as H.
  destruct (H ltac:(clear; by intros s e He)
              ltac:(clear; by intros s Hs)) with (w := w)
    as (s & Hs & _ & Hout).
  - intros i v s Hv (Hf & Hr & Hsl).
    assert (Hw : (Gui.worker md5_hexdigest http_get self v (env s)).2
                 = env s).
    { unfold Gui.worker, Gui.download_video.
      destruct (Gui.is_set _ _); [done|].
      destruct (filepath _ _ v) as [p|] eqn:Hp; [|done].
      destruct (Hfiles v p) as [c Hc]; [done|done|].
      rewrite <- Hf in Hc.
      by rewrite (proj2 (os_path_exists_true p (env s))). }
    simpl. by rewrite Hw.
  - intros v r s _ Hs _. unfold progressed.
    set (s1 := count_processed _).
    pose proof (filed_unchanged os_path_exists os_path_getsize (url v) r s1)
      as (_ & He & _).
    destruct (Gui.gui_callback self); simpl; by rewrite He.
  - done.
  - cbv zeta in Hout.
    by destruct Hout as [-> |[[_ ->]|[-> _]]].
Qed.

End Reruns.

(** X14.  Running either scheduler again over tasks whose files are on
    disk is idle: when a file, of whatever size, is at the destination
    path of every task that has one, the run makes no request, never
    sleeps and writes, changes or removes no file other than the log
    files, whatever the server, the answers at the console, the stop
    flags and the order of completions. *)
Theorem rerun_is_idle
    (md5_hexdigest : string → string) (http_get : world → string → response)
    (console : nat → option string)
    (completes_first : world → list video_info → nat)
    (self : Main.TikTokDownloader) (gself : Gui.TikTokDownloader world)
    (stop_event : option (world → bool))
    (videos : list video_info) (batch_size : nat) (w : world) :
  ((∀ u p, u ∈ videos →
           filepath md5_hexdigest (Main.download_dir self) u = Some p →
           is_Some (files w !! p)) →
   untouched w
     (env (Main.run md5_hexdigest http_get console completes_first self
             videos batch_size w).2))
  ∧ ((∀ u p, u ∈ videos →
             filepath md5_hexdigest (Gui.download_dir gself) u = Some p →
             is_Some (files w !! p)) →
     untouched w
       (env (Gui.run md5_hexdigest http_get completes_first gself videos
               batch_size stop_event w).2)).
Proof.
  split; intros Hfiles.
  - by apply main_rerun_untouched.
  - by apply gui_rerun_untouched.
Qed.

Lemma rerun_is_idle_witness :
  untouched Sample.empty_file_world
    (env (Main.run Sample.md5_hexdigest Sample.serves Sample.says_yes
            Sample.in_order Sample.downloader [Sample.A] 1
            Sample.empty_file_world).2)
  ∧ untouched Sample.empty_file_world
      (env (Gui.run Sample.md5_hexdigest Sample.serves Sample.in_order
              (Sample.gui_downloader None) [Sample.A] 1 None
              Sample.empty_file_world).2).
Proof.
  pose proof (rerun_is_idle Sample.md5_hexdigest Sample.serves
                Sample.says_yes Sample.in_order Sample.downloader
                (Sample.gui_downloader None) None [Sample.A] 1
                Sample.empty_file_world) as [H1 H2].
  split.
  - apply H1. intros u p ->%list_elem_of_singleton [= <-]. by eexists.
  - apply H2. intros u p ->%list_elem_of_singleton [= <-]. by eexists.
Defined.

(** ** The programs around the schedulers *)

Section DownloadDirectory.

Lemma startswith_app a b c :
  Py.startswith (a +:+ b) (a +:+ c) = Py.startswith b c.
Proof.
  induction a as [|x a IH]; [done|].
  rewrite !append_cons. simpl. by rewrite Ascii.eqb_refl, IH.
Qed.

Variable md5_hexdigest : string → string.

(** The destination paths lie in the download directory. *)
Lemma filepath_inside dir v p :
  dir ≠ EmptyString → Py.endswith dir "/" = false →
  filepath md5_hexdigest dir v = Some p → inside dir p.
Proof.
  intros Hne Hslash. unfold filepath, filename.
  destruct (date_str v) as [d|]; simpl; [|discriminate].
  intros [= <-]. unfold Py.path_join, inside.
  rewrite Hslash, orb_false_r.
  destruct (String.eqb_spec dir EmptyString) as [|_]; [done|].
  by rewrite startswith_app.
Qed.

Variable http_get : world → string → response.
Variable console : nat → option string.
Variable completes_first : world → list video_info → nat.
Variable self : Main.TikTokDownloader.
Variable videos : list video_info.
Variable batch_size : nat.

Hypothesis Hdir : Main.download_dir self ≠ EmptyString.
Hypothesis Hslash : Py.endswith (Main.download_dir self) "/" = false.

(** A run of [main.py] writes inside the download directory only, and
    the paths it verifies lie there. *)
Lemma main_run_inside w :
  let out := Main.run md5_hexdigest http_get console completes_first self
               videos batch_size w in
  Forall (inside (Main.download_dir self)) (verified_paths (log out.2))
  ∧ ∀ q, ¬ inside (Main.download_dir self) q →
         files (env out.2) !! q = files w !! q.
Proof.
  cbv zeta. unfold Main.run.
  destruct (batch_size =? 0) eqn:H0.
  { unfold Main.parallel_download_videos. rewrite H0.
    split; [constructor|done]. }
  apply Nat.eqb_neq in H0.
  set (J := fun s : locals world =>
    Forall (inside (Main.download_dir self)) (verified_paths (log s))
    ∧ ∀ q, ¬ inside (Main.download_dir self) q →
           files (env s) !! q = files w !! q).
  refine (proj1 (main_run_invariant (Main.worker md5_hexdigest http_get self)
            os_path_exists os_path_getsize completes_first
            (console_input console) videos batch_size
            J (fun _ => J) w ltac:(lia) _ _ _ _ _ _)).
  - split; [constructor|done].
  - intros s e He [H1 H2]. split; [|done]. simpl.
    rewrite verified_paths_snoc_other; [done|]. by intros p ->.
  - by intros s [H1 H2].
  - intros i s [H1 H2]. split; [|done]. simpl.
    by rewrite verified_paths_snoc_other.
  - intros i pending k v s _ [H1 H2].
    assert (Hframe : ∀ q, ¬ inside (Main.download_dir self) q →
      files (Main.worker md5_hexdigest http_get self v (env s)).2 !! q
      = files w !! q).
    { intros q Hq. rewrite main_worker_frame; [by apply H2|].
      intros Hp. by apply Hq, (filepath_inside _ v). }
    rewrite main_on_completion_eq. case_bool_decide; cbn [snd].
    { split; [|done]. simpl. by rewrite verified_paths_snoc_other. }
    set (s1 := add_processed _ _).
    pose proof (filed_unchanged os_path_exists os_path_getsize (url v)
                  (Main.worker md5_hexdigest http_get self v (env s)).1 s1)
      as (_ & He & _).
    pose proof (filed_lists os_path_exists os_path_getsize (url v)
                  (Main.worker md5_hexdigest http_get self v (env s)).1 s1)
      as Hl.
    cbv zeta in Hl. split; [|by rewrite He].
    destruct (verified_path _ _ _ _) as [p|] eqn:Hv;
      destruct Hl as (_ & _ & ->); subst s1; simpl.
    + rewrite verified_paths_snoc, Forall_app, Forall_singleton.
      split; [done|].
      unfold Main.worker in Hv.
      destruct (Main.download_video _ _ _ _ _) as [r w'] eqn:Hd.
      simpl in Hv. destruct r as [q|]; [|done].
      destruct (_ && _); [|done]. injection Hv as ->.
      apply main_download_video_path in Hd.
      by apply (filepath_inside _ v).
    + rewrite verified_paths_snoc_other; [done|].
      apply failure_event_not_verified.
  - intros n s [H1 H2]. split; [|done]. simpl.
    by rewrite !verified_paths_snoc_other.
Qed.

End DownloadDirectory.

Section MainProgramFacts2.

Variable md5_hexdigest : string → string.
Variable http_get : world → string → response.
Variable console : nat → option string.
Variable completes_first : world → list video_info → nat.
Variable json_load : world → string → option schema.
Variable subprocess_run : list string → world → bool * world.

Local Abbreviation main :=
  (MainProgram.main md5_hexdigest http_get console completes_first
     json_load subprocess_run).
Local Abbreviation cleanup := (MainProgram.cleanup subprocess_run).

Lemma main_cleanup_journal self h :
  ∃ e, journal (cleanup self h)
       = journal h ++ [Ran (rm_command (Main.download_dir self)) (os h); e]
       ∧ is_zip_run e = false
       ∧ os (cleanup self h)
         = (subprocess_run (rm_command (Main.download_dir self)) (os h)).2.
Proof.
  unfold MainProgram.cleanup, run_process.
  destruct (subprocess_run _ _) as [[] w']; simpl;
    rewrite <- app_assoc; by eexists.
Qed.

Lemma zip_runs_app j j' : zip_runs (j ++ j') = zip_runs j ++ zip_runs j'.
Proof. apply filter_app. Qed.

Lemma zip_runs_cons_other e j :
  is_zip_run e = false → zip_runs (e :: j) = zip_runs j.
Proof.
  intros He. unfold zip_runs. rewrite filter_cons_False; [done|].
  by rewrite He.
Qed.

Lemma zip_runs_cons_zip e j :
  is_zip_run e = true → zip_runs (e :: j) = e :: zip_runs j.
Proof. intros He. unfold zip_runs. by rewrite filter_cons_True. Qed.

Lemma no_zip_run j :
  zip_runs j = [] →
  length (zip_runs j) ≤ 1 ∧ Forall (archives_downloads j) (zip_runs j).
Proof. intros ->. split; [simpl; lia|constructor]. Qed.

Lemma archives_downloads_mono j j' e :
  archives_downloads j e → archives_downloads (j ++ j') e.
Proof.
  destruct e; simpl; try done.
  intros (H1 & H2 & l & H3 & H4). split; [done|]. split; [done|].
  exists l. split; [|done]. apply elem_of_app. by left.
Qed.

Lemma main_attempt_archives workers batch_size w :
  let self := {| Main.download_dir := "downloads";
                 Main.max_workers := workers |} in
  let j := journal
             (MainProgram.attempt md5_hexdigest http_get console
                completes_first json_load subprocess_run self batch_size
                {| os := w; journal := [] |}) in
  length (zip_runs j) ≤ 1 ∧ Forall (archives_downloads j) (zip_runs j).
Proof.
  cbv zeta.
  set (self := {| Main.download_dir := "downloads";
                  Main.max_workers := workers |}).
  set (h0 := {| os := w; journal := [] |}).
  unfold MainProgram.attempt, load_schema.
  destruct (json_load (os h0) "schema.json") as [data|];
    [|by apply no_zip_run].
  case_bool_decide as Hvideos; [by apply no_zip_run|].
  pose proof (main_run_inside md5_hexdigest http_get console completes_first
                self (get_video_links data) batch_size
                ltac:(done) ltac:(done) (os h0)) as [Hin _].
  cbv zeta in Hin.
  assert (Hret : ∀ x,
    (Main.run md5_hexdigest http_get console completes_first self
       (get_video_links data) batch_size (os h0)).1 = Return x →
    x = verified_paths
          (log (Main.run md5_hexdigest http_get console completes_first
                  self (get_video_links data) batch_size (os h0)).2)).
  { unfold Main.run. intros x Hx.
    destruct (batch_size =? 0) eqn:H0.
    { unfold Main.parallel_download_videos in Hx. by rewrite H0 in Hx. }
    apply Nat.eqb_neq in H0.
    pose proof (main_totals_are_verified
                  (Main.worker md5_hexdigest http_get self)
                  os_path_exists os_path_getsize completes_first
                  (console_input console) (get_video_links data)
                  batch_size (os h0) ltac:(lia)) as [Hs Hc].
    cbv zeta in Hs, Hc.
    destruct Hc as [[Hr _]|[Hr _]]; rewrite Hr in Hx; [|done].
    injection Hx as <-. exact Hs. }
  destruct (Main.run _ _ _ _ _ _ _ _) as [c s]. cbn [fst snd] in *.
  destruct c as [| | |x|ex]; try (by apply no_zip_run).
  case_bool_decide as Hx; [by apply no_zip_run|].
  specialize (Hret x eq_refl). subst x.
  unfold create_zip, run_process.
  set (h2 := note (Downloaded (log s)) (set_os (env s) h0)).
  assert (Hzip : ∃ h1,
    (if os_path_exists zip_name (os h2)
     then note (Removed zip_name)
            (set_os (set_files (delete zip_name) (os h2)) h2)
     else h2) = h1
    ∧ files (os h1) !! zip_name = None
    ∧ zip_runs (journal h1) = []
    ∧ Downloaded (log s) ∈ journal h1).
  { eexists. split; [done|].
    destruct (os_path_exists zip_name (os h2)) eqn:Hex.
    - simpl. split; [apply lookup_delete_eq|]. split; [done|].
      set_solver.
    - apply os_path_exists_false in Hex. split; [done|].
      split; [done|]. set_solver. }
  destruct Hzip as (h1 & -> & Hnone & Hruns & Hlog).
  destruct (subprocess_run (zip_command (Main.download_dir self)) (os h1))
    as [[] wz].
  - destruct (main_cleanup_journal self
                (note CreatedZip
                   (set_os wz
                      (note (Ran (zip_command (Main.download_dir self))
                               (os h1)) h1)))) as (e' & Hj & He' & _).
    cbn [journal note]. rewrite Hj.
    simpl. rewrite <- !app_assoc. simpl.
    rewrite !zip_runs_app, Hruns, app_nil_l.
    rewrite zip_runs_cons_zip by done.
    do 4 (rewrite zip_runs_cons_other by done).
    change (zip_runs []) with (@nil app_event).
    split; [simpl; lia|]. apply Forall_singleton. simpl.
    split; [done|]. split; [done|]. exists (log s).
    split; [set_solver|]. by split.
  - simpl. rewrite <- !app_assoc. simpl.
    rewrite !zip_runs_app, Hruns, app_nil_l.
    rewrite zip_runs_cons_zip by done.
    do 2 (rewrite zip_runs_cons_other by done).
    change (zip_runs []) with (@nil app_event).
    split; [simpl; lia|]. apply Forall_singleton. simpl.
    split; [done|]. split; [done|]. exists (log s).
    split; [set_solver|]. by split.
Qed.

Lemma main_archives workers batch_size w :
  let out := main workers batch_size w in
  length (zip_runs (journal out.2)) ≤ 1
  ∧ Forall (archives_downloads (journal out.2)) (zip_runs (journal out.2)).
Proof.
  cbv zeta. unfold MainProgram.main.
  destruct (os_path_exists _ w); [by apply no_zip_run|].
  cbn [snd].
  pose proof (main_attempt_archives workers batch_size w) as [Hlen Hall].
  cbv zeta in Hlen, Hall.
  destruct (main_cleanup_journal
              {| Main.download_dir := "downloads";
                 Main.max_workers := workers |}
              (MainProgram.attempt md5_hexdigest http_get console
                 completes_first json_load subprocess_run
                 {| Main.download_dir := "downloads";
                    Main.max_workers := workers |} batch_size
                 {| os := w; journal := [] |}))
    as (e & -> & He & _).
  rewrite zip_runs_app, zip_runs_cons_other, zip_runs_cons_other,
    app_nil_r by done.
  split; [done|].
  eapply Forall_impl; [exact Hall|].
  intros x. apply archives_downloads_mono.
Qed.

End MainProgramFacts2.

(** X15.  [main.py] starts the archive command at most once in a run,
    and only after the scheduler has returned at least one path: the
    command then archives the download directory, no file "videos.zip"
    is there when it starts, and every path the scheduler returned lies
    inside the download directory.  This holds whatever the export, the
    server, the answers at the console and the programs started do. *)
Theorem main_archives_verified_downloads
    (md5_hexdigest : string → string) (http_get : world → string → response)
    (console : nat → option string)
    (completes_first : world → list video_info → nat)
    (json_load : world → string → option schema)
    (subprocess_run : list string → world → bool * world)
    (workers batch_size : nat) (w : world) :
  let out := MainProgram.main md5_hexdigest http_get console
               completes_first json_load subprocess_run
               workers batch_size w in
  length (zip_runs (journal out.2)) ≤ 1
  ∧ Forall (archives_downloads (journal out.2)) (zip_runs (journal out.2)).
Proof. apply main_archives. Qed.

Section MainProgramFrame.

Variable md5_hexdigest : string → string.
Variable http_get : world → string → response.
Variable console : nat → option string.
Variable completes_first : world → list video_info → nat.
Variable json_load : world → string → option schema.
Variable subprocess_run : list string → world → bool * world.

Local Abbreviation main :=
  (MainProgram.main md5_hexdigest http_get console completes_first
     json_load subprocess_run).
Local Abbreviation attempt :=
  (MainProgram.attempt md5_hexdigest http_get console completes_first
     json_load subprocess_run).
Local Abbreviation cleanup := (MainProgram.cleanup subprocess_run).

Hypothesis Hzip : ∀ w q,
  q ≠ zip_name →
  files (subprocess_run (zip_command "downloads") w).2 !! q = files w !! q.
Hypothesis Hrm : ∀ w q,
  (inside "downloads" q →
   files (subprocess_run (rm_command "downloads") w).2 !! q = None)
  ∧ (¬ inside "downloads" q →
     files (subprocess_run (rm_command "downloads") w).2 !! q
     = files w !! q).

Lemma main_cleanup_frame workers h :
  let self := {| Main.download_dir := "downloads";
                 Main.max_workers := workers |} in
  ∀ q, (inside "downloads" q → files (os (cleanup self h)) !! q = None)
       ∧ (¬ inside "downloads" q →
          files (os (cleanup self h)) !! q = files (os h) !! q).
Proof.
  cbv zeta. intros q.
  destruct (main_cleanup_journal subprocess_run
              {| Main.download_dir := "downloads";
                 Main.max_workers := workers |} h) as (e & _ & _ & ->).
  apply Hrm.
Qed.

Lemma main_attempt_frame workers batch_size w q :
  let self := {| Main.download_dir := "downloads";
                 Main.max_workers := workers |} in
  ¬ inside "downloads" q → q ≠ zip_name →
  files (os (attempt self batch_size {| os := w; journal := [] |})) !! q
  = files w !! q.
Proof.
  cbv zeta. intros Hq Hz.
  set (self := {| Main.download_dir := "downloads";
                  Main.max_workers := workers |}).
  set (h0 := {| os := w; journal := [] |}).
  unfold MainProgram.attempt, load_schema.
  destruct (json_load (os h0) "schema.json") as [data|]; [|done].
  case_bool_decide as Hvideos; [done|].
  pose proof (main_run_inside md5_hexdigest http_get console completes_first
                self (get_video_links data) batch_size
                ltac:(done) ltac:(done) (os h0)) as [_ Hframe].
  cbv zeta in Hframe. specialize (Hframe q Hq).
  destruct (Main.run _ _ _ _ _ _ _ _) as [c s]. cbn [fst snd] in *.
  destruct c as [| | |x|ex]; try done.
  case_bool_decide as Hx; [done|].
  unfold create_zip, run_process.
  set (h2 := note (Downloaded (log s)) (set_os (env s) h0)).
  assert (Hh1 : ∃ h1,
    (if os_path_exists zip_name (os h2)
     then note (Removed zip_name)
            (set_os (set_files (delete zip_name) (os h2)) h2)
     else h2) = h1
    ∧ files (os h1) !! q = files w !! q).
  { eexists. split; [done|].
    destruct (os_path_exists zip_name (os h2)); simpl; [|done].
    by rewrite lookup_delete_ne. }
  destruct Hh1 as (h1 & -> & Hh1).
  pose proof (Hzip (os h1) q Hz) as Hz'.
  change (Main.download_dir self) with "downloads".
  destruct (subprocess_run (zip_command "downloads") (os h1)) as [[] wz];
    simpl in Hz' |- *.
  - destruct (main_cleanup_frame workers
                (note CreatedZip
                   (set_os wz (note (Ran (zip_command "downloads") (os h1))
                                 h1))) q) as [_ Hc].
    cbv zeta in Hc. unfold self. rewrite (Hc Hq). simpl. congruence.
  - congruence.
Qed.

Lemma main_frame workers batch_size w :
  os_path_exists "downloads" w = false →
  let out := main workers batch_size w in
  out.1 = Returns
  ∧ ∀ q, (inside "downloads" q → files (os out.2) !! q = None)
         ∧ (¬ inside "downloads" q → q ≠ zip_name →
            files (os out.2) !! q = files w !! q).
Proof.
  intros Hex. cbv zeta. unfold MainProgram.main.
  cbn [Main.download_dir]. rewrite Hex. split; [done|].
  intros q. cbn [snd].
  destruct (main_cleanup_frame workers
              (attempt {| Main.download_dir := "downloads";
                          Main.max_workers := workers |} batch_size
                 {| os := w; journal := [] |}) q) as [H1 H2].
  cbv zeta in H1, H2. split; [done|].
  intros Hq Hz. rewrite (H2 Hq). by apply main_attempt_frame.
Qed.

End MainProgramFrame.

(** X16.  [main.py] leaves nothing behind but the archive and its log
    records.  When the command [rm -rf downloads] removes the files
    inside the download directory and no others, and the archive command
    writes no file but "videos.zip", then after every run of [main] that
    gets past the constructor no file is left inside the download
    directory, whether an archive was made or not, and every path
    outside it other than "videos.zip" and the two log files holds what
    it held before the run. *)
Theorem main_leaves_only_the_archive
    (md5_hexdigest : string → string) (http_get : world → string → response)
    (console : nat → option string)
    (completes_first : world → list video_info → nat)
    (json_load : world → string → option schema)
    (subprocess_run : list string → world → bool * world)
    (workers batch_size : nat) (w : world) :
  (∀ w q, q ≠ zip_name →
     files (subprocess_run (zip_command "downloads") w).2 !! q
     = files w !! q) →
  (∀ w q,
     (inside "downloads" q →
      files (subprocess_run (rm_command "downloads") w).2 !! q = None)
     ∧ (¬ inside "downloads" q →
        files (subprocess_run (rm_command "downloads") w).2 !! q
        = files w !! q)) →
  os_path_exists "downloads" w = false →
  let out := MainProgram.main md5_hexdigest http_get console
               completes_first json_load subprocess_run
               workers batch_size w in
  out.1 = Returns
  ∧ ∀ q, (inside "downloads" q → files (os out.2) !! q = None)
         ∧ (¬ inside "downloads" q → q ≠ zip_name →
            is_log_file q = false →
            files (os out.2) !! q = files w !! q).
Proof.
  intros Hzip Hrm Hex. cbv zeta.
  destruct (main_frame md5_hexdigest http_get console completes_first
              json_load subprocess_run Hzip Hrm workers batch_size w Hex)
    as [Hret Hq].
  split; [done|]. intros q. destruct (Hq q) as [H1 H2].
  split; [done|]. intros Hin Hz _. by apply H2.
Qed.

Lemma main_leaves_only_the_archive_witness :
  let out := MainProgram.main Sample.md5_hexdigest Sample.serves
               Sample.says_yes Sample.in_order SampleHost.json_load
               SampleHost.subprocess_run 2 2 SampleHost.home in
  out.1 = Returns
  ∧ ∀ q, (inside "downloads" q → files (os out.2) !! q = None)
         ∧ (¬ inside "downloads" q → q ≠ zip_name →
            is_log_file q = false →
            files (os out.2) !! q = files SampleHost.home !! q).
Proof.
  apply (main_leaves_only_the_archive Sample.md5_hexdigest Sample.serves
           Sample.says_yes Sample.in_order SampleHost.json_load
           SampleHost.subprocess_run 2 2 SampleHost.home).
  - intros w q Hq. simpl. by rewrite lookup_insert_ne.
  - intros w q. unfold SampleHost.subprocess_run, rm_command.
    cbn [snd files set_files]. split.
    + intros Hq. apply map_lookup_filter_None. right.
      intros x _. cbn [fst]. unfold inside in Hq.
      change ("downloads" +:+ "/") with "downloads/" in Hq.
      by rewrite Hq.
    + intros Hq. unfold inside in Hq.
      change ("downloads" +:+ "/") with "downloads/" in Hq.
      apply not_true_is_false in Hq.
      destruct (files w !! q) as [x|] eqn:Hx.
      * apply map_lookup_filter_Some. by split.
      * apply map_lookup_filter_None. by left.
  - reflexivity.
Defined.

Section ClosedConsole.

Lemma chunks_two {A} (l : list A) n :
  1 ≤ n → n < length l →
  ∃ c rest, chunks n l = take n l :: c :: rest.
Proof.
  intros Hn Hl. unfold chunks.
  destruct l as [|x l]; [simpl in Hl; lia|].
  cbn [length chunks_from].
  destruct (drop n (x :: l)) as [|y l'] eqn:Hd.
  { apply (f_equal length) in Hd. rewrite length_drop in Hd.
    simpl in Hd, Hl. lia. }
  destruct (length l) as [|k] eqn:Hk; [simpl in Hl; lia|].
  cbn [chunks_from]. by eexists _, _.
Qed.

Variable md5_hexdigest : string → string.
Variable http_get : world → string → response.
Variable console : nat → option string.
Variable completes_first : world → list video_info → nat.
Variable self : Main.TikTokDownloader.

(** With a closed console and more tasks than a batch holds, the run
    goes through the first batch and raises [EOFError]. *)
Lemma main_run_closed_console videos batch_size w :
  1 ≤ batch_size → batch_size < length videos →
  console (prompts w) = None →
  let out := Main.run md5_hexdigest http_get console completes_first self
               videos batch_size w in
  out.1 = Raise EOFError
  ∧ pool_events (log out.2) = pool_trace (take batch_size videos).
Proof.
  intros Hbs Hlen Hnone. cbv zeta.
  destruct (main_run_went_through md5_hexdigest http_get console
              completes_first self videos batch_size w Hbs)
    as (m & Hpool & Hyes & Hcase).
  cbv zeta in Hpool, Hyes, Hcase.
  destruct (chunks_two videos batch_size Hbs Hlen) as (c & rest & Hch).
  rewrite Hch in Hpool, Hcase. cbn [length] in Hcase.
  assert (Hm : m ≤ 1).
  { destruct (decide (m ≤ 1)) as [|Hn]; [done|].
    destruct (Hyes 0 ltac:(lia)) as (line & Hl & _).
    rewrite Nat.add_0_r in Hl. congruence. }
  destruct (m <? S (S (length rest))) eqn:Hlt.
  - destruct Hcase as (H1 & _ & Hc).
    assert (m = 1) as -> by lia. simpl in Hc.
    rewrite Nat.add_0_r, Hnone in Hc. split; [done|].
    rewrite Hpool. cbn [take]. rewrite bind_cons.
    apply app_nil_r.
  - destruct Hcase as (-> & _). lia.
Qed.

End ClosedConsole.

(** X17.  Run with a closed console on an export with more tasks than a
    batch holds, [main.py] loses what it downloads: it goes through the
    first batch, submitting each of its tasks, the prompt for the second
    batch raises [EOFError], which [main] logs as a failed process, no
    archive command is started, and the command that removes the
    download directory is the last thing run: but for the log files,
    the world is left as that command leaves it. *)
Theorem closed_console_loses_the_downloads
    (md5_hexdigest : string → string) (http_get : world → string → response)
    (console : nat → option string)
    (completes_first : world → list video_info → nat)
    (json_load : world → string → option schema)
    (subprocess_run : list string → world → bool * world)
    (workers batch_size : nat) (w : world) (data : schema) :
  os_path_exists "downloads" w = false →
  json_load w "schema.json" = Some data →
  1 ≤ batch_size →
  batch_size < length (get_video_links data) →
  console (prompts w) = None →
  let out := MainProgram.main md5_hexdigest http_get console
               completes_first json_load subprocess_run
               workers batch_size w in
  out.1 = Returns
  ∧ ∃ l wr e,
      journal out.2
      = [Downloaded l; ProcessFailed; Ran (rm_command "downloads") wr; e]
      ∧ pool_events l
        = pool_trace (take batch_size (get_video_links data))
      ∧ log_only (subprocess_run (rm_command "downloads") wr).2 (os out.2).
Proof.
  intros Hex Hload Hbs Hlen Hnone. cbv zeta.
  unfold MainProgram.main. cbn [Main.download_dir]. rewrite Hex.
  split; [done|]. cbn [snd].
  set (self := {| Main.download_dir := "downloads";
                  Main.max_workers := workers |}).
  destruct (main_cleanup_journal subprocess_run self
              (MainProgram.attempt md5_hexdigest http_get console
                 completes_first json_load subprocess_run self batch_size
                 {| os := w; journal := [] |})) as (e & Hj & _ & Hos).
  rewrite Hj, Hos. clear Hj Hos.
  unfold MainProgram.attempt, load_schema. cbn [os]. rewrite Hload.
  case_bool_decide as Hvideos.
  { rewrite Hvideos in Hlen. simpl in Hlen. lia. }
  pose proof (main_run_closed_console md5_hexdigest http_get console
                completes_first self (get_video_links data) batch_size w
                Hbs Hlen Hnone) as [Hraise Hpool].
  cbv zeta in Hraise, Hpool.
  destruct (Main.run _ _ _ _ _ _ _ _) as [c s]. cbn [fst snd] in *.
  subst c. simpl.
  exists (log s), (env s), e. split; [done|]. split; [done|].
  apply log_only_refl.
Qed.

Lemma closed_console_loses_the_downloads_witness :
  let out := MainProgram.main Sample.md5_hexdigest Sample.serves
               SampleHost.closed_console Sample.in_order
               SampleHost.json_load SampleHost.subprocess_run
               2 2 SampleHost.home in
  out.1 = Returns
  ∧ ∃ l wr e,
      journal out.2
      = [Downloaded l; ProcessFailed; Ran (rm_command "downloads") wr; e]
      ∧ pool_events l
        = pool_trace (take 2 (get_video_links Sample.export))
      ∧ log_only (SampleHost.subprocess_run (rm_command "downloads") wr).2
          (os out.2).
Proof.
  apply (closed_console_loses_the_downloads Sample.md5_hexdigest
           Sample.serves SampleHost.closed_console Sample.in_order
           SampleHost.json_load SampleHost.subprocess_run
           2 2 SampleHost.home Sample.export).
  - reflexivity.
  - reflexivity.
  - lia.
  - vm_compute. lia.
  - reflexivity.
Defined.

Section GuiProgramFacts.

Variable md5_hexdigest : string → string.
Variable http_get : world → string → response.
Variable completes_first : world → list video_info → nat.
Variable json_load : world → string → option schema.
Variable subprocess_run : list string → world → bool * world.
Variable directory_exists : string → world → bool.

Lemma gui_cleanup_journal self h :
  ∃ j, journal (GuiProgram.cleanup subprocess_run directory_exists self h)
       = journal h ++ j
       ∧ Forall (fun e => tells_of_archive e = false) j.
Proof.
  unfold GuiProgram.cleanup, run_process.
  destruct (directory_exists _ _).
  - destruct (subprocess_run _ _) as [[] w']; simpl;
      rewrite <- app_assoc; eexists; (split; [done|]);
      by repeat constructor.
  - exists []. by rewrite app_nil_r.
Qed.

Lemma gui_run_download_journal self schema_path is_downloading
    batch_size h :
  ∃ j, journal (GuiProgram.run_download md5_hexdigest http_get
                  completes_first json_load subprocess_run
                  directory_exists self schema_path is_downloading
                  batch_size h)
       = journal h ++ j
       ∧ Forall (fun e => tells_of_archive e = false) j.
Proof.
  unfold GuiProgram.run_download.
  match goal with |- context [GuiProgram.cleanup _ _ _ ?t] =>
    set (tried := t) end.
  assert (Htried : ∃ j, journal tried = journal h ++ j
                        ∧ Forall (fun e => tells_of_archive e = false) j).
  { subst tried. unfold load_schema.
    destruct (json_load (os h) schema_path) as [data|].
    2:{ simpl. rewrite <- app_assoc. eexists. split; [done|].
        by repeat constructor. }
    case_bool_decide as Hvideos.
    { simpl. eexists. split; [done|]. by repeat constructor. }
    pose proof (gui_run_keeps_nothing
                  (Gui.worker md5_hexdigest http_get self)
                  os_path_exists os_path_getsize completes_first self
                  (Some (fun w => negb (is_downloading w)))
                  (get_video_links data) batch_size (os h)) as [_ Hend].
    cbv zeta in Hend. unfold Gui.run.
    destruct (Gui.parallel_download_videos _ _ _ _ _ _ _ _ _) as [c s].
    cbn [fst snd] in *.
    destruct Hend as [-> |[ex ->]].
    - rewrite bool_decide_eq_true_2 by done. simpl.
      rewrite <- app_assoc. eexists. split; [done|].
      by repeat constructor.
    - simpl. rewrite <- app_assoc. eexists. split; [done|].
      by repeat constructor. }
  destruct Htried as (j1 & Hj1 & Hq1).
  destruct (gui_cleanup_journal self tried) as (j2 & -> & Hq2).
  exists (j1 ++ j2). rewrite Hj1, <- app_assoc. split; [done|].
  by apply Forall_app.
Qed.

End GuiProgramFacts.

(** X18.  The GUI never makes the archive.  Whatever the export, the
    server, the stop flags, the order of completions and the programs
    started do, [run_download] starts no archive command and removes no
    old archive, and it never logs that an archive was created or that
    the process completed successfully: the scheduler it calls returns
    the empty list or raises. *)
Theorem gui_never_makes_the_archive
    (md5_hexdigest : string → string) (http_get : world → string → response)
    (completes_first : world → list video_info → nat)
    (json_load : world → string → option schema)
    (subprocess_run : list string → world → bool * world)
    (directory_exists : string → world → bool)
    (self : Gui.TikTokDownloader world) (schema_path : string)
    (is_downloading : world → bool) (batch_size : nat) (h : host) :
  ∃ j, journal (GuiProgram.run_download md5_hexdigest http_get
                  completes_first json_load subprocess_run
                  directory_exists self schema_path is_downloading
                  batch_size h)
       = journal h ++ j
       ∧ Forall (fun e => tells_of_archive e = false) j.
Proof. apply gui_run_download_journal. Qed.

Section GuiProgramFrame.

Variable md5_hexdigest : string → string.
Variable http_get : world → string → response.
Variable completes_first : world → list video_info → nat.
Variable json_load : world → string → option schema.
Variable subprocess_run : list string → world → bool * world.
Variable directory_exists : string → world → bool.
Variable self : Gui.TikTokDownloader world.

Hypothesis Hdir : Gui.download_dir self ≠ EmptyString.
Hypothesis Hslash : Py.endswith (Gui.download_dir self) "/" = false.

(** A run of the GUI scheduler writes inside the download directory
    only. *)
Lemma gui_run_inside videos batch_size stop_event w q :
  ¬ inside (Gui.download_dir self) q →
  files (env (Gui.run md5_hexdigest http_get completes_first self videos
                batch_size stop_event w).2) !! q
  = files w !! q.
Proof.
  intros Hq. unfold Gui.run.
  pose proof (gui_run_invariant (Gui.worker md5_hexdigest http_get self)
                os_path_exists os_path_getsize completes_first self
                stop_event videos batch_size
                (fun s => files (env s) !! q = files w !! q)) as H.
  destruct (H ltac:(clear; by intros s e He)
              ltac:(clear; by intros s Hs)) with (w := w)
    as (s & Hs & _ & Hout).
  - intros i v s _ Hs. simpl. unfold Gui.worker.
    pose proof (gui_download_video_frame md5_hexdigest http_get self v
                  (env s) q) as Hf.
    destruct (Gui.download_video _ _ _ _ _) as [r w']. simpl in *.
    rewrite Hf; [done|]. intros Hp. by apply Hq, (filepath_inside md5_hexdigest _ v).
  - intros v r s _ Hs _. unfold progressed.
    set (s1 := count_processed _).
    pose proof (filed_unchanged os_path_exists os_path_getsize (url v) r s1)
      as (_ & He & _).
    destruct (Gui.gui_callback self); simpl; by rewrite He.
  - done.
  - cbv zeta in Hout.
    by destruct Hout as [-> |[[_ ->]|[-> _]]].
Qed.

Hypothesis Hrm : ∀ w q,
  (inside (Gui.download_dir self) q →
   files (subprocess_run (rm_command (Gui.download_dir self)) w).2 !! q
   = None)
  ∧ (¬ inside (Gui.download_dir self) q →
     files (subprocess_run (rm_command (Gui.download_dir self)) w).2 !! q
     = files w !! q).
Hypothesis Hexists : ∀ w, directory_exists (Gui.download_dir self) w = true.

Lemma gui_run_download_frame schema_path is_downloading batch_size h q :
  let h' := GuiProgram.run_download md5_hexdigest http_get completes_first
              json_load subprocess_run directory_exists self schema_path
              is_downloading batch_size h in
  (inside (Gui.download_dir self) q → files (os h') !! q = None)
  ∧ (¬ inside (Gui.download_dir self) q →
     files (os h') !! q = files (os h) !! q).
Proof.
  cbv zeta. unfold GuiProgram.run_download.
  match goal with |- context [GuiProgram.cleanup _ _ _ ?t] =>
    set (tried := t) end.
  assert (Htried : ¬ inside (Gui.download_dir self) q →
                   files (os tried) !! q = files (os h) !! q).
  { intros Hq. subst tried. unfold load_schema.
    destruct (json_load (os h) schema_path) as [data|]; [|done].
    case_bool_decide as Hvideos; [done|].
    pose proof (gui_run_keeps_nothing
                  (Gui.worker md5_hexdigest http_get self)
                  os_path_exists os_path_getsize completes_first self
                  (Some (fun w => negb (is_downloading w)))
                  (get_video_links data) batch_size (os h)) as [_ Hend].
    pose proof (gui_run_inside (get_video_links data) batch_size
                  (Some (fun w => negb (is_downloading w))) (os h) q Hq)
      as Hframe.
    cbv zeta in Hend. unfold Gui.run in *.
    destruct (Gui.parallel_download_videos _ _ _ _ _ _ _ _ _) as [c s].
    cbn [fst snd] in *.
    destruct Hend as [-> |[ex ->]].
    - by rewrite bool_decide_eq_true_2.
    - done. }
  unfold GuiProgram.cleanup, run_process. rewrite Hexists.
  pose proof (Hrm (os tried) q) as [H1 H2].
  destruct (subprocess_run _ (os tried)) as [[] w']; simpl in *.
  - split; [done|]. intros Hq. rewrite (H2 Hq). by apply Htried.
  - split; [done|]. intros Hq. rewrite (H2 Hq). by apply Htried.
Qed.

End GuiProgramFrame.

(** X19.  The GUI leaves nothing behind but its log records.  When the
    download directory exists as [cleanup] looks for it and [rm -rf]
    removes the files inside it and no others, then after
    [run_download], whatever the export, the server, the stop flags and
    the order of completions, no file is left inside the download
    directory and every path outside it other than the two log files
    holds what it held before: what was downloaded is removed and, no
    archive being made, nothing is kept. *)
Theorem gui_leaves_nothing
    (md5_hexdigest : string → string) (http_get : world → string → response)
    (completes_first : world → list video_info → nat)
    (json_load : world → string → option schema)
    (subprocess_run : list string → world → bool * world)
    (directory_exists : string → world → bool)
    (self : Gui.TikTokDownloader world) (schema_path : string)
    (is_downloading : world → bool) (batch_size : nat) (h : host) :
  Gui.download_dir self ≠ EmptyString →
  Py.endswith (Gui.download_dir self) "/" = false →
  (∀ w q,
     (inside (Gui.download_dir self) q →
      files (subprocess_run (rm_command (Gui.download_dir self)) w).2 !! q
      = None)
     ∧ (¬ inside (Gui.download_dir self) q →
        files (subprocess_run (rm_command (Gui.download_dir self)) w).2 !! q
        = files w !! q)) →
  (∀ w, directory_exists (Gui.download_dir self) w = true) →
  let h' := GuiProgram.run_download md5_hexdigest http_get completes_first
              json_load subprocess_run directory_exists self schema_path
              is_downloading batch_size h in
  ∀ q, (inside (Gui.download_dir self) q → files (os h') !! q = None)
       ∧ (¬ inside (Gui.download_dir self) q → is_log_file q = false →
          files (os h') !! q = files (os h) !! q).
Proof.
  intros Hdir Hslash Hrm Hexists h' q.
  destruct (gui_run_download_frame md5_hexdigest http_get completes_first
              json_load subprocess_run directory_exists self Hdir Hslash
              Hrm Hexists schema_path is_downloading batch_size h q)
    as [H1 H2].
  split; [done|]. intros Hq _. by apply H2.
Qed.

Lemma gui_leaves_nothing_witness :
  let h' := GuiProgram.run_download Sample.md5_hexdigest Sample.serves
              Sample.in_order SampleHost.json_load
              SampleHost.subprocess_run (fun _ _ => true)
              (Sample.gui_downloader None) "schema.json" (fun _ => true) 2
              {| os := SampleHost.home; journal := [] |} in
  (inside "downloads" Sample.path_a → files (os h') !! Sample.path_a = None)
  ∧ (¬ inside "downloads" Sample.path_a →
     is_log_file Sample.path_a = false →
     files (os h') !! Sample.path_a = files SampleHost.home !! Sample.path_a).
Proof.
  refine (gui_leaves_nothing Sample.md5_hexdigest Sample.serves
            Sample.in_order SampleHost.json_load SampleHost.subprocess_run
            (fun _ _ => true) (Sample.gui_downloader None) "schema.json"
            (fun _ => true) 2 {| os := SampleHost.home; journal := [] |}
            _ _ _ _ Sample.path_a).
  - by vm_compute.
  - reflexivity.
  - intros w q. unfold SampleHost.subprocess_run, rm_command.
    cbn [snd files set_files Gui.download_dir Sample.gui_downloader].
    split.
    + intros Hq. apply map_lookup_filter_None. right.
      intros x _. cbn [fst]. unfold inside in Hq.
      change ("downloads" +:+ "/") with "downloads/" in Hq.
      by rewrite Hq.
    + intros Hq. unfold inside in Hq.
      change ("downloads" +:+ "/") with "downloads/" in Hq.
      apply not_true_is_false in Hq.
      destruct (files w !! q) as [x|] eqn:Hx.
      * apply map_lookup_filter_Some. by split.
      * apply map_lookup_filter_None. by left.
  - reflexivity.
Defined.

(** ** The extractor and the scheduler of [main.py] together *)

Section ExtractedTasks.

Lemma get_video_links_nodup data : NoDup (url <$> get_video_links data).
Proof.
  destruct (get_video_links_extracted data) as (st & ((_ & Hnd) & _) & Hp).
  by rewrite Hp.
Qed.

Lemma tasks_of_range videos batch_size :
  1 ≤ batch_size →
  tasks_of videos batch_size (Py.range (length videos) batch_size) = videos.
Proof.
  intros Hbs. rewrite <- (chunks_concat batch_size videos Hbs) at 3.
  rewrite <- range_slices. unfold tasks_of.
  induction (Py.range _ _) as [|i l IH]; [done|].
  by rewrite bind_cons, fmap_cons, concat_cons, IH.
Qed.

Context {W : Type}.
Variable submit : video_info → W → future_result * W.
Variable path_exists : string → W → bool.
Variable getsize : string → W → nat.
Variable completes_first : W → list video_info → nat.
Variable input : W → option string * W.
Variable videos : list video_info.
Variable batch_size : nat.

Hypothesis Hnodup : NoDup (url <$> videos).
Hypothesis Hbs : 1 ≤ batch_size.

(** No line of the log tells of a skipped duplicate or of a stop, and
    the processed URLs are those of the tasks [gone], which with the
    tasks [todo] make up the task list. *)
Let tracked (todo : list video_info) (s : locals W) : Prop :=
  Forall (fun e => is_skip e = false) (log s)
  ∧ (StoppingAtUserRequest ∉ log s)
  ∧ ∃ gone, gone ++ todo ≡ₚ videos
            ∧ ∀ u, u ∈ processed_urls s ↔ u ∈ url <$> gone.

Lemma tracked_emit todo s e :
  is_skip e = false → e ≠ StoppingAtUserRequest →
  tracked todo s → tracked todo (emit e s).
Proof.
  intros He Hne (H1 & H2 & H3). split; [|split; [|done]]; simpl.
  - apply Forall_app. split; [done|]. by apply Forall_singleton.
  - rewrite elem_of_app, list_elem_of_singleton. naive_solver.
Qed.

Lemma main_run_tracked w :
  let out := Main.parallel_download_videos submit path_exists getsize
               completes_first input videos batch_size w in
  Forall (fun e => is_skip e = false) (log out.2)
  ∧ match out.1 with
    | Return x =>
        StoppingAtUserRequest ∈ log out.2
        ∨ (size (processed_urls out.2) = length videos
           ∧ length x + length (all_failed_downloads out.2) = length videos)
    | _ => True
    end.
Proof.
  cbv zeta.
  pose proof (main_run_accounted submit path_exists getsize completes_first
                input videos batch_size w Hbs) as (Hacc & _).
  cbv zeta in Hacc.
  pose proof (main_run_any_rule submit path_exists getsize completes_first
    input videos batch_size
    (fun rest s => tracked (tasks_of videos batch_size rest) s)
    (fun i rest pending s =>
       tracked (pending ++ tasks_of videos batch_size rest) s)
    w Hbs) as Hrun.
  cbv zeta in Hrun.
  destruct Hrun as
    [(s & (Hskip & Hstop & gone & Hperm & Hproc) & Hout)
    |(dn & i & rest & s & _ & _ & (Hskip & Hstop & _) & Hcase)].
  - split; [constructor|]. split; [by intros ?%elem_of_nil|].
    exists []. rewrite tasks_of_range by done. split; [done|].
    intros u. simpl. set_solver.
  - intros dn i rest s _ Ht _. unfold main_opened, opened.
    assert (Hcons : tasks_of videos batch_size (i :: rest)
                    = Py.slice videos i (i + batch_size)
                      ++ tasks_of videos batch_size rest) by done.
    rewrite Hcons in Ht.
    apply tracked_emit; [done|done|].
    assert (Hnew : ∀ s', tracked
                           (Py.slice videos i (i + batch_size)
                            ++ tasks_of videos batch_size rest) s' →
                         tracked
                           (Py.slice videos i (i + batch_size)
                            ++ tasks_of videos batch_size rest)
                           (new_batch_lists s')) by (by intros s').
    apply Hnew.
    destruct (0 <? i).
    + assert (Henv : ∀ s' w', tracked
                                (Py.slice videos i (i + batch_size)
                                 ++ tasks_of videos batch_size rest) s' →
                              tracked
                                (Py.slice videos i (i + batch_size)
                                 ++ tasks_of videos batch_size rest)
                                (set_env w' s')) by (by intros s' w').
      apply Henv. by apply tracked_emit.
    + by apply tracked_emit.
  - intros i rest pending k v s Hk (Hskip & Hstop & gone & Hperm & Hproc).
    rewrite main_on_completion_eq.
    assert (Hpending : pending ≡ₚ v :: delete k pending)
      by (by apply delete_Permutation).
    assert (Hfresh : url v ∉ url <$> gone).
    { intros Hin. rewrite <- Hperm, Hpending in Hnodup.
      rewrite !fmap_app, fmap_cons in Hnodup.
      apply NoDup_app in Hnodup as (_ & Hdis & _).
      apply (Hdis _ Hin). apply elem_of_app. left. by left. }
    rewrite bool_decide_eq_false_2; [|simpl; by rewrite Hproc].
    cbn [snd].
    set (s1 := add_processed _ _).
    pose proof (filed_unchanged path_exists getsize (url v)
                  (submit v (env s)).1 s1) as (Hp & _).
    destruct (filed_log path_exists getsize (url v) (submit v (env s)).1 s1)
      as (e & Hlog & He).
    assert (He' : is_skip e = false ∧ e ≠ StoppingAtUserRequest).
    { destruct He as [[p ->]| ->]; [done|].
      destruct (failure_event_cases (url v) (submit v (env s)).1)
        as [[p ->]|[-> | ->]]; done. }
    split; [|split].
    + rewrite Hlog. apply Forall_app. split; [done|].
      apply Forall_singleton, He'.
    + rewrite Hlog, elem_of_app, list_elem_of_singleton.
      intros [?|?]; [done|]. by destruct He' as [_ []].
    + exists (gone ++ [v]). split.
      * etransitivity; [|exact Hperm].
        rewrite <- app_assoc. apply Permutation_app_head.
        symmetry.
        exact (Permutation_app_tail
                 (tasks_of videos batch_size rest) Hpending).
      * intros u. rewrite Hp. subst s1. simpl.
        rewrite elem_of_union, elem_of_singleton, Hproc, fmap_app.
        rewrite elem_of_app. simpl. rewrite list_elem_of_singleton.
        naive_solver.
  - intros i rest s Ht. unfold closed.
    apply tracked_emit; [done|done|].
    assert (Hext : ∀ s', tracked (tasks_of videos batch_size rest) s' →
                         tracked (tasks_of videos batch_size rest)
                           (extend_totals s')) by (by intros s').
    apply Hext. by apply tracked_emit.
  - rewrite Hout. cbn [fst snd]. unfold summed. simpl. split.
    + apply Forall_app. split; [done|]. by apply Forall_singleton.
    + right. rewrite Hout in Hacc. simpl in Hacc.
      pose proof Hacc as Hlen.
      assert (Hsize : size (processed_urls s) = length videos).
      { unfold tasks_of in Hperm. simpl in Hperm.
        rewrite app_nil_r in Hperm.
        assert (processed_urls s = list_to_set (url <$> gone)) as ->.
        { apply set_eq. intros u. rewrite Hproc. set_solver. }
        rewrite size_list_to_set by (by rewrite Hperm).
        by rewrite length_fmap, Hperm. }
      split; [done|]. by rewrite Hlen.
  - destruct ((input _).1) as [line|].
    + destruct Hcase as [_ ->]. cbn [fst snd].
      unfold summed, main_stopped, main_answered, main_asking. simpl.
      split.
      * rewrite !Forall_app, !Forall_singleton. done.
      * left. rewrite !elem_of_app, !list_elem_of_singleton. naive_solver.
    + rewrite Hcase. cbn [fst snd].
      unfold main_answered, main_asking. simpl. split; [|done].
      rewrite !Forall_app, !Forall_singleton. done.
Qed.

End ExtractedTasks.

(** X20.  On the tasks that [get_video_links] extracts, the duplicate
    check of the scheduler of [main.py] never fires: no completion is
    skipped as a duplicate, whatever the export, the workers, the order
    of completions and the answers.  And when the run returns without
    having been stopped at a prompt, every extracted task has been
    processed and is counted once: the number of processed URLs is the
    number of tasks, and so is the number of returned paths plus the
    number of failures. *)
Theorem main_processes_every_extracted_task {W : Type}
    (submit : video_info → W → future_result * W)
    (path_exists : string → W → bool) (getsize : string → W → nat)
    (completes_first : W → list video_info → nat)
    (input : W → option string * W)
    (data : schema) (batch_size : nat) (w : W) :
  let videos := get_video_links data in
  let out := Main.parallel_download_videos submit path_exists getsize
               completes_first input videos batch_size w in
  Forall (fun e => is_skip e = false) (log out.2)
  ∧ match out.1 with
    | Return x =>
        StoppingAtUserRequest ∈ log out.2
        ∨ (size (processed_urls out.2) = length videos
           ∧ length x + length (all_failed_downloads out.2) = length videos)
    | _ => True
    end.
Proof.
  cbv zeta. destruct (batch_size =? 0) eqn:H0.
  { unfold Main.parallel_download_videos. rewrite H0.
    split; [constructor|done]. }
  apply Nat.eqb_neq in H0.
  apply main_run_tracked; [apply get_video_links_nodup|lia].
Qed.

(** ** The two schedulers side by side *)

Section SideBySide.

Context {W : Type}.
Variable submit : video_info → W → future_result * W.
Variable path_exists : string → W → bool.
Variable getsize : string → W → nat.
Variable completes_first : W → list video_info → nat.
Variable input : W → option string * W.
Variable gself : Gui.TikTokDownloader W.
Variable stop_event : option (W → bool).
Variable videos : list video_info.
Variable batch_size : nat.

Hypothesis Hbs : 1 ≤ batch_size.
Hypothesis Hyes : always_yes input.
Hypothesis Hsilent : silent_console input.
Hypothesis Hself : never_set (Gui.stop_event gself).
Hypothesis Hstop : never_set stop_event.

Local Abbreviation main_completion :=
  (Main.on_completion path_exists getsize).
Local Abbreviation gui_completion :=
  (Gui.on_completion path_exists getsize gself (length videos)).

Lemma in_step_emit (s s' : locals W) e e' :
  (∀ p, e ≠ Verified p) → (∀ p, e' ≠ Verified p) →
  in_step s s' → in_step (emit e s) (emit e' s').
Proof.
  intros He He' (H1 & H2 & H3). split; [done|]. split; [done|]. simpl.
  by rewrite !verified_paths_snoc_other.
Qed.

Lemma in_step_emit_right (s s' : locals W) e' :
  (∀ p, e' ≠ Verified p) → in_step s s' → in_step s (emit e' s').
Proof.
  intros He' (H1 & H2 & H3). split; [done|]. split; [done|]. simpl.
  by rewrite verified_paths_snoc_other.
Qed.

Lemma in_step_filed u r (s s' : locals W) :
  in_step s s' →
  in_step (filed path_exists getsize u r s)
    (filed path_exists getsize u r s').
Proof.
  intros (H1 & H2 & H3). unfold filed. rewrite <- H1.
  destruct (verified_path _ _ _ _) as [p|].
  - split; [done|]. split; [done|]. simpl.
    by rewrite !verified_paths_snoc, H3.
  - split; [done|]. split; [done|]. simpl.
    rewrite !verified_paths_snoc_other; [done| |];
      apply failure_event_not_verified.
Qed.

(** One completion in both loops. *)
Lemma completion_in_step v r (s s' : locals W) :
  in_step s s' →
  let out := main_completion v r s in
  let out' := gui_completion v r s' in
  after_turn out.1 = None ∧ after_turn out'.1 = None
  ∧ in_step out.2 out'.2.
Proof.
  intros Hs. cbv zeta.
  rewrite main_on_completion_eq, gui_on_completion_eq, Hself,
    gui_account_eq.
  destruct Hs as (H1 & H2 & H3). rewrite <- H2.
  case_bool_decide; cbn [fst snd after_turn].
  - split; [done|]. split; [done|]. by apply in_step_emit.
  - split; [done|]. split; [done|].
    assert (Hf : in_step
              (filed path_exists getsize (url v) r
                 (add_processed (url v) s))
              (filed path_exists getsize (url v) r
                 (count_processed (add_processed (url v) s')))).
    { apply in_step_filed. split; [done|]. split; [|done].
      simpl. by rewrite H2. }
    unfold progressed. destruct (Gui.gui_callback gself); [|done].
    by apply in_step_emit_right.
Qed.

(** The completion loops of the two schedulers on the same batch. *)
Lemma completions_in_step i : ∀ n pending (s s' : locals W),
  length pending = n → in_step s s' →
  let out := as_completed submit completes_first n i pending
               main_completion s in
  let out' := as_completed submit completes_first n i pending
                gui_completion s' in
  out.1 = Normal ∧ out'.1 = Normal ∧ in_step out.2 out'.2.
Proof.
  induction n as [|n IH]; intros pending s s' Hlen Hs; [done|].
  cbv zeta. cbn [as_completed].
  rewrite <- (proj1 Hs).
  destruct (pending !! _) as [v|] eqn:Hk; [|done].
  destruct (submit v (env s)) as [r w1].
  assert (H1 : in_step (set_future (i, v, r) (set_env w1 s))
                 (set_future (i, v, r) (set_env w1 s'))).
  { destruct Hs as (_ & H2 & H3). by split. }
  destruct (completion_in_step v r _ _ H1) as (Hc & Hc' & H2).
  destruct (main_completion v r _) as [c t].
  destruct (gui_completion v r _) as [c' t'].
  cbn [fst snd] in *. rewrite Hc, Hc'.
  apply IH; [|done].
  rewrite length_delete by eauto. lia.
Qed.

(** One turn of the batch loops. *)
Lemma batch_turns_in_step i (s s' : locals W) :
  i < length videos → in_step s s' →
  let out := Main.batch_turn submit path_exists getsize
               completes_first input videos batch_size i s in
  let out' := Gui.batch_turn submit path_exists getsize
                completes_first gself stop_event videos batch_size i s' in
  out.1 = Normal ∧ out'.1 = Continue ∧ in_step out.2 out'.2.
Proof.
  intros Hi Hs. cbv zeta.
  rewrite main_batch_turn_eq by done. cbv zeta.
  pose proof (gui_batch_turn_pool submit path_exists getsize
                completes_first gself stop_event videos batch_size
                Hself Hstop Hbs i s' Hi) as [Hcont _].
  cbv zeta in Hcont. revert Hcont.
  rewrite gui_batch_turn_eq. cbv zeta. rewrite Hstop.
  set (batch := Py.slice videos i (i + batch_size)).
  assert (H0 : in_step (main_opened input videos batch_size i s)
                 (opened batch
                    (emit (ProcessingBatch (i / batch_size + 1)) s'))).
  { unfold main_opened, opened. fold batch.
    apply in_step_emit; [done|done|].
    destruct Hs as (He & H2 & H3).
    destruct (0 <? i); (split; [|split; [done|]]); simpl;
      rewrite ?Hsilent, ?verified_paths_snoc_other by done; done. }
  destruct (completions_in_step i (length batch) batch _ _ eq_refl H0)
    as (Hn & Hn' & H1).
  destruct (as_completed submit _ _ _ _ main_completion _) as [c1 s1].
  destruct (as_completed submit _ _ _ _ gui_completion _) as [c1' s1'].
  cbn [fst snd] in *. subst c1 c1'.
  rewrite gui_finally_eq.
  assert (Hshut : in_step (closed (i / batch_size + 1) s1)
                    (emit (Shutdown true) s1')).
  { unfold closed. destruct H1 as (Ha & Hb & Hc).
    split; [done|]. split; [done|]. simpl.
    by rewrite !verified_paths_snoc_other. }
  destruct (future s1') as [[[j v] r]|].
  - destruct (j =? i).
    + rewrite gui_account_eq. case_bool_decide; cbn [fst snd].
      * intros _. split; [done|]. split; [done|].
        by apply in_step_emit_right.
      * destruct (Gui.gui_callback gself); discriminate.
    + discriminate.
  - discriminate.
Qed.

Lemma runs_in_step w :
  let out := Main.parallel_download_videos submit path_exists getsize
               completes_first input videos batch_size w in
  let out' := Gui.parallel_download_videos submit path_exists getsize
                completes_first gself videos batch_size stop_event w in
  in_step out.2 out'.2
  ∧ out.1 = Return (verified_paths (log out'.2))
  ∧ out'.1 = Return [].
Proof.
  cbv zeta.
  pose proof (main_totals_are_verified submit path_exists
                getsize completes_first input
                videos batch_size w Hbs) as [Hver _].
  pose proof (gui_run_keeps_nothing submit path_exists
                getsize completes_first gself stop_event videos
                batch_size w) as [Hnone _].
  cbv zeta in Hver, Hnone. revert Hver Hnone.
  unfold Main.parallel_download_videos, Gui.parallel_download_videos.
  destruct (batch_size =? 0) eqn:H0; [apply Nat.eqb_eq in H0; lia|].
  assert (Hloop : ∀ l (s s' : locals W),
    (∀ i, i ∈ l → i < length videos) → in_step s s' →
    ∃ t t',
      for_ l (Main.batch_turn submit path_exists getsize
                completes_first input videos batch_size)
        s = (Normal, t)
      ∧ for_ l (Gui.batch_turn submit path_exists getsize
                  completes_first gself stop_event videos batch_size)
          s' = (Normal, t')
      ∧ in_step t t').
  { induction l as [|i l IH]; intros s s' Hl Hs.
    - by exists s, s'.
    - cbn [for_].
      destruct (batch_turns_in_step i s s' (Hl i ltac:(by left)) Hs)
        as (Hc & Hc' & Ht).
      destruct (Main.batch_turn _ _ _ _ _ _ _ _ _) as [c t].
      destruct (Gui.batch_turn _ _ _ _ _ _ _ _ _ _) as [c' t'].
      cbn [fst snd] in *. subst c c'. cbn [after_turn].
      apply IH; [|done]. intros j Hj. apply Hl. by right. }
  destruct (Hloop (Py.range (length videos) batch_size)
              (initial w) (initial w))
    as (t & t' & Hfor & Hfor' & Ht).
  { intros i. apply range_bound. }
  { done. }
  rewrite (then_run _ _ _ _ _ Hfor), (then_run _ _ _ _ _ Hfor').
  unfold then_, exec. cbn [fst snd]. intros Hver Hnone.
  assert (Hfin : in_step (summed t) (summed t')).
  { unfold summed. by apply in_step_emit. }
  split; [exact Hfin|]. split.
  - f_equal. etransitivity; [exact Hver|]. apply Hfin.
  - f_equal. exact Hnone.
Qed.

End SideBySide.



